(** * Storyline AI bridge: the request handler, the session store gateway
    and the provider adapters of [netlify/functions], embedded in Rocq.

    Source files embedded here:
    - [netlify/functions/generate.js]   (session gateway, message model, handler)
    - [netlify/functions/providers/openai.js]   (OpenAI text and audio adapters)
    - [netlify/functions/providers/mistral.js]  (Mistral text adapter)
    - [netlify/functions/providers/yandex.js]   (Yandex text and audio adapters)
    - [netlify/functions/providers/gemini.js]   (Gemini text and audio adapters)

    JavaScript strings are sequences of UTF-16 code units; values that may be
    [undefined] are options; the blob store is a finite map; the network is an
    oracle indexed by the number of calls already made, and every request sent
    is recorded in the world. *)

From Stdlib Require Import ZArith NArith String Ascii.
From stdpp Require Import gmap list.

Local Open Scope Z_scope.

(** ** JavaScript strings and the few primitives the code relies on *)

Module JS.

(** A string is the list of its UTF-16 code units. *)
Abbreviation jsstring := (list N).

(** A literal of the source: for ASCII text, its code units (for any other
    text, the bytes of the literal as written in this file, in UTF-8). *)
Definition js (s : string) : jsstring :=
  N_of_ascii <$> list_ascii_of_string s.

(** ECMAScript [WhiteSpace] and [LineTerminator] code points, the ones
    [String.prototype.trim] strips; all of them are in the basic plane. *)
Definition is_whitespace (c : N) : bool :=
  ((c =? 9) || (c =? 10) || (c =? 11) || (c =? 12) || (c =? 13) || (c =? 32)
   || (c =? 160) || (c =? 5760) || ((8192 <=? c) && (c <=? 8202))
   || (c =? 8232) || (c =? 8233) || (c =? 8239) || (c =? 8287)
   || (c =? 12288) || (c =? 65279))%N.

Fixpoint trimStart (s : jsstring) : jsstring :=
  match s with
  | c :: s' => if is_whitespace c then trimStart s' else s
  | [] => []
  end.

(** [s.trim()] *)
Definition trim (s : jsstring) : jsstring :=
  reverse (trimStart (reverse (trimStart s))).

(** Truthiness of a value that is a string or [undefined]. *)
Definition truthy (v : option jsstring) : bool :=
  match v with
  | Some (_ :: _) => true
  | _ => false
  end.

(** [a || b] on such values. *)
Definition or_else (a b : option jsstring) : option jsstring :=
  if truthy a then a else b.

(** [v || ''] *)
Definition or_empty (v : option jsstring) : jsstring :=
  if truthy v then default [] v else [].

(** [v ?? ''] *)
Definition nullish_empty (v : option jsstring) : jsstring := default [] v.

(** [ToString] as used by template literals and [+=]. *)
Definition to_string (v : option jsstring) : jsstring :=
  default (js "undefined") v.

(** [arr.slice(start)] for an integral [start]: a negative start counts
    from the end, and both ends are clamped. *)
Definition slice_from {A} (start : Z) (l : list A) : list A :=
  let len := Z.of_nat (length l) in
  let k := if start <? 0 then Z.max (len + start) 0 else Z.min start len in
  drop (Z.to_nat k) l.

(** Surrogate code units: the first and the second half of a pair. *)
Definition is_high_surrogate (c : N) : bool := ((55296 <=? c) && (c <=? 56319))%N.
Definition is_low_surrogate (c : N) : bool := ((56320 <=? c) && (c <=? 57343))%N.

(** [s.isWellFormed()]: no surrogate outside a pair. [encodeURIComponent(s)]
    throws a [URIError] exactly on the strings that are not well formed. *)
Fixpoint isWellFormed (s : jsstring) : bool :=
  match s with
  | [] => true
  | c :: rest =>
      if is_high_surrogate c
      then match rest with
           | d :: rest' => is_low_surrogate d && isWellFormed rest'
           | [] => false
           end
      else negb (is_low_surrogate c) && isWellFormed rest
  end.

(** [200 <= status <= 299], the [ok] flag of a fetch response. *)
Definition status_ok (status : Z) : bool :=
  (200 <=? status) && (status <=? 299).

End JS.
Import JS.

(** ** Message model ([generate.js]) *)

Inductive Role := System | User | Assistant.

#[global] Instance Role_eq_dec : EqDecision Role.
Proof. solve_decision. Defined.

(** One message object [{ role, text, timestamp }]; the objects built by
    [formatMessagesForProvider] carry no timestamp, and [text] is
    [undefined] when the value assigned to it was. *)
Record Turn := mkTurn {
  role : Role;
  text : option jsstring;
  timestamp : option Z
}.

#[global] Instance Turn_eq_dec : EqDecision Turn.
Proof. solve_decision. Defined.

(** The session object of [createNewSession]. *)
Record Session := mkSession {
  systemPrompt : jsstring;
  messages : list Turn;
  createdAt : Z;
  lastActivity : Z
}.

Definition MAX_MESSAGES_IN_SESSION : Z := 20.
Definition SESSION_TTL_MINUTES : Z := 60.

(** [trimSessionHistory(messages, maxMessages)] *)
Definition trimSessionHistory (messages : list Turn) (maxMessages : Z) : list Turn :=
  if Z.of_nat (length messages) <=? maxMessages then messages
  else slice_from (- maxMessages) messages.

(** [formatMessagesForProvider(systemPrompt, messages, newUserMessage)] *)
Definition formatMessagesForProvider
    (systemPrompt : option jsstring) (messages : list Turn)
    (newUserMessage : option jsstring) : list Turn :=
  let allMessages := [] in
  let allMessages :=
    if truthy systemPrompt && truthy (trim <$> systemPrompt)
    then allMessages ++ [mkTurn System systemPrompt None] else allMessages in
  let allMessages := allMessages ++ messages in
  let allMessages :=
    if truthy newUserMessage && truthy (trim <$> newUserMessage)
    then allMessages ++ [mkTurn User newUserMessage None] else allMessages in
  allMessages.

(** ** The outside world: blob store, network, clock *)

(** [{ role, content }], the message shape of the OpenAI and Mistral chat
    endpoints. *)
Record ChatMessage := mkChat {
  chat_role : Role;
  content : option jsstring
}.

#[global] Instance ChatMessage_eq_dec : EqDecision ChatMessage.
Proof. solve_decision. Defined.

(** [{ role, text }], the message shape of the Yandex completion endpoint. *)
Record YandexMessage := mkYandex {
  y_role : Role;
  y_text : option jsstring
}.

#[global] Instance YandexMessage_eq_dec : EqDecision YandexMessage.
Proof. solve_decision. Defined.

(** A request sent to a provider: the endpoint and the parts of the body
    that the adapters compute (headers and API keys are left out, as are the
    fixed temperature and token limits). *)
Inductive FetchReq :=
  | OpenAIChatCompletions (model : jsstring) (msgs : list ChatMessage)
  | OpenAIAudioTranscriptions (model : jsstring) (audio : list N)
  | MistralChatCompletions (model : jsstring) (msgs : list ChatMessage)
      (system_prompt : option jsstring)
  | YandexCompletion (modelUri : jsstring) (msgs : list YandexMessage)
  | YandexSttRecognize (lang format : jsstring) (sampleRateHertz : Z)
      (audio : list N)
  | GeminiGenerateContent (systemInstruction : option jsstring)
      (prompt : option jsstring) (audio : option (list N)).

#[global] Instance FetchReq_eq_dec : EqDecision FetchReq.
Proof. solve_decision. Defined.

(** A fetch response: the status, the body as [res.text()] gives it ([None]
    when reading it fails), and the field the adapter extracts from the parsed
    body ([None] when [res.json()] rejects, [Some None] when the field is
    missing). *)
Record HttpResponse := mkResponse {
  status : Z;
  body_text : option jsstring;
  payload : option (option jsstring)
}.

Inductive NetOutcome :=
  | NetReject
  | NetResponse (r : HttpResponse).

(** What [new Error(...)] carries; the message templates of the source are
    kept as constructors with their interpolated fields. *)
Inductive Error :=
  | ErrNoAudio
  | ErrNoPrompt
  | ErrContentType (contentType : option jsstring)
  | ErrParse
  | ErrOpenAIChat (status : Z) (errText : jsstring)
  | ErrOpenAITranscription (status : Z) (errText : jsstring)
  | ErrMistralChat (status : Z) (errText : jsstring)
  | ErrMistralNoMessages
  | ErrYandexGPT (status : Z) (errText : jsstring)
  | ErrYandexSTT (status : Z) (errText : jsstring)
  | ErrGeminiSdk
  | ErrURIMalformed
  | ErrNetwork
  | ErrBody
  | ErrStore.

(** The deployment: the provider selector as line 258 computes it
    ([(process.env.AI_PROVIDER || 'gemini').toLowerCase()]), the credentials
    the handler reads, and the behaviour during one invocation of the
    network (the [n]-th fetch gets [net n]), of the blob store (for each
    key, whether a [get], a [set] or a [delete] of it is carried out or
    throws: the backend may be unreachable, and the client refuses some keys
    before any request) and of the clock. *)
Record Env := mkEnv {
  provider : jsstring;
  geminiApiKey : option jsstring;
  openaiApiKey : option jsstring;
  yandexApiKey : option jsstring;
  yandexFolderId : option jsstring;
  net : nat -> NetOutcome;
  blobs_get_ok : jsstring -> bool;
  blobs_set_ok : jsstring -> bool;
  blobs_delete_ok : jsstring -> bool;
  clock : nat -> Z
}.

(** The mutable world: the [ai-sessions] store, the requests sent so far and
    the number of clock reads. *)
Record World := mkWorld {
  store : gmap (list N) Session;
  sent : list FetchReq;
  ticks : nat
}.

(** ** A state and exception monad for the asynchronous code *)

Inductive Result (A : Type) :=
  | Ok (a : A)
  | Throw (e : Error).
Arguments Ok {A} a.
Arguments Throw {A} e.

Definition M (A : Type) : Type := World -> Result A * World.

Definition ret {A} (a : A) : M A := fun w => (Ok a, w).

Definition throw {A} (e : Error) : M A := fun w => (Throw e, w).

Definition bind {A B} (m : M A) (k : A -> M B) : M B :=
  fun w =>
    match m w with
    | (Ok a, w') => k a w'
    | (Throw e, w') => (Throw e, w')
    end.

(** [try { m } catch (e) { h e }]: effects made before the throw stay. *)
Definition try_catch {A} (m : M A) (h : Error -> M A) : M A :=
  fun w =>
    match m w with
    | (Ok a, w') => (Ok a, w')
    | (Throw e, w') => h e w'
    end.

Notation "'let*' x ':=' m 'in' k" := (bind m (fun x => k))
  (at level 10, x name, m at level 100, k at level 200).

Section Invocation.

Variable env : Env.

(** [Date.now()] *)
Definition Date_now : M Z :=
  fun w => (Ok (clock env (ticks w)),
            mkWorld (store w) (sent w) (S (ticks w))).

(** [fetch(...)]: the request goes out, then the network answers or the
    promise rejects. *)
Definition fetch (req : FetchReq) : M HttpResponse :=
  fun w =>
    let w' := mkWorld (store w) (sent w ++ [req]) (ticks w) in
    match net env (length (sent w)) with
    | NetResponse r => (Ok r, w')
    | NetReject => (Throw ErrNetwork, w')
    end.

(** [safeReadText(res)] *)
Definition safeReadText (res : HttpResponse) : jsstring :=
  match body_text res with
  | Some t => t
  | None => js "(no body)"
  end.

(** [await res.json()] followed by the adapter's field access. *)
Definition json (res : HttpResponse) : M (option jsstring) :=
  match payload res with
  | Some v => ret v
  | None => throw ErrBody
  end.

Definition ok (res : HttpResponse) : bool := status_ok (status res).

(** *** Netlify Blobs: [getBlobsStore()] and the store methods, which throw
    when the backend is unreachable or misconfigured *)

Definition blobs_get (key : jsstring) : M (option Session) :=
  fun w => if blobs_get_ok env key then (Ok (store w !! key), w)
           else (Throw ErrStore, w).

(** [store.set(key, JSON.stringify(value), { metadata: { ttl } })]: the
    expiry hint of [SESSION_TTL_MINUTES * 60] seconds is left to the store,
    and [JSON.stringify] followed by the [json] read is the identity on the
    fields of a session. *)
Definition blobs_set (key : jsstring) (value : Session) : M unit :=
  fun w => if blobs_set_ok env key
           then (Ok tt, mkWorld (<[key := value]> (store w)) (sent w) (ticks w))
           else (Throw ErrStore, w).

Definition blobs_delete (key : jsstring) : M unit :=
  fun w => if blobs_delete_ok env key
           then (Ok tt, mkWorld (delete key (store w)) (sent w) (ticks w))
           else (Throw ErrStore, w).

(** *** Session store gateway ([generate.js], lines 66-137) *)

(** [getSession(sessionId)] *)
Definition getSession (sessionId : option jsstring) : M (option Session) :=
  if negb (truthy sessionId) then ret None
  else
    try_catch
      (let* sessionData := blobs_get (default [] sessionId) in
       ret sessionData)
      (fun error => ret None).

(** [saveSession(sessionId, sessionData)] *)
Definition saveSession (sessionId : option jsstring) (sessionData : Session)
    : M unit :=
  if negb (truthy sessionId) then ret tt
  else
    try_catch
      (blobs_set (default [] sessionId) sessionData)
      (fun error => ret tt).

(** [deleteSession(sessionId)] *)
Definition deleteSession (sessionId : option jsstring) : M unit :=
  if negb (truthy sessionId) then ret tt
  else
    try_catch
      (blobs_delete (default [] sessionId))
      (fun error => ret tt).

(** [createNewSession(systemPrompt)] *)
Definition createNewSession (systemPrompt : jsstring) : M Session :=
  let* created := Date_now in
  let* active := Date_now in
  ret (mkSession systemPrompt [] created active).

End Invocation.

(** ** Provider adapters *)

(** What an adapter is given: an array of messages, or anything else, which
    [normalizeInput] turns into [{ prompt, system }]. *)
Inductive AdapterInput :=
  | InputTurns (turns : list Turn)
  | InputPrompt (prompt system : jsstring).

(** [[...].includes(status)] *)
Definition includes (codes : list Z) (status : Z) : bool :=
  existsb (Z.eqb status) codes.

(** The label the audio adapters put before the transcript,
    [Транскрипция аудио:], as UTF-16 code units. *)
Definition transcript_label : jsstring :=
  [1058; 1088; 1072; 1085; 1089; 1082; 1088; 1080; 1087; 1094; 1080; 1103;
   32; 1072; 1091; 1076; 1080; 1086; 58]%N.

Definition newline : jsstring := [10%N].

(** [`\n\nТранскрипция аудио:\n${transcript}`] *)
Definition transcript_suffix (transcript : jsstring) : jsstring :=
  newline ++ newline ++ transcript_label ++ newline ++ transcript.

(** [`Транскрипция аудио:\n${transcript}`] *)
Definition transcript_only (transcript : jsstring) : jsstring :=
  transcript_label ++ newline ++ transcript.

(** [prompt && prompt.trim()] as a condition *)
Definition nonblank (s : jsstring) : bool :=
  truthy (Some s) && truthy (Some (trim s)).

(** [parts.join(sep)] *)
Fixpoint join (sep : jsstring) (parts : list jsstring) : jsstring :=
  match parts with
  | [] => []
  | [p] => p
  | p :: rest => p ++ sep ++ join sep rest
  end.

Module OpenAI.

Definition primaryModel : jsstring := js "gpt-5-nano-2025-08-07".
Definition fallbackModel : jsstring := js "gpt-4o-mini".
Definition primaryTranscribe : jsstring := js "gpt-4o-mini-transcribe".
Definition fallbackTranscribe : jsstring := js "whisper-1".
Definition retry_codes : list Z := [400; 404; 422].

(** The object [generateTextWithOpenAIAndAudio] returns. *)
Record AudioResult := mkAudioResult {
  message : jsstring;
  transcript : jsstring;
  transcribeModel : jsstring;
  textModel : jsstring
}.

(** [input.map(msg => ({ role: msg.role, content: msg.text }))] *)
Definition to_chat (input : list Turn) : list ChatMessage :=
  (fun msg => mkChat (role msg) (text msg)) <$> input.

(** Lines 138-140: [messages[messages.length - 1].content += suffix] when
    the last message has role [user]. *)
Definition append_to_last_user (suffix : jsstring) (msgs : list ChatMessage)
    : list ChatMessage :=
  match last msgs with
  | Some m =>
      if decide (chat_role m = User)
      then <[pred (length msgs) :=
               mkChat (chat_role m) (Some (to_string (content m) ++ suffix))]> msgs
      else msgs
  | None => msgs
  end.

Section Adapter.

Variable env : Env.

(** [generateTextWithOpenAI(apiKey, input)] *)
Definition generateTextWithOpenAI (apiKey : jsstring) (input : AdapterInput)
    : M jsstring :=
  let msgs :=
    match input with
    | InputTurns turns => to_chat turns
    | InputPrompt prompt system =>
        if truthy (Some system)
        then [mkChat System (Some system); mkChat User (Some prompt)]
        else [mkChat User (Some prompt)]
    end in
  let* response := fetch env (OpenAIChatCompletions primaryModel msgs) in
  let* response :=
    if negb (ok response) && includes retry_codes (status response)
    then fetch env (OpenAIChatCompletions fallbackModel msgs)
    else ret response in
  if negb (ok response)
  then throw (ErrOpenAIChat (status response) (safeReadText response))
  else
    let* data := json response in
    ret (nullish_empty data).

(** Lines 80-123 of [generateTextWithOpenAIAndAudio]: the transcription
    step; returns the transcript and the model that produced it. *)
Definition transcribe (apiKey : jsstring) (audio : list N)
    : M (jsstring * jsstring) :=
  let* trResponse := fetch env (OpenAIAudioTranscriptions primaryTranscribe audio) in
  let* trData_used :=
    if negb (ok trResponse) && includes retry_codes (status trResponse)
    then
      let* trResponse2 :=
        fetch env (OpenAIAudioTranscriptions fallbackTranscribe audio) in
      if negb (ok trResponse2)
      then throw (ErrOpenAITranscription (status trResponse2)
                    (safeReadText trResponse2))
      else
        let* trData := json trResponse2 in
        ret (trData, fallbackTranscribe)
    else if negb (ok trResponse)
    then throw (ErrOpenAITranscription (status trResponse)
                  (safeReadText trResponse))
    else
      let* trData := json trResponse in
      ret (trData, primaryTranscribe) in
  ret (or_empty (fst trData_used), snd trData_used).

(** Lines 130-159: the messages of the chat step. *)
Definition audio_messages (input : AdapterInput) (transcriptText : jsstring)
    : list ChatMessage :=
  match input with
  | InputTurns turns =>
      append_to_last_user (transcript_suffix transcriptText) (to_chat turns)
  | InputPrompt prompt system =>
      let msgs := if truthy (Some system) then [mkChat System (Some system)] else [] in
      let userContent :=
        if nonblank prompt
        then prompt ++ transcript_suffix transcriptText
        else transcript_only transcriptText in
      msgs ++ [mkChat User (Some userContent)]
  end.

(** Lines 161-200: the chat step; returns the text and the model used. *)
Definition chat (apiKey : jsstring) (msgs : list ChatMessage)
    : M (jsstring * jsstring) :=
  let* chatResponse := fetch env (OpenAIChatCompletions primaryModel msgs) in
  let* chatData_used :=
    if negb (ok chatResponse) && includes retry_codes (status chatResponse)
    then
      let* chatResponse2 := fetch env (OpenAIChatCompletions fallbackModel msgs) in
      if negb (ok chatResponse2)
      then throw (ErrOpenAIChat (status chatResponse2) (safeReadText chatResponse2))
      else
        let* chatData := json chatResponse2 in
        ret (chatData, fallbackModel)
    else if negb (ok chatResponse)
    then throw (ErrOpenAIChat (status chatResponse) (safeReadText chatResponse))
    else
      let* chatData := json chatResponse in
      ret (chatData, primaryModel) in
  ret (nullish_empty (fst chatData_used), snd chatData_used).

(** [generateTextWithOpenAIAndAudio(apiKey, input, audioBase64)] *)
Definition generateTextWithOpenAIAndAudio (apiKey : jsstring)
    (input : AdapterInput) (audio : list N) : M AudioResult :=
  let* tr := transcribe apiKey audio in
  let transcriptText := fst tr in
  let msgs := audio_messages input transcriptText in
  let* reply := chat apiKey msgs in
  ret (mkAudioResult (fst reply) transcriptText (snd tr) (snd reply)).

End Adapter.
End OpenAI.

Module Mistral.

Definition primaryModel : jsstring := js "magistral-medium-2509".
Definition fallbackModel : jsstring := js "mistral-small-latest".
Definition retry_codes : list Z := [400; 404; 422; 429].

(** Lines 269-283: the system prompt and the messages. *)
Definition prepare (input : AdapterInput) : jsstring * list ChatMessage :=
  match input with
  | InputTurns turns =>
      let systemMsg := head (filter (fun m => role m = System) turns) in
      let systemPrompt :=
        match systemMsg with
        | Some m => or_empty (text m)
        | None => []
        end in
      let msgs :=
        filter (fun msg => trim (default [] (content msg)) <> [])
          ((fun msg => mkChat (if decide (role msg = Assistant) then Assistant else User)
                              (Some (default [] (text msg))))
             <$> filter (fun m => role m <> System) turns) in
      (systemPrompt, msgs)
  | InputPrompt prompt system => (system, [mkChat User (Some prompt)])
  end.

Section Adapter.

Variable env : Env.

(** [generateTextWithMistral(apiKey, input)] *)
Definition generateTextWithMistral (apiKey : jsstring) (input : AdapterInput)
    : M jsstring :=
  let systemPrompt := fst (prepare input) in
  let msgs := snd (prepare input) in
  if bool_decide (msgs = []) then throw ErrMistralNoMessages
  else
    let system_field := if truthy (Some systemPrompt) then Some systemPrompt else None in
    let* response := fetch env (MistralChatCompletions primaryModel msgs system_field) in
    let* response :=
      if negb (ok response) && includes retry_codes (status response)
      then fetch env (MistralChatCompletions fallbackModel msgs system_field)
      else ret response in
    if negb (ok response)
    then throw (ErrMistralChat (status response) (safeReadText response))
    else
      let* data := json response in
      ret (or_empty data).

End Adapter.
End Mistral.

Module Yandex.

Definition DEFAULT_MODEL_NAME : jsstring := js "yandexgpt-lite".

(** The model overrides of [options]; the numeric overrides do not reach
    the part of the request modelled here. *)
Record Options := mkOptions {
  modelName : option jsstring;
  modelUri : option jsstring
}.

(** [{ lang, format, sampleRateHertz }] *)
Record SttOptions := mkStt {
  lang : option jsstring;
  format : option jsstring;
  sampleRateHertz : option Z
}.

(** [`gpt://${folderId}/${name}/latest`] *)
Definition model_uri (folderId name : jsstring) : jsstring :=
  js "gpt://" ++ folderId ++ js "/" ++ name ++ js "/latest".

(** [resolveYandexOptions(folderId, options)], the model URI. *)
Definition resolveYandexOptions (folderId : jsstring) (options : option Options)
    : jsstring :=
  let defaults := model_uri folderId DEFAULT_MODEL_NAME in
  if truthy (options ≫= modelUri) then default [] (options ≫= modelUri)
  else if truthy (options ≫= modelName)
       then model_uri folderId (default [] (options ≫= modelName))
       else defaults.

(** [input.map(msg => ({ role: msg.role, text: msg.text }))] *)
Definition to_yandex (input : list Turn) : list YandexMessage :=
  (fun msg => mkYandex (role msg) (text msg)) <$> input.

(** Lines 226-234: a copy of the input whose last element, when it has role
    [user], is replaced by a copy with the transcript appended. *)
Definition with_transcript (transcript : jsstring) (input : list Turn)
    : list Turn :=
  match last input with
  | Some lastMessage =>
      if decide (role lastMessage = User)
      then <[pred (length input) :=
               mkTurn (role lastMessage)
                 (Some (to_string (text lastMessage) ++ transcript_suffix transcript))
                 (timestamp lastMessage)]> input
      else input
  | None => input
  end.

Section Adapter.

Variable env : Env.

(** [generateTextWithYandex(apiKey, folderId, input, options)] *)
Definition generateTextWithYandex (apiKey folderId : jsstring)
    (input : AdapterInput) (options : option Options) : M jsstring :=
  let resolved := resolveYandexOptions folderId options in
  let msgs :=
    match input with
    | InputTurns turns => to_yandex turns
    | InputPrompt prompt system =>
        (if truthy (Some system) && bool_decide (0 < length (trim system))%nat
         then [mkYandex System (Some system)] else [])
        ++ [mkYandex User (Some prompt)]
    end in
  let* response := fetch env (YandexCompletion resolved msgs) in
  if negb (ok response)
  then throw (ErrYandexGPT (status response) (safeReadText response))
  else
    let* data := json response in
    ret (nullish_empty data).

(** [transcribeWithYandexSTT(apiKey, folderId, audioBuffer, opts)]. The URL
    is built with [encodeURIComponent], which throws before anything is sent
    when the language or the format is not a well-formed string. When
    [response.json()] rejects, the body has been consumed and the
    [response.text()] that follows rejects in turn. *)
Definition transcribeWithYandexSTT (apiKey folderId : jsstring)
    (audioBuffer : list N) (opts : SttOptions) : M jsstring :=
  let lang' := if truthy (lang opts) then default [] (lang opts) else js "ru-RU" in
  let format' := if truthy (format opts) then default [] (format opts) else js "oggopus" in
  let rate :=
    match sampleRateHertz opts with
    | Some r => if r =? 0 then 48000 else r
    | None => 48000
    end in
  if negb (isWellFormed lang') || negb (isWellFormed format')
  then throw ErrURIMalformed
  else
    let* response := fetch env (YandexSttRecognize lang' format' rate audioBuffer) in
    if negb (ok response)
    then throw (ErrYandexSTT (status response) (safeReadText response))
    else
      match payload response with
      | Some result => ret (or_empty result)
      | None => throw ErrBody
      end.

(** Lines 223-247: the input of the text step. *)
Definition audio_input (input : AdapterInput) (transcript : jsstring)
    : AdapterInput :=
  match input with
  | InputTurns turns => InputTurns (with_transcript transcript turns)
  | InputPrompt prompt system =>
      let mergedPrompt :=
        if nonblank prompt
        then prompt ++ transcript_suffix transcript
        else transcript_only transcript in
      InputPrompt mergedPrompt system
  end.

(** [generateTextWithYandexAndAudio(apiKey, folderId, input, audioBase64, sttOpts)];
    returns [{ message, transcript }]. *)
Definition generateTextWithYandexAndAudio (apiKey folderId : jsstring)
    (input : AdapterInput) (audio : list N) (sttOpts : SttOptions)
    : M (jsstring * jsstring) :=
  let* transcript := transcribeWithYandexSTT apiKey folderId audio sttOpts in
  let messagesWithAudio := audio_input input transcript in
  let* text := generateTextWithYandex apiKey folderId messagesWithAudio None in
  ret (text, transcript).

End Adapter.
End Yandex.

Module Gemini.

(** [`${msg.role === 'user' ? 'User' : 'Assistant'}: ${msg.text}`] *)
Definition line (msg : Turn) : jsstring :=
  (if decide (role msg = User) then js "User" else js "Assistant")
  ++ js ": " ++ to_string (text msg).

(** The system instruction and the text block of an array input. *)
Definition prepare (input : list Turn) : option jsstring * jsstring :=
  let systemMessage := head (filter (fun msg => role msg = System) input) in
  let systemInstruction :=
    match systemMessage with
    | Some m => text m
    | None => Some []
    end in
  let parts :=
    join (newline ++ newline)
      (line <$> filter (fun msg => role msg <> System) input) in
  (if truthy systemInstruction then systemInstruction else None, parts).

Section Adapter.

Variable env : Env.

(** [model.generateContent(parts)] then [response.text()]: one call of the
    SDK, which throws when the service answers with an error or when the
    answer cannot be read or reports a blocked prompt (no payload); of an
    answer without a candidate, [response.text()] is the empty string. *)
Definition generateContent (req : FetchReq) : M jsstring :=
  let* response := fetch env req in
  if ok response
  then match payload response with
       | Some t => ret (nullish_empty t)
       | None => throw ErrGeminiSdk
       end
  else throw ErrGeminiSdk.

(** [generateTextWithGemini(apiKey, input)] *)
Definition generateTextWithGemini (apiKey : jsstring) (input : AdapterInput)
    : M jsstring :=
  match input with
  | InputTurns turns =>
      generateContent
        (GeminiGenerateContent (fst (prepare turns)) (Some (snd (prepare turns))) None)
  | InputPrompt prompt system =>
      generateContent
        (GeminiGenerateContent (if truthy (Some system) then Some system else None)
           (Some prompt) None)
  end.

(** [generateTextWithGeminiAndAudio(apiKey, input, audioBase64)] *)
Definition generateTextWithGeminiAndAudio (apiKey : jsstring)
    (input : AdapterInput) (audio : list N) : M jsstring :=
  match input with
  | InputTurns turns =>
      generateContent
        (GeminiGenerateContent (fst (prepare turns)) (Some (snd (prepare turns)))
           (Some audio))
  | InputPrompt prompt system =>
      generateContent
        (GeminiGenerateContent (if truthy (Some system) then Some system else None)
           (if nonblank prompt then Some prompt else None) (Some audio))
  end.

End Adapter.
End Gemini.

(** ** The request handler ([generate.js], lines 235-454) *)

(** [{ fields, files }] of [parseMultipartForm]; every field is a string or
    absent, every file a field name with its content. *)
Record MultipartForm := mkForm {
  f_prompt : option jsstring;
  f_system : option jsstring;
  f_sessionId : option jsstring;
  f_endSession : option jsstring;
  f_resetContext : option jsstring;
  f_audioFormat : option jsstring;
  f_files : list (jsstring * list N)
}.

(** The parsed JSON body, with string fields that may be absent and the two
    flags already compared with [true]. *)
Record JsonBody := mkBody {
  j_prompt : option jsstring;
  j_system : option jsstring;
  j_sessionId : option jsstring;
  j_endSession : bool;
  j_resetContext : bool;
  j_modelName : option jsstring;
  j_modelUri : option jsstring
}.

(** The event, by method, content type and outcome of parsing the body. *)
Inductive Request :=
  | ReqOptions
  | ReqNotPost
  | ReqMultipart (form : MultipartForm)
  | ReqMultipartMalformed
  | ReqJson (body : JsonBody)
  | ReqJsonMalformed
  | ReqUnsupported (contentType : option jsstring).

Inductive ConfigKey := OPENAI_API_KEY | GEMINI_API_KEY | YANDEX_KEYS.

(** The responses of the handler. *)
Inductive Response :=
  | RespPreflight
  | RespMethodNotAllowed
  | RespConfigError (key : ConfigKey)
  | RespEndSession (sessionId : option jsstring) (provider : jsstring)
  | RespSuccess (generatedText : option jsstring) (provider : jsstring)
      (transcript : option jsstring) (sessionId : option jsstring) (turns : nat)
  | RespError (error : Error).

Definition statusCode (r : Response) : Z :=
  match r with
  | RespPreflight => 204
  | RespMethodNotAllowed => 405
  | RespConfigError _ => 500
  | RespEndSession _ _ => 200
  | RespSuccess _ _ _ _ _ => 200
  | RespError _ => 500
  end.

(** A [return] from inside the handler, or the value to go on with. *)
Inductive Flow (A : Type) :=
  | Return (r : Response)
  | Continue (a : A).
Arguments Return {A} r.
Arguments Continue {A} a.

Section Handler.

Variable env : Env.

(** Lines 293-303 and 388-398: load the session, reset it, or create one. *)
Definition resolveSession (sessionId : option jsstring) (resetContext : bool)
    (system : option jsstring) : M Session :=
  let* session :=
    if truthy sessionId
    then
      let* session := getSession env sessionId in
      match session with
      | Some s =>
          if resetContext
          then
            let* now := Date_now env in
            ret (Some (mkSession (systemPrompt s) [] (createdAt s) now))
          else ret (Some s)
      | None => ret None
      end
    else ret None in
  match session with
  | Some s => ret s
  | None => createNewSession env (or_empty system)
  end.

(** Lines 343-349 and 431-437: append the exchange, trim, save. *)
Definition persistTurns (sessionId : option jsstring) (session : Session)
    (userText generated : option jsstring) : M Session :=
  if truthy sessionId
  then
    let* t_user := Date_now env in
    let msgs := messages session ++ [mkTurn User userText (Some t_user)] in
    let* t_assistant := Date_now env in
    let msgs := msgs ++ [mkTurn Assistant generated (Some t_assistant)] in
    let msgs := trimSessionHistory msgs MAX_MESSAGES_IN_SESSION in
    let* now := Date_now env in
    let session := mkSession (systemPrompt session) msgs (createdAt session) now in
    let* _ := saveSession env sessionId session in
    ret session
  else ret session.

(** Lines 312-340: the provider switch of the audio pipeline; gives the text
    and the transcript. *)
Definition dispatchAudio (messagesForProvider : list Turn) (audio : list N)
    (audioFormat : option jsstring)
    : M (Flow (option jsstring * option jsstring)) :=
  if bool_decide (provider env = js "openai") then
    if negb (truthy (openaiApiKey env)) then ret (Return (RespConfigError OPENAI_API_KEY))
    else
      let* res := OpenAI.generateTextWithOpenAIAndAudio env
                    (default [] (openaiApiKey env))
                    (InputTurns messagesForProvider) audio in
      ret (Continue (Some (OpenAI.message res), Some (OpenAI.transcript res)))
  else if bool_decide (provider env = js "gemini") then
    if negb (truthy (geminiApiKey env)) then ret (Return (RespConfigError GEMINI_API_KEY))
    else
      let* text := Gemini.generateTextWithGeminiAndAudio env
                     (default [] (geminiApiKey env))
                     (InputTurns messagesForProvider) audio in
      ret (Continue (Some text, None))
  else if bool_decide (provider env = js "yandex") then
    if negb (truthy (yandexApiKey env)) || negb (truthy (yandexFolderId env))
    then ret (Return (RespConfigError YANDEX_KEYS))
    else
      let* res := Yandex.generateTextWithYandexAndAudio env
                    (default [] (yandexApiKey env))
                    (default [] (yandexFolderId env))
                    (InputTurns messagesForProvider) audio
                    (Yandex.mkStt (Some (js "ru-RU"))
                       (or_else audioFormat (Some (js "oggopus")))
                       (Some 48000)) in
      ret (Continue (Some (fst res), Some (snd res)))
  else ret (Continue (None, None)).

(** Lines 404-428: the provider switch of the text pipeline. *)
Definition dispatchText (messagesForProvider : list Turn)
    (options : Yandex.Options) : M (Flow (option jsstring)) :=
  if bool_decide (provider env = js "openai") then
    if negb (truthy (openaiApiKey env)) then ret (Return (RespConfigError OPENAI_API_KEY))
    else
      let* text := OpenAI.generateTextWithOpenAI env
                     (default [] (openaiApiKey env))
                     (InputTurns messagesForProvider) in
      ret (Continue (Some text))
  else if bool_decide (provider env = js "gemini") then
    if negb (truthy (geminiApiKey env)) then ret (Return (RespConfigError GEMINI_API_KEY))
    else
      let* text := Gemini.generateTextWithGemini env
                     (default [] (geminiApiKey env))
                     (InputTurns messagesForProvider) in
      ret (Continue (Some text))
  else if bool_decide (provider env = js "yandex") then
    if negb (truthy (yandexApiKey env)) || negb (truthy (yandexFolderId env))
    then ret (Return (RespConfigError YANDEX_KEYS))
    else
      let* text := Yandex.generateTextWithYandex env
                     (default [] (yandexApiKey env))
                     (default [] (yandexFolderId env))
                     (InputTurns messagesForProvider) (Some options) in
      ret (Continue (Some text))
  else ret (Continue None).

(** Lines 268-357: the multipart branch. *)
Definition handleMultipart (form : MultipartForm) : M Response :=
  let prompt := f_prompt form in
  let system := f_system form in
  let sessionId := f_sessionId form in
  let endSession := bool_decide (f_endSession form = Some (js "true")) in
  let resetContext := bool_decide (f_resetContext form = Some (js "true")) in
  let audioFormat := f_audioFormat form in
  let audioFile := head (filter (fun f => fst f = js "audio") (f_files form)) in
  match audioFile with
  | None => throw ErrNoAudio
  | Some audioFile =>
      if endSession && truthy sessionId
      then
        let* _ := deleteSession env sessionId in
        ret (RespEndSession sessionId (provider env))
      else
        let* session := resolveSession sessionId resetContext system in
        let messagesForProvider :=
          formatMessagesForProvider (Some (systemPrompt session))
            (messages session) prompt in
        let* res := dispatchAudio messagesForProvider (snd audioFile) audioFormat in
        match res with
        | Return r => ret r
        | Continue (text, transcript) =>
            let* session :=
              persistTurns sessionId session (or_else transcript prompt) text in
            ret (RespSuccess text (provider env) transcript sessionId
                   (length (messages session) / 2)%nat)
        end
  end.

(** Lines 359-444: the JSON branch and the code it falls through to. *)
Definition handleJson (body : JsonBody) : M Response :=
  let prompt := j_prompt body in
  let system := j_system body in
  let sessionId := j_sessionId body in
  let endSession := j_endSession body in
  let resetContext := j_resetContext body in
  if negb (truthy prompt) then throw ErrNoPrompt
  else
    let requestParts0 := prompt in
    if endSession && truthy sessionId
    then
      let* _ := deleteSession env sessionId in
      ret (RespEndSession sessionId (provider env))
    else
      let* session := resolveSession sessionId resetContext system in
      let messagesForProvider :=
        formatMessagesForProvider (Some (systemPrompt session))
          (messages session) requestParts0 in
      let* res := dispatchText messagesForProvider
                    (Yandex.mkOptions (j_modelName body) (j_modelUri body)) in
      match res with
      | Return r => ret r
      | Continue text =>
          let* session :=
            persistTurns sessionId session requestParts0 text in
          ret (RespSuccess text (provider env) None sessionId
                 (length (messages session) / 2)%nat)
      end.

(** [exports.handler]: one invocation, from the world before to the response
    and the world after. *)
Definition handler (event : Request) (w : World) : Response * World :=
  match event with
  | ReqOptions => (RespPreflight, w)
  | ReqNotPost => (RespMethodNotAllowed, w)
  | _ =>
      let body : M Response :=
        match event with
        | ReqMultipart form => handleMultipart form
        | ReqJson body => handleJson body
        | ReqUnsupported contentType => throw (ErrContentType contentType)
        | _ => throw ErrParse
        end in
      match body w with
      | (Ok r, w') => (r, w')
      | (Throw error, w') => (RespError error, w')
      end
  end.

End Handler.

(** The empty store, before any invocation. *)
Definition initial_world : World := mkWorld ∅ [] 0.

(** A fresh invocation keeps the store and starts its own request log and
    clock. *)
Definition fresh (w : World) : World := mkWorld (store w) [] 0.

(** The worlds the deployment can reach: invocations of the handler under
    any environment, and sessions the store expires on its own. *)
Inductive reachable : World -> Prop :=
  | reach_initial : reachable initial_world
  | reach_invoke env event w :
      reachable w -> reachable (snd (handler env event (fresh w)))
  | reach_expire key w :
      reachable w ->
      reachable (mkWorld (delete key (store w)) (sent w) (ticks w)).

(** ** Further code of the same files *)

Module MistralMessage.

(** An element of a [content] array that is an object: its [type], and its
    [text] when that is a string. *)
Record Part := mkPart {
  part_type : option jsstring;
  part_text : option jsstring
}.

(** The [content] of a message: a string, an array (whose elements may be
    [null] or not objects at all), or anything else. *)
Inductive Content :=
  | ContentString (s : jsstring)
  | ContentParts (parts : list (option Part))
  | ContentOther.

(** The test of the [filter]:
    [part && part.type === 'text' && typeof part.text === 'string'] *)
Definition is_text_part (part : option Part) : bool :=
  match part with
  | Some p => bool_decide (part_type p = Some (js "text"))
              && bool_decide (part_text p <> None)
  | None => false
  end.

(** [extractTextFromMessage(msg)]; [None] is a missing message. *)
Definition extractTextFromMessage (msg : option Content) : jsstring :=
  match msg with
  | None => []
  | Some (ContentString s) => s
  | Some (ContentParts parts) =>
      join [] ((fun part => default [] (part ≫= part_text))
                 <$> filter (fun part => is_text_part part = true) parts)
  | Some ContentOther => []
  end.

End MistralMessage.

(** *** [parseMultipartForm] ([generate.js], lines 194-224) *)

(** What busboy reports, in the order of the body: a field with its value,
    or a file with the chunks of its content. *)
Inductive FormPart :=
  | FieldPart (fieldname val : jsstring)
  | FilePart (fieldname : jsstring) (chunks : list (list N)).

(** [{ files, fields }] *)
Record ParsedForm := mkParsed {
  files : list (jsstring * list N);
  fields : gmap (list N) (list N)
}.

(** The [file] and [field] callbacks. *)
Definition on_part (result : ParsedForm) (part : FormPart) : ParsedForm :=
  match part with
  | FilePart fieldname chunks =>
      mkParsed (files result ++ [(fieldname, concat chunks)]) (fields result)
  | FieldPart fieldname val =>
      mkParsed (files result) (<[fieldname := val]> (fields result))
  end.

(** [parseMultipartForm(event)], once busboy has split the body. *)
Definition parseMultipartForm (parts : list FormPart) : ParsedForm :=
  foldl on_part (mkParsed [] ∅) parts.

(** Lines 270-276: the fields the handler reads, and the files. *)
Definition form_of_parsed (parsed : ParsedForm) : MultipartForm :=
  mkForm (fields parsed !! js "prompt") (fields parsed !! js "system")
    (fields parsed !! js "sessionId") (fields parsed !! js "endSession")
    (fields parsed !! js "resetContext") (fields parsed !! js "audioFormat")
    (files parsed).

(** ** The same-origin bridge ([recorder-bridge.js]): building the requests *)

Module Bridge.

(** The part of [state] that reaches a request; the numeric overrides are
    left out, as in the options of the Yandex adapter. *)
Record State := mkState {
  prompt : jsstring;
  system : jsstring;
  sessionId : jsstring;
  resetContext : bool;
  endSession : bool;
  audioFormat : jsstring;
  modelName : option jsstring;
  modelUri : option jsstring
}.

(** [sendText()], up to the [fetch]: the JSON body, or [None] when it throws
    [No text to send]. [userResponse] is what the lookup of the Storyline
    variables [UserResponse] and [UserResponce] gives, as a string, when the
    player has one of them. *)
Definition sendText_body (state : State) (userResponse : option jsstring)
    : option JsonBody :=
  let promptText := prompt state in
  let promptText :=
    if negb (truthy (Some promptText))
    then match userResponse with
         | Some ur => ur
         | None => promptText
         end
    else promptText in
  if negb (truthy (Some promptText)) || negb (truthy (Some (trim promptText)))
  then None
  else
    Some (mkBody (Some promptText) (Some (system state))
            (if truthy (Some (sessionId state)) then Some (sessionId state) else None)
            (endSession state) (resetContext state)
            (modelName state) (modelUri state)).

(** [sendAudio()], up to the [fetch]: the entries appended to the
    [FormData], in the order of the [append] calls (a field with the value
    appended, the file with the recording as its content), or [None] when
    there is no recording. What the parser of the handler reports of these
    entries depends on the transport: see [carried]. *)
Definition sendAudio_parts (state : State) (recordedAudioBlob : option (list N))
    : option (list FormPart) :=
  match recordedAudioBlob with
  | None => None
  | Some blob =>
      Some ([FieldPart (js "prompt") (prompt state);
             FieldPart (js "system") (system state)]
            ++ (if truthy (Some (sessionId state))
                then [FieldPart (js "sessionId") (sessionId state)] else [])
            ++ (if endSession state then [FieldPart (js "endSession") (js "true")] else [])
            ++ (if resetContext state then [FieldPart (js "resetContext") (js "true")] else [])
            ++ (if truthy (modelName state)
                then [FieldPart (js "modelName") (default [] (modelName state))] else [])
            ++ (if truthy (modelUri state)
                then [FieldPart (js "modelUri") (default [] (modelUri state))] else [])
            ++ (if truthy (Some (audioFormat state))
                then [FieldPart (js "audioFormat") (audioFormat state)] else [])
            ++ [FilePart (js "audio") [blob]])
  end.

End Bridge.

(** ** Notions used to state the properties *)

(** The world with another store. *)
Definition set_store (st : gmap (list N) Session) (w : World) : World :=
  mkWorld st (sent w) (ticks w).

(** A computation that neither reads nor writes the store. *)
Definition store_blind {A} (m : M A) : Prop :=
  forall w st, m (set_store st w) = (fst (m w), set_store st (snd (m w))).

(** What [getSession] finds: the stored session when there is an identifier
    and the store answers. *)
Definition loaded (env : Env) (sessionId : option jsstring) (w : World)
    : option Session :=
  if truthy sessionId && blobs_get_ok env (default [] sessionId)
  then store w !! default [] sessionId else None.

(** The message list an exchange starts from: the loaded one, emptied by
    [resetContext], or the empty list of a new session. *)
Definition working_messages (env : Env) (sessionId : option jsstring)
    (resetContext : bool) (w : World) : list Turn :=
  match loaded env sessionId w with
  | Some s => if resetContext then [] else messages s
  | None => []
  end.

(** The deployment with the blob store unreachable, and with it working. *)
Definition store_down (env : Env) : Env :=
  mkEnv (provider env) (geminiApiKey env) (openaiApiKey env) (yandexApiKey env)
    (yandexFolderId env) (net env) (fun _ => false) (fun _ => false)
    (fun _ => false) (clock env).

Definition store_up (env : Env) : Env :=
  mkEnv (provider env) (geminiApiKey env) (openaiApiKey env) (yandexApiKey env)
    (yandexFolderId env) (net env) (fun _ => true) (fun _ => true)
    (fun _ => true) (clock env).

(** The session invariant: an even number of messages, at most 20. *)
Definition session_ok (s : Session) : Prop :=
  Nat.Even (length (messages s)) /\ (length (messages s) <= 20)%nat.

Definition store_ok (st : gmap (list N) Session) : Prop :=
  forall key s, st !! key = Some s -> session_ok s.

(** What one invocation may do to the store, by the response it gives: a
    success with a session identifier has handed to [saveSession] the
    trimmed list; an end-session response has asked for the deletion; any
    other response leaves the store alone. *)
Definition outcome_spec (env : Env) (w : World) (r : Response) (w' : World)
    : Prop :=
  match r with
  | RespSuccess generated _ _ sessionId turns =>
      if truthy sessionId
      then
        exists resetContext s' userText t1 t2,
          messages s'
          = trimSessionHistory
              (working_messages env sessionId resetContext w
               ++ [mkTurn User userText (Some t1);
                   mkTurn Assistant generated (Some t2)])
              MAX_MESSAGES_IN_SESSION
          /\ turns = (length (messages s') / 2)%nat
          /\ store w'
             = if blobs_set_ok env (default [] sessionId)
               then <[default [] sessionId := s']> (store w) else store w
      else store w' = store w
  | RespEndSession sessionId _ =>
      store w'
      = if blobs_delete_ok env (default [] sessionId)
        then delete (default [] sessionId) (store w) else store w
  | _ => store w' = store w
  end.

(** The request reaches the provider switch and the adapter throws [e],
    leaving the world [w2]. *)
Definition provider_fails (env : Env) (event : Request) (w : World)
    (e : Error) (w2 : World) : Prop :=
  match event with
  | ReqJson body =>
      truthy (j_prompt body) = true
      /\ j_endSession body && truthy (j_sessionId body) = false
      /\ exists s w1,
           resolveSession env (j_sessionId body) (j_resetContext body)
             (j_system body) w = (Ok s, w1)
           /\ dispatchText env
                (formatMessagesForProvider (Some (systemPrompt s)) (messages s)
                   (j_prompt body))
                (Yandex.mkOptions (j_modelName body) (j_modelUri body)) w1
              = (Throw e, w2)
  | ReqMultipart form =>
      bool_decide (f_endSession form = Some (js "true"))
      && truthy (f_sessionId form) = false
      /\ exists audioFile s w1,
           head (filter (fun f => fst f = js "audio") (f_files form))
           = Some audioFile
           /\ resolveSession env (f_sessionId form)
                (bool_decide (f_resetContext form = Some (js "true")))
                (f_system form) w = (Ok s, w1)
           /\ dispatchAudio env
                (formatMessagesForProvider (Some (systemPrompt s)) (messages s)
                   (f_prompt form))
                (snd audioFile) (f_audioFormat form) w1
              = (Throw e, w2)
  | _ => False
  end.

(** A history made of whole exchanges: a user turn then an assistant turn,
    each with its timestamp, again and again. *)
Fixpoint exchanges (history : list Turn) : Prop :=
  match history with
  | [] => True
  | u :: a :: rest =>
      role u = User /\ role a = Assistant
      /\ is_Some (timestamp u) /\ is_Some (timestamp a)
      /\ exchanges rest
  | _ => False
  end.

(** The messages [generateTextWithYandex] sends for an input (lines 23-38 of
    [yandex.js]). *)
Definition yandex_messages (input : AdapterInput) : list YandexMessage :=
  match input with
  | InputTurns turns => Yandex.to_yandex turns
  | InputPrompt prompt system =>
      (if truthy (Some system) && bool_decide (0 < length (trim system))%nat
       then [mkYandex System (Some system)] else [])
      ++ [mkYandex User (Some prompt)]
  end.

(** The message the Mistral adapter makes of a turn (lines 274-277 of
    [mistral.js]). *)
Definition mistral_message (msg : Turn) : ChatMessage :=
  mkChat (if decide (role msg = Assistant) then Assistant else User)
    (Some (default [] (text msg))).

(** The values of the fields called [name] among the parts of a form, and
    its files, in the order of the body. *)
Definition field_values (name : jsstring) (parts : list FormPart)
    : list jsstring :=
  omap (fun part => match part with
                    | FieldPart fieldname val =>
                        if decide (fieldname = name) then Some val else None
                    | FilePart _ _ => None
                    end) parts.

Definition file_parts (parts : list FormPart) : list (jsstring * list N) :=
  omap (fun part => match part with
                    | FilePart fieldname chunks => Some (fieldname, concat chunks)
                    | FieldPart _ _ => None
                    end) parts.

(** The session identifier a request carries, if any. *)
Definition request_session (event : Request) : option jsstring :=
  match event with
  | ReqJson body => j_sessionId body
  | ReqMultipart form => f_sessionId form
  | _ => None
  end.

(** The audio a request carries: the content of its first file part named
    [audio]. *)
Definition request_audio (form : MultipartForm) : option (list N) :=
  snd <$> head (filter (fun f => fst f = js "audio") (f_files form)).

(** A computation that sends at most [n] requests, and only adds to the
    log. *)
Definition sends_at_most {A} (n : nat) (m : M A) : Prop :=
  forall w, exists reqs,
    sent (snd (m w)) = sent w ++ reqs /\ (length reqs <= n)%nat.

(** How the entries of a [FormData] reach the parser of the handler: in
    their order, a field under its name with the value the transport makes of
    the one appended ([wire]: the multipart encoding rewrites the line
    breaks, and a value may be re-encoded or cut on the way), a file under
    its name with its content, in whatever chunks. *)
Inductive carried (wire : jsstring -> jsstring) : FormPart -> FormPart -> Prop :=
  | carried_field fieldname val :
      carried wire (FieldPart fieldname val) (FieldPart fieldname (wire val))
  | carried_file fieldname chunks chunks' :
      concat chunks = concat chunks' ->
      carried wire (FilePart fieldname chunks) (FilePart fieldname chunks').

(** The line breaks of a field value as the multipart encoding of a form
    writes them: a CR LF pair stays, a CR without LF after it and a LF
    without CR before it each become CR LF. *)
Fixpoint crlf (s : jsstring) : jsstring :=
  match s with
  | [] => []
  | c :: rest =>
      if (c =? 13)%N
      then match rest with
           | d :: rest' =>
               if (d =? 10)%N then 13%N :: 10%N :: crlf rest'
               else 13%N :: 10%N :: crlf rest
           | [] => [13%N; 10%N]
           end
      else if (c =? 10)%N then 13%N :: 10%N :: crlf rest
      else c :: crlf rest
  end.

(** Since the log had [n] requests at least one more was sent, and the last
    one sent was answered with a success status. *)
Definition answered_ok (env : Env) (n : nat) (w' : World) : Prop :=
  (n < length (sent w'))%nat
  /\ exists r, net env (pred (length (sent w'))) = NetResponse r /\ ok r = true.

(** An error of a call that went out: at least one request was sent between
    [w] and [w'], and the error is one that a rejected, failed or unreadable
    answer gives. *)
Definition thrown_after_send (e : Error) (w w' : World) : Prop :=
  match e with
  | ErrNetwork | ErrBody | ErrOpenAIChat _ _ | ErrOpenAITranscription _ _
  | ErrYandexGPT _ _ | ErrYandexSTT _ _ | ErrGeminiSdk =>
      (length (sent w) < length (sent w'))%nat
  | _ => False
  end.

(** The same, or the error of a URL that could not be built, thrown before
    anything was sent. *)
Definition thrown_by_call (e : Error) (w w' : World) : Prop :=
  match e with
  | ErrURIMalformed => w' = w
  | _ => thrown_after_send e w w'
  end.

(** ** Concrete deployments and requests for the examples *)

(** A 200 response whose body and extracted field are [t]. *)
Definition ok_response (t : jsstring) : HttpResponse :=
  mkResponse 200 (Some t) (Some (Some t)).

(** A response with an error status and the body [error]. *)
Definition error_response (code : Z) : HttpResponse :=
  mkResponse code (Some (js "error")) None.

(** A deployment with every credential set, a working store, and a network
    that answers the successive fetches with [script] and rejects after. *)
Definition env_of (selector : jsstring) (script : list NetOutcome) : Env :=
  mkEnv selector (Some (js "g-key")) (Some (js "o-key")) (Some (js "y-key"))
    (Some (js "folder")) (fun n => default NetReject (script !! n))
    (fun _ => true) (fun _ => true) (fun _ => true) Z.of_nat.

(** The JSON request [{ prompt: "Hello", sessionId }]. *)
Definition hello_request (sessionId : option jsstring) : JsonBody :=
  mkBody (Some (js "Hello")) None sessionId false false None None.

(** A stored session with ten exchanges, twenty messages. *)
Definition full_session : Session :=
  mkSession []
    (concat (replicate 10 [mkTurn User (Some (js "q")) (Some 0);
                           mkTurn Assistant (Some (js "a")) (Some 0)]))
    0 0.

Definition full_world : World :=
  mkWorld {[ js "s1" := full_session ]} [] 0.

(** UTF-8 bytes of a string whose code units are below U+0800. *)
Definition utf8_2 (s : jsstring) : list N :=
  s ≫= fun c => if (c <? 128)%N then [c]
                else [(192 + c / 64)%N; (128 + c mod 64)%N].

(** A deployment that selects Mistral and has no credential at all. *)
Definition env_mistral : Env :=
  mkEnv (js "mistral") None None None None
    (fun _ => NetResponse (ok_response (js "Bonjour")))
    (fun _ => true) (fun _ => true) (fun _ => true) Z.of_nat.

(** A deployment whose store client refuses to write under a key that
    starts with a slash. *)
Definition env_strict_keys : Env :=
  mkEnv (js "openai") None (Some (js "o-key")) None None
    (fun _ => NetResponse (ok_response (js "Hi!")))
    (fun _ => true) (fun key => negb (bool_decide (head key = Some 47%N)))
    (fun _ => true) Z.of_nat.

(** An end-session request in multipart form, without any file part. *)
Definition end_session_form : MultipartForm :=
  mkForm None None (Some (js "s1")) (Some (js "true")) None None [].

(** An end-session request in JSON, without a prompt. *)
Definition end_session_body : JsonBody :=
  mkBody None None (Some (js "s1")) true false None None.

(** A bridge state whose prompt is [a], a line feed, [b], with the session
    [s1] and the end-session flag set. *)
Definition state_two_lines : Bridge.State :=
  Bridge.mkState [97%N; 10%N; 98%N] (js "Be brief") (js "s1") false true
    (js "webm") None None.

(** * Properties *)

(** ** Strings *)

Lemma trimStart_nil_iff (s : jsstring) :
  trimStart s = [] <-> forallb is_whitespace s = true.
Proof.
  induction s as [|c s IH]; simpl; [done|].
  destruct (is_whitespace c); simpl; [done|].
  split; intros H; discriminate H.
Qed.

Lemma trimStart_whitespace_only (s : jsstring) :
  forallb is_whitespace (trimStart s) = true -> trimStart s = [].
Proof.
  induction s as [|c s IH]; simpl; [done|].
  destruct (is_whitespace c) eqn:E; [done|].
  simpl. rewrite E. discriminate.
Qed.

Lemma forallb_reverse {A} (f : A -> bool) (l : list A) :
  forallb f (reverse l) = forallb f l.
Proof.
  induction l as [|x l IH]; [done|].
  rewrite reverse_cons, forallb_app, IH. simpl.
  rewrite andb_true_r. apply andb_comm.
Qed.

(** Trimming leaves nothing exactly when every code unit is white space. *)
Lemma trim_nil_iff (s : jsstring) :
  trim s = [] <-> forallb is_whitespace s = true.
Proof.
  unfold trim. split.
  - intros H. apply (f_equal reverse) in H.
    rewrite reverse_involutive in H. change (reverse []) with (@nil N) in H.
    apply trimStart_nil_iff in H. rewrite forallb_reverse in H.
    apply trimStart_nil_iff. by apply trimStart_whitespace_only.
  - intros H. apply trimStart_nil_iff in H. by rewrite H.
Qed.

Lemma nonblank_trim (s : jsstring) :
  nonblank s = negb (bool_decide (trim s = [])).
Proof.
  unfold nonblank. destruct s as [|c s]; [done|]. simpl truthy at 1.
  destruct (trim (c :: s)); done.
Qed.

(** ** Message model *)

Lemma slice_from_negative {A} (n : Z) (l : list A) :
  0 < n -> slice_from (- n) l = drop (length l - Z.to_nat n) l.
Proof.
  intros Hn. unfold slice_from.
  destruct (Z.ltb_spec (- n) 0) as [_|?]; [|lia].
  f_equal. lia.
Qed.

(** For a positive bound, trimming keeps the last [maxMessages] messages. *)
Lemma trimSessionHistory_positive (history : list Turn) (maxMessages : Z) :
  0 < maxMessages ->
  trimSessionHistory history maxMessages
  = drop (length history - Z.to_nat maxMessages) history.
Proof.
  intros Hpos. unfold trimSessionHistory.
  destruct (Z.leb_spec (Z.of_nat (length history)) maxMessages) as [Hle|Hgt].
  - replace (length history - Z.to_nat maxMessages)%nat with 0%nat by lia. done.
  - by apply slice_from_negative.
Qed.

Lemma trimSessionHistory_length (history : list Turn) (maxMessages : Z) :
  0 < maxMessages ->
  length (trimSessionHistory history maxMessages)
  = (length history `min` Z.to_nat maxMessages)%nat.
Proof.
  intros Hpos. rewrite trimSessionHistory_positive by done.
  rewrite length_drop. lia.
Qed.

(** C3. [formatMessagesForProvider] puts a system turn first exactly when the
    system prompt is not empty after trimming, then the history as it is,
    then a user turn exactly when the new text is not empty after trimming;
    with nothing at all the list is empty, and with ["Sys"] and ["Hi"] it is
    the two turns system/Sys, user/Hi. *)
Theorem formatMessagesForProvider_contract :
  (forall (sys : jsstring) (history : list Turn) (newUserText : jsstring),
     formatMessagesForProvider (Some sys) history (Some newUserText)
     = (if decide (trim sys = []) then [] else [mkTurn System (Some sys) None])
       ++ history
       ++ (if decide (trim newUserText = []) then []
           else [mkTurn User (Some newUserText) None]))
  /\ formatMessagesForProvider (Some (js "")) [] (Some (js "")) = []
  /\ formatMessagesForProvider (Some (js "Sys")) [] (Some (js "Hi"))
     = [mkTurn System (Some (js "Sys")) None; mkTurn User (Some (js "Hi")) None].
Proof.
  split; [|split; reflexivity].
  intros sys history newUserText. unfold formatMessagesForProvider.
  change (trim <$> Some sys) with (Some (trim sys)).
  change (trim <$> Some newUserText) with (Some (trim newUserText)).
  fold (nonblank sys). fold (nonblank newUserText).
  rewrite !nonblank_trim.
  destruct (decide (trim sys = [])) as [Es|Es];
    destruct (decide (trim newUserText = [])) as [En|En];
    rewrite ?(bool_decide_eq_true_2 _ Es), ?(bool_decide_eq_false_2 _ Es),
            ?(bool_decide_eq_true_2 _ En), ?(bool_decide_eq_false_2 _ En);
    simpl; by rewrite ?app_nil_r, <-?app_assoc.
Qed.

(** C7, at the bound 0: [slice(-0)] is [slice(0)], so every history comes
    back whole; one that is longer than the bound keeps its elements instead
    of losing them all. *)
Theorem trimSessionHistory_zero_bound :
  (forall history, trimSessionHistory history 0 = history)
  /\ let t := mkTurn User (Some (js "Hi")) (Some 1) in
     trimSessionHistory [t] 0 = [t]
     /\ trimSessionHistory [t] 0 <> drop (length [t] - 0) [t].
Proof.
  split; [|split; [reflexivity | discriminate]].
  intros history. unfold trimSessionHistory.
  destruct (Z.leb_spec (Z.of_nat (length history)) 0) as [Hle|Hgt]; [done|].
  unfold slice_from. simpl.
  replace (Z.to_nat (Z.min (- 0) (Z.of_nat (length history)))) with 0%nat by lia.
  done.
Qed.

(** ** Running the monad *)

Lemma bind_run {A B} (m : M A) (k : A -> M B) (w w' : World) (a : A) :
  m w = (Ok a, w') -> bind m k w = k a w'.
Proof. intros H. unfold bind. by rewrite H. Qed.

Lemma bind_throw {A B} (m : M A) (k : A -> M B) (w w' : World) (e : Error) :
  m w = (Throw e, w') -> bind m k w = (Throw e, w').
Proof. intros H. unfold bind. by rewrite H. Qed.

(** One run of an adapter, case by case over the answers of the network. *)
Ltac run_cases :=
  unfold bind, fetch, json, ret, throw in *;
  repeat (case_match; simplify_eq; cbn [fst snd sent store ticks] in * ).

(** The last request of the log is the one that was answered. *)
Ltac answered :=
  cbn [sent]; rewrite ?length_app in *; cbn [length] in *;
  split; [lia|];
  match goal with
  | Hnet : net ?env ?n = NetResponse ?r, Hok : negb (ok ?r) = false
    |- exists _, net ?env (pred ?m) = _ /\ _ =>
      replace (pred m) with n by lia; exists r;
      split; [exact Hnet | by apply negb_false_iff]
  | Hnet : net ?env ?n = NetResponse ?r, Hok : ok ?r = true
    |- exists _, net ?env (pred ?m) = _ /\ _ =>
      replace (pred m) with n by lia; exists r;
      split; [exact Hnet | exact Hok]
  end.

(** The log grew before the error. *)
Ltac thrown :=
  cbn [sent]; rewrite ?length_app; cbn [length]; first [done | lia].

(** ** Computations that do not touch the store *)

Lemma set_store_id (w : World) : set_store (store w) w = w.
Proof. by destruct w. Qed.

Lemma store_blind_keeps {A} (m : M A) (w : World) :
  store_blind m -> store (snd (m w)) = store w.
Proof.
  intros H. specialize (H w (store w)). rewrite set_store_id in H.
  destruct (m w) as [r w'] eqn:E. simpl in *.
  by injection H as ->.
Qed.

Lemma blind_ret {A} (a : A) : store_blind (ret a).
Proof. done. Qed.

Lemma blind_throw {A} (e : Error) : store_blind (@throw A e).
Proof. done. Qed.

Lemma blind_bind {A B} (m : M A) (k : A -> M B) :
  store_blind m -> (forall a, store_blind (k a)) -> store_blind (bind m k).
Proof.
  intros Hm Hk w st. unfold bind. rewrite Hm.
  destruct (m w) as [[a|e] w']; simpl; [apply Hk | done].
Qed.

Lemma blind_fetch (env : Env) (req : FetchReq) : store_blind (fetch env req).
Proof. intros w st. unfold fetch. simpl. by destruct (net env _). Qed.

Lemma blind_now (env : Env) : store_blind (Date_now env).
Proof. done. Qed.

Lemma blind_json (res : HttpResponse) : store_blind (json res).
Proof. unfold json. destruct (payload res); [apply blind_ret | apply blind_throw]. Qed.

Create HintDb blind.
#[global] Hint Resolve blind_ret blind_throw blind_fetch blind_now blind_json : blind.

Ltac blind :=
  repeat first
    [ apply blind_ret | apply blind_throw | apply blind_fetch
    | apply blind_now | apply blind_json
    | apply blind_bind; [| intros ?]
    | match goal with
      | |- store_blind (if ?c then _ else _) => destruct c
      | |- store_blind (match ?x with _ => _ end) => destruct x
      end ].

Lemma blind_openai_text env apiKey input :
  store_blind (OpenAI.generateTextWithOpenAI env apiKey input).
Proof. unfold OpenAI.generateTextWithOpenAI. blind. Qed.

Lemma blind_openai_audio env apiKey input audio :
  store_blind (OpenAI.generateTextWithOpenAIAndAudio env apiKey input audio).
Proof.
  unfold OpenAI.generateTextWithOpenAIAndAudio, OpenAI.transcribe, OpenAI.chat.
  blind.
Qed.

Lemma blind_mistral env apiKey input :
  store_blind (Mistral.generateTextWithMistral env apiKey input).
Proof. unfold Mistral.generateTextWithMistral. blind. Qed.

Lemma blind_yandex_text env apiKey folderId input options :
  store_blind (Yandex.generateTextWithYandex env apiKey folderId input options).
Proof. unfold Yandex.generateTextWithYandex. blind. Qed.

Lemma blind_yandex_stt env apiKey folderId audio opts :
  store_blind (Yandex.transcribeWithYandexSTT env apiKey folderId audio opts).
Proof. unfold Yandex.transcribeWithYandexSTT. blind. Qed.

Lemma blind_yandex_audio env apiKey folderId input audio sttOpts :
  store_blind
    (Yandex.generateTextWithYandexAndAudio env apiKey folderId input audio sttOpts).
Proof.
  unfold Yandex.generateTextWithYandexAndAudio.
  apply blind_bind; [apply blind_yandex_stt | intros ?].
  apply blind_bind; [apply blind_yandex_text | intros ?]. apply blind_ret.
Qed.

Lemma blind_gemini_text env apiKey input :
  store_blind (Gemini.generateTextWithGemini env apiKey input).
Proof.
  unfold Gemini.generateTextWithGemini, Gemini.generateContent. blind.
Qed.

Lemma blind_gemini_audio env apiKey input audio :
  store_blind (Gemini.generateTextWithGeminiAndAudio env apiKey input audio).
Proof.
  unfold Gemini.generateTextWithGeminiAndAudio, Gemini.generateContent. blind.
Qed.

#[global] Hint Resolve blind_openai_text blind_openai_audio blind_mistral
  blind_yandex_text blind_yandex_audio blind_gemini_text blind_gemini_audio : blind.

Lemma blind_dispatchText env msgs options :
  store_blind (dispatchText env msgs options).
Proof. unfold dispatchText. blind; auto with blind. Qed.

Lemma blind_dispatchAudio env msgs audio audioFormat :
  store_blind (dispatchAudio env msgs audio audioFormat).
Proof.
  unfold dispatchAudio.
  repeat first
    [ apply blind_ret
    | apply blind_openai_audio | apply blind_gemini_audio
    | apply blind_yandex_audio
    | apply blind_bind; [| intros ?]
    | match goal with
      | |- store_blind (if ?c then _ else _) => destruct c
      end ].
Qed.

(** ** Session store gateway *)

Lemma getSession_run env sessionId w :
  getSession env sessionId w = (Ok (loaded env sessionId w), w).
Proof.
  unfold getSession, loaded, try_catch, bind, blobs_get, ret.
  destruct (truthy sessionId); simpl; [|done].
  by destruct (blobs_get_ok env _).
Qed.

Lemma saveSession_run env sessionId session w :
  saveSession env sessionId session w
  = (Ok tt,
     if truthy sessionId && blobs_set_ok env (default [] sessionId)
     then set_store (<[default [] sessionId := session]> (store w)) w
     else w).
Proof.
  unfold saveSession, try_catch, blobs_set, ret, set_store.
  destruct (truthy sessionId); simpl; [|done].
  by destruct (blobs_set_ok env _).
Qed.

Lemma deleteSession_run env sessionId w :
  deleteSession env sessionId w
  = (Ok tt,
     if truthy sessionId && blobs_delete_ok env (default [] sessionId)
     then set_store (delete (default [] sessionId) (store w)) w
     else w).
Proof.
  unfold deleteSession, try_catch, blobs_delete, ret, set_store.
  destruct (truthy sessionId); simpl; [|done].
  by destruct (blobs_delete_ok env _).
Qed.

Lemma createNewSession_run env sys w :
  createNewSession env sys w
  = (Ok (mkSession sys [] (clock env (ticks w)) (clock env (S (ticks w)))),
     mkWorld (store w) (sent w) (S (S (ticks w)))).
Proof. done. Qed.

(** The session an exchange works on, and the world after resolving it: the
    store and the request log are as before. *)
Lemma resolveSession_run env sessionId resetContext system w :
  exists s t,
    resolveSession env sessionId resetContext system w
    = (Ok s, mkWorld (store w) (sent w) t)
    /\ messages s = working_messages env sessionId resetContext w
    /\ systemPrompt s
       = match loaded env sessionId w with
         | Some s0 => systemPrompt s0
         | None => or_empty system
         end.
Proof.
  unfold resolveSession, working_messages.
  unfold bind at 1. destruct (truthy sessionId) eqn:Hid.
  - unfold bind at 1. rewrite getSession_run.
    destruct (loaded env sessionId w) as [s0|] eqn:Hs0.
    + destruct resetContext.
      * eexists _, _. split; [reflexivity | done].
      * destruct w. eexists _, _. split; [reflexivity | done].
    + destruct w. eexists _, _. split; [reflexivity | ].
      unfold loaded in Hs0. rewrite Hid in Hs0. done.
  - destruct w. eexists _, _. split; [reflexivity | ].
    unfold loaded. rewrite Hid. done.
Qed.

(** What [persistTurns] builds and saves when there is a session
    identifier. *)
Lemma persistTurns_run env sessionId session userText generated w :
  truthy sessionId = true ->
  exists s' t1 t2,
    persistTurns env sessionId session userText generated w
    = (Ok s',
       mkWorld (if blobs_set_ok env (default [] sessionId)
                then <[default [] sessionId := s']> (store w) else store w)
         (sent w) (S (S (S (ticks w)))))
    /\ messages s'
       = trimSessionHistory
           (messages session
            ++ [mkTurn User userText (Some t1); mkTurn Assistant generated (Some t2)])
           MAX_MESSAGES_IN_SESSION
    /\ systemPrompt s' = systemPrompt session.
Proof.
  intros Hid. unfold persistTurns. rewrite Hid.
  unfold bind, Date_now. simpl. rewrite saveSession_run. rewrite Hid. simpl.
  eexists _, _, _. split; [|split].
  - destruct (blobs_set_ok env _); reflexivity.
  - simpl. by rewrite <-app_assoc.
  - done.
Qed.

Lemma persistTurns_skip env sessionId session userText generated w :
  truthy sessionId = false ->
  persistTurns env sessionId session userText generated w = (Ok session, w).
Proof. intros Hid. unfold persistTurns. by rewrite Hid. Qed.

(** ** The handler, step by step *)

(** The JSON branch once validation has passed and the request is not an
    end-session request: resolve the session, dispatch, persist. *)
Lemma handleJson_exchange env body w :
  truthy (j_prompt body) = true ->
  j_endSession body && truthy (j_sessionId body) = false ->
  exists s t,
    let w1 := mkWorld (store w) (sent w) t in
    resolveSession env (j_sessionId body) (j_resetContext body) (j_system body) w
    = (Ok s, w1)
    /\ messages s
       = working_messages env (j_sessionId body) (j_resetContext body) w
    /\ handleJson env body w
       = match dispatchText env
                 (formatMessagesForProvider (Some (systemPrompt s)) (messages s)
                    (j_prompt body))
                 (Yandex.mkOptions (j_modelName body) (j_modelUri body)) w1 with
         | (Ok (Return r), w2) => (Ok r, w2)
         | (Ok (Continue generated), w2) =>
             match persistTurns env (j_sessionId body) s (j_prompt body)
                     generated w2 with
             | (Ok s', w3) =>
                 (Ok (RespSuccess generated (provider env) None (j_sessionId body)
                        (length (messages s') / 2)%nat), w3)
             | (Throw e, w3) => (Throw e, w3)
             end
         | (Throw e, w2) => (Throw e, w2)
         end.
Proof.
  intros Hprompt Hend.
  destruct (resolveSession_run env (j_sessionId body) (j_resetContext body)
              (j_system body) w) as (s & t & Hrun & Hmsgs & _).
  exists s, t. simpl. split; [done|]. split; [done|].
  unfold handleJson. rewrite Hprompt, Hend. simpl.
  rewrite (bind_run _ _ _ _ _ Hrun). unfold bind at 1.
  destruct (dispatchText _ _ _ _) as [[[r|generated]|e] w2]; [done| |done].
  unfold bind, ret. by destruct (persistTurns _ _ _ _ _ _) as [[s'|e] w3].
Qed.

(** The same for the multipart branch, given the [audio] file part. *)
Lemma handleMultipart_exchange env form audioFile w :
  head (filter (fun f => fst f = js "audio") (f_files form)) = Some audioFile ->
  bool_decide (f_endSession form = Some (js "true")) && truthy (f_sessionId form)
  = false ->
  exists s t,
    let w1 := mkWorld (store w) (sent w) t in
    resolveSession env (f_sessionId form)
      (bool_decide (f_resetContext form = Some (js "true"))) (f_system form) w
    = (Ok s, w1)
    /\ messages s
       = working_messages env (f_sessionId form)
           (bool_decide (f_resetContext form = Some (js "true"))) w
    /\ handleMultipart env form w
       = match dispatchAudio env
                 (formatMessagesForProvider (Some (systemPrompt s)) (messages s)
                    (f_prompt form))
                 (snd audioFile) (f_audioFormat form) w1 with
         | (Ok (Return r), w2) => (Ok r, w2)
         | (Ok (Continue (generated, transcript)), w2) =>
             match persistTurns env (f_sessionId form) s
                     (or_else transcript (f_prompt form)) generated w2 with
             | (Ok s', w3) =>
                 (Ok (RespSuccess generated (provider env) transcript
                        (f_sessionId form) (length (messages s') / 2)%nat), w3)
             | (Throw e, w3) => (Throw e, w3)
             end
         | (Throw e, w2) => (Throw e, w2)
         end.
Proof.
  intros Haudio Hend.
  destruct (resolveSession_run env (f_sessionId form)
              (bool_decide (f_resetContext form = Some (js "true")))
              (f_system form) w) as (s & t & Hrun & Hmsgs & _).
  exists s, t. simpl. split; [done|]. split; [done|].
  unfold handleMultipart. rewrite Haudio, Hend.
  rewrite (bind_run _ _ _ _ _ Hrun). unfold bind at 1.
  destruct (dispatchAudio _ _ _ _ _) as [[[r|[generated transcript]]|e] w2];
    [done| |done].
  unfold bind, ret. by destruct (persistTurns _ _ _ _ _ _) as [[s'|e] w3].
Qed.

(** [persistTurns] always completes. *)
Lemma persistTurns_total env sessionId session userText generated w :
  exists s' w', persistTurns env sessionId session userText generated w = (Ok s', w').
Proof.
  destruct (truthy sessionId) eqn:Hid.
  - destruct (persistTurns_run env sessionId session userText generated w Hid)
      as (s' & ? & ? & -> & _). eauto.
  - rewrite persistTurns_skip by done. eauto.
Qed.

Lemma handleJson_end_session env body w :
  truthy (j_prompt body) = true ->
  j_endSession body && truthy (j_sessionId body) = true ->
  handleJson env body w
  = (Ok (RespEndSession (j_sessionId body) (provider env)),
     if blobs_delete_ok env (default [] (j_sessionId body))
     then set_store (delete (default [] (j_sessionId body)) (store w)) w else w).
Proof.
  intros Hprompt Hend. unfold handleJson. rewrite Hprompt, Hend. simpl.
  unfold bind. rewrite deleteSession_run.
  apply andb_true_iff in Hend as [_ ->]. done.
Qed.

Lemma handleMultipart_end_session env form audioFile w :
  head (filter (fun f => fst f = js "audio") (f_files form)) = Some audioFile ->
  bool_decide (f_endSession form = Some (js "true")) && truthy (f_sessionId form)
  = true ->
  handleMultipart env form w
  = (Ok (RespEndSession (f_sessionId form) (provider env)),
     if blobs_delete_ok env (default [] (f_sessionId form))
     then set_store (delete (default [] (f_sessionId form)) (store w)) w else w).
Proof.
  intros Haudio Hend. unfold handleMultipart. rewrite Haudio, Hend.
  unfold bind. rewrite deleteSession_run.
  apply andb_true_iff in Hend as [_ ->]. done.
Qed.

(** The provider switch returns early only with a configuration error, and
    then nothing has been sent. *)
Lemma dispatchText_return env msgs options w r w2 :
  dispatchText env msgs options w = (Ok (Return r), w2) ->
  (exists key, r = RespConfigError key) /\ w2 = w.
Proof.
  unfold dispatchText, bind, ret. intros H.
  repeat case_match; simplify_eq; eauto.
Qed.

Lemma dispatchAudio_return env msgs audio audioFormat w r w2 :
  dispatchAudio env msgs audio audioFormat w = (Ok (Return r), w2) ->
  (exists key, r = RespConfigError key) /\ w2 = w.
Proof.
  unfold dispatchAudio, bind, ret. intros H.
  repeat case_match; simplify_eq; eauto.
Qed.

Lemma handler_json env body w :
  handler env (ReqJson body) w
  = match handleJson env body w with
    | (Ok r, w') => (r, w')
    | (Throw e, w') => (RespError e, w')
    end.
Proof. done. Qed.

Lemma handler_multipart env form w :
  handler env (ReqMultipart form) w
  = match handleMultipart env form w with
    | (Ok r, w') => (r, w')
    | (Throw e, w') => (RespError e, w')
    end.
Proof. done. Qed.

(** Every invocation meets [outcome_spec]. *)
Lemma handler_outcome env event w r w' :
  handler env event w = (r, w') -> outcome_spec env w r w'.
Proof.
  destruct event as [| |form| |body| |ct]; try (intros [= <- <-]; done).
  - (* multipart *)
    rewrite handler_multipart.
    destruct (head (filter (fun f => fst f = js "audio") (f_files form)))
      as [audioFile|] eqn:Haudio.
    2:{ unfold handleMultipart. rewrite Haudio. by intros [= <- <-]. }
    destruct (bool_decide (f_endSession form = Some (js "true"))
              && truthy (f_sessionId form)) eqn:Hend.
    { rewrite (handleMultipart_end_session _ _ _ _ Haudio Hend).
      intros [= <- <-]. simpl. by destruct (blobs_delete_ok env _). }
    destruct (handleMultipart_exchange env form audioFile w Haudio Hend)
      as (s & t & _ & Hmsgs & ->). simpl.
    pose proof (store_blind_keeps _ (mkWorld (store w) (sent w) t)
                  (blind_dispatchAudio env
                     (formatMessagesForProvider (Some (systemPrompt s))
                        (messages s) (f_prompt form))
                     (snd audioFile) (f_audioFormat form))) as Hkeep.
    destruct (dispatchAudio _ _ _ _ _) as [[[r0|[generated transcript]]|e] w2]
      eqn:Hd; simpl in Hkeep.
    + intros [= <- <-].
      apply dispatchAudio_return in Hd as [[key ->] _]. done.
    + destruct (truthy (f_sessionId form)) eqn:Hid.
      * destruct (persistTurns_run env (f_sessionId form) s
                    (or_else transcript (f_prompt form)) generated w2 Hid)
          as (s' & t1 & t2 & -> & Hs' & _).
        intros [= <- <-]. simpl. rewrite Hid.
        exists (bool_decide (f_resetContext form = Some (js "true"))), s',
          (or_else transcript (f_prompt form)), t1, t2.
        rewrite <-Hmsgs, Hkeep. done.
      * rewrite persistTurns_skip by done. intros [= <- <-]. simpl.
        by rewrite Hid.
    + by intros [= <- <-].
  - (* JSON *)
    rewrite handler_json.
    destruct (truthy (j_prompt body)) eqn:Hprompt.
    2:{ unfold handleJson. rewrite Hprompt. by intros [= <- <-]. }
    destruct (j_endSession body && truthy (j_sessionId body)) eqn:Hend.
    { rewrite (handleJson_end_session _ _ _ Hprompt Hend).
      intros [= <- <-]. simpl. by destruct (blobs_delete_ok env _). }
    destruct (handleJson_exchange env body w Hprompt Hend)
      as (s & t & _ & Hmsgs & ->). simpl.
    pose proof (store_blind_keeps _ (mkWorld (store w) (sent w) t)
                  (blind_dispatchText env
                     (formatMessagesForProvider (Some (systemPrompt s))
                        (messages s) (j_prompt body))
                     (Yandex.mkOptions (j_modelName body) (j_modelUri body))))
      as Hkeep.
    destruct (dispatchText _ _ _ _) as [[[r0|generated]|e] w2] eqn:Hd;
      simpl in Hkeep.
    + intros [= <- <-].
      apply dispatchText_return in Hd as [[key ->] _]. done.
    + destruct (truthy (j_sessionId body)) eqn:Hid.
      * destruct (persistTurns_run env (j_sessionId body) s (j_prompt body)
                    generated w2 Hid) as (s' & t1 & t2 & -> & Hs' & _).
        intros [= <- <-]. simpl. rewrite Hid.
        exists (j_resetContext body), s', (j_prompt body), t1, t2.
        rewrite <-Hmsgs, Hkeep. done.
      * rewrite persistTurns_skip by done. intros [= <- <-]. simpl.
        by rewrite Hid.
    + by intros [= <- <-].
Qed.

(** ** Session invariant *)

Lemma trimmed_exchange_ok (old : list Turn) (u a : Turn) (s' : Session) :
  Nat.Even (length old) ->
  messages s' = trimSessionHistory (old ++ [u; a]) MAX_MESSAGES_IN_SESSION ->
  session_ok s'.
Proof.
  intros [k Hk] Hs'. unfold session_ok. rewrite Hs'.
  rewrite trimSessionHistory_length by done. rewrite length_app. simpl.
  unfold MAX_MESSAGES_IN_SESSION. split; [|lia].
  destruct (decide (length old + 2 <= 20)%nat).
  - exists (S k). lia.
  - exists 10%nat. lia.
Qed.

Lemma working_messages_cases env sessionId resetContext w :
  working_messages env sessionId resetContext w = []
  \/ exists s, store w !! default [] sessionId = Some s
              /\ working_messages env sessionId resetContext w = messages s.
Proof.
  unfold working_messages, loaded.
  destruct (truthy sessionId && blobs_get_ok env _); [|by left].
  destruct (store w !! default [] sessionId) as [s|] eqn:Hs; [|by left].
  destruct resetContext; [by left|]. right. eauto.
Qed.

Lemma working_messages_even env sessionId resetContext w :
  store_ok (store w) ->
  Nat.Even (length (working_messages env sessionId resetContext w)).
Proof.
  intros Hok.
  destruct (working_messages_cases env sessionId resetContext w)
    as [->|(s & Hs & ->)].
  - by exists 0%nat.
  - by apply (Hok _ _ Hs).
Qed.

Lemma handler_preserves_store_ok env event w :
  store_ok (store w) -> store_ok (store (snd (handler env event w))).
Proof.
  intros Hok. destruct (handler env event w) as [r w'] eqn:Hrun.
  apply handler_outcome in Hrun. simpl.
  assert (Hdel : forall key, store_ok (delete key (store w))).
  { intros key k s Hs. apply lookup_delete_Some in Hs as [_ Hs]. eauto. }
  destruct r as [| | |sid p|g p tr sid n|e]; simpl in Hrun;
    try (by rewrite Hrun).
  - rewrite Hrun. destruct (blobs_delete_ok env _); auto.
  - destruct (truthy sid); [|by rewrite Hrun].
    destruct Hrun as (reset & s' & u & t1 & t2 & Hs' & _ & ->).
    destruct (blobs_set_ok env _); [|done].
    intros k s Hs. apply lookup_insert_Some in Hs as [[_ <-]|[_ Hs]]; [|eauto].
    eapply trimmed_exchange_ok; [|exact Hs'].
    by apply working_messages_even.
Qed.

Lemma reachable_store_ok (w : World) : reachable w -> store_ok (store w).
Proof.
  induction 1 as [|env event w Hw IH|key w Hw IH].
  - intros key s Hs. simpl in Hs. by rewrite lookup_empty in Hs.
  - by apply handler_preserves_store_ok.
  - intros k s Hs. simpl in Hs.
    apply lookup_delete_Some in Hs as [_ Hs]. eauto.
Qed.

(** C4. In every world the deployment can reach, each stored session has an
    even number of messages, at most 20; and a session that an invocation
    writes holds the last 20 elements, in order, of the list it started from
    (the stored one or the empty one) followed by the new user turn and the
    new assistant turn. *)
Theorem session_invariant (w : World) (Hreach : reachable w) :
  (forall key s, store w !! key = Some s ->
     Nat.Even (length (messages s)) /\ (length (messages s) <= 20)%nat)
  /\ (forall env event key s',
        store (snd (handler env event (fresh w))) !! key = Some s' ->
        store w !! key = Some s'
        \/ exists old u a,
             (old = [] \/ exists s, store w !! key = Some s /\ old = messages s)
             /\ role u = User /\ role a = Assistant
             /\ messages s' = drop (length (old ++ [u; a]) - 20) (old ++ [u; a])).
Proof.
  split.
  - intros key s Hs. by apply (reachable_store_ok w Hreach key s).
  - intros env event key s'.
    destruct (handler env event (fresh w)) as [r w'] eqn:Hrun.
    apply handler_outcome in Hrun. simpl. intros Hs'.
    destruct r as [| | |sid p|g p tr sid n|e]; simpl in Hrun;
      try (left; by rewrite Hrun in Hs').
    + left. rewrite Hrun in Hs'. destruct (blobs_delete_ok env _); [|done].
      by apply lookup_delete_Some in Hs' as [_ Hs'].
    + destruct (truthy sid); [|left; by rewrite Hrun in Hs'].
      destruct Hrun as (reset & s1 & u & t1 & t2 & Hs1 & _ & Hst).
      rewrite Hst in Hs'. destruct (blobs_set_ok env _); [|by left].
      apply lookup_insert_Some in Hs' as [[<- <-]|[_ Hs']]; [|by left].
      right. rewrite trimSessionHistory_positive in Hs1 by done.
      eexists _, _, _. split; [|split; [|split; [|exact Hs1]]]; [|done|done].
      destruct (working_messages_cases env sid reset (fresh w))
        as [->|(s & Hs & ->)]; [by left|]. right. eauto.
Qed.

(** ** Errors and the store *)

(** An error response, whatever its cause, leaves the store as it was. *)
Lemma error_response_keeps_store env event w :
  statusCode (fst (handler env event w)) = 500 ->
  store (snd (handler env event w)) = store w.
Proof.
  destruct (handler env event w) as [r w'] eqn:Hrun.
  apply handler_outcome in Hrun. simpl.
  destruct r; simpl in *; done.
Qed.

(** C10. Validation comes before the end-session branch: an end-session
    request in multipart form without an [audio] part, or in JSON without a
    prompt, is answered with an error and the world, with the session in it,
    is untouched. *)
Theorem end_session_needs_valid_body :
  (forall env form w,
     f_endSession form = Some (js "true") ->
     truthy (f_sessionId form) = true ->
     head (filter (fun f => fst f = js "audio") (f_files form)) = None ->
     handler env (ReqMultipart form) w = (RespError ErrNoAudio, w)
     /\ statusCode (RespError ErrNoAudio) = 500)
  /\ (forall env body w,
        j_endSession body = true ->
        truthy (j_sessionId body) = true ->
        truthy (j_prompt body) = false ->
        handler env (ReqJson body) w = (RespError ErrNoPrompt, w)
        /\ statusCode (RespError ErrNoPrompt) = 500).
Proof.
  split.
  - intros env form w _ _ Haudio. split; [|done].
    rewrite handler_multipart. unfold handleMultipart. by rewrite Haudio.
  - intros env body w _ _ Hprompt. split; [|done].
    rewrite handler_json. unfold handleJson. by rewrite Hprompt.
Qed.

(** ** The store gateway under failure *)

Lemma resolveSession_fresh env sessionId resetContext system w :
  loaded env sessionId w = None ->
  resolveSession env sessionId resetContext system w
  = (Ok (mkSession (or_empty system) [] (clock env (ticks w))
           (clock env (S (ticks w)))),
     mkWorld (store w) (sent w) (S (S (ticks w)))).
Proof.
  intros Hload. unfold resolveSession. unfold bind at 1.
  destruct (truthy sessionId).
  - unfold bind at 1. rewrite getSession_run, Hload.
    unfold ret. by rewrite createNewSession_run.
  - unfold ret. by rewrite createNewSession_run.
Qed.

(** The session [persistTurns] builds depends on the clock alone. *)
Lemma persistTurns_session env1 env2 sessionId session userText generated w1 w2 :
  clock env1 = clock env2 -> ticks w1 = ticks w2 ->
  exists s' w1' w2',
    persistTurns env1 sessionId session userText generated w1 = (Ok s', w1')
    /\ persistTurns env2 sessionId session userText generated w2 = (Ok s', w2').
Proof.
  intros Hclock Hticks. unfold persistTurns.
  destruct (truthy sessionId); [|by eexists _, _, _].
  unfold bind, Date_now. simpl. rewrite !saveSession_run.
  rewrite Hclock, Hticks. by eexists _, _, _.
Qed.

Lemma dispatchText_store_flags env msgs options :
  dispatchText (store_down env) msgs options
  = dispatchText (store_up env) msgs options.
Proof. reflexivity. Qed.

Lemma dispatchAudio_store_flags env msgs audio audioFormat :
  dispatchAudio (store_down env) msgs audio audioFormat
  = dispatchAudio (store_up env) msgs audio audioFormat.
Proof. reflexivity. Qed.

Lemma loaded_down env sessionId w : loaded (store_down env) sessionId w = None.
Proof. unfold loaded. simpl. by rewrite andb_false_r. Qed.

Lemma loaded_empty env sessionId w :
  loaded env sessionId (set_store ∅ w) = None.
Proof.
  unfold loaded. simpl. rewrite lookup_empty. by destruct (_ && _).
Qed.

(** With the store unreachable the handler answers as it would over an empty
    store that works: the request is served from a fresh session. *)
Lemma handler_store_down env event w :
  fst (handler (store_down env) event w)
  = fst (handler (store_up env) event (set_store ∅ w)).
Proof.
  destruct event as [| |form| |body| |ct]; try done.
  - rewrite !handler_multipart.
    destruct (head (filter (fun f => fst f = js "audio") (f_files form)))
      as [audioFile|] eqn:Haudio.
    2:{ unfold handleMultipart. by rewrite Haudio. }
    destruct (bool_decide (f_endSession form = Some (js "true"))
              && truthy (f_sessionId form)) eqn:Hend.
    { rewrite !(handleMultipart_end_session _ _ _ _ Haudio Hend). done. }
    destruct (handleMultipart_exchange (store_down env) form audioFile w
                Haudio Hend) as (s1 & t1 & Hs1 & _ & ->).
    destruct (handleMultipart_exchange (store_up env) form audioFile
                (set_store ∅ w) Haudio Hend) as (s2 & t2 & Hs2 & _ & ->).
    simpl in Hs1, Hs2.
    rewrite resolveSession_fresh in Hs1
      by apply loaded_down.
    rewrite resolveSession_fresh in Hs2
      by apply loaded_empty.
    injection Hs1 as <- <-. injection Hs2 as <- <-. simpl.
    rewrite dispatchAudio_store_flags.
    pose proof (blind_dispatchAudio (store_up env)
                  (formatMessagesForProvider (Some (or_empty (f_system form))) []
                     (f_prompt form))
                  (snd audioFile) (f_audioFormat form)
                  (mkWorld (store w) (sent w) (S (S (ticks w)))) ∅) as Hblind.
    unfold set_store in Hblind. simpl in Hblind. rewrite Hblind. clear Hblind.
    destruct (dispatchAudio _ _ _ _ _) as [[[r0|[generated transcript]]|e] w2];
      simpl; try done.
    destruct (persistTurns_session (store_down env) (store_up env)
                (f_sessionId form)
                (mkSession (or_empty (f_system form)) []
                   (clock env (ticks w)) (clock env (S (ticks w))))
                (or_else transcript (f_prompt form)) generated w2
                (mkWorld ∅ (sent w2) (ticks w2)) eq_refl eq_refl)
      as (s' & w1' & w2' & -> & ->). done.
  - rewrite !handler_json.
    destruct (truthy (j_prompt body)) eqn:Hprompt.
    2:{ unfold handleJson. by rewrite Hprompt. }
    destruct (j_endSession body && truthy (j_sessionId body)) eqn:Hend.
    { rewrite !(handleJson_end_session _ _ _ Hprompt Hend). done. }
    destruct (handleJson_exchange (store_down env) body w Hprompt Hend)
      as (s1 & t1 & Hs1 & _ & ->).
    destruct (handleJson_exchange (store_up env) body (set_store ∅ w)
                Hprompt Hend) as (s2 & t2 & Hs2 & _ & ->).
    simpl in Hs1, Hs2.
    rewrite resolveSession_fresh in Hs1
      by apply loaded_down.
    rewrite resolveSession_fresh in Hs2
      by apply loaded_empty.
    injection Hs1 as <- <-. injection Hs2 as <- <-. simpl.
    rewrite dispatchText_store_flags.
    pose proof (blind_dispatchText (store_up env)
                  (formatMessagesForProvider (Some (or_empty (j_system body))) []
                     (j_prompt body))
                  (Yandex.mkOptions (j_modelName body) (j_modelUri body))
                  (mkWorld (store w) (sent w) (S (S (ticks w)))) ∅) as Hblind.
    unfold set_store in Hblind. simpl in Hblind. rewrite Hblind. clear Hblind.
    destruct (dispatchText _ _ _ _) as [[[r0|generated]|e] w2];
      simpl; try done.
    destruct (persistTurns_session (store_down env) (store_up env)
                (j_sessionId body)
                (mkSession (or_empty (j_system body)) []
                   (clock env (ticks w)) (clock env (S (ticks w))))
                (j_prompt body) generated w2
                (mkWorld ∅ (sent w2) (ticks w2)) eq_refl eq_refl)
      as (s' & w1' & w2' & -> & ->). done.
Qed.

(** C8. The gateway never throws: [getSession] gives the stored value or
    nothing, and nothing when the store fails; [saveSession] and
    [deleteSession] complete, and leave the world as it is when the store
    fails; and with the store unreachable the handler answers as it does over
    an empty store, without touching it. *)
Theorem store_failures_never_surface :
  forall env sessionId session event w,
    (exists found, getSession env sessionId w = (Ok found, w))
    /\ getSession (store_down env) sessionId w = (Ok None, w)
    /\ (exists w', saveSession env sessionId session w = (Ok tt, w'))
    /\ saveSession (store_down env) sessionId session w = (Ok tt, w)
    /\ (exists w', deleteSession env sessionId w = (Ok tt, w'))
    /\ deleteSession (store_down env) sessionId w = (Ok tt, w)
    /\ fst (handler (store_down env) event w)
       = fst (handler (store_up env) event (set_store ∅ w))
    /\ store (snd (handler (store_down env) event w)) = store w.
Proof.
  intros env sessionId session event w.
  repeat split.
  - rewrite getSession_run. eauto.
  - rewrite getSession_run. unfold loaded. simpl. by rewrite andb_false_r.
  - rewrite saveSession_run. eauto.
  - rewrite saveSession_run. simpl. by rewrite andb_false_r.
  - rewrite deleteSession_run. eauto.
  - rewrite deleteSession_run. simpl. by rewrite andb_false_r.
  - apply handler_store_down.
  - destruct (handler (store_down env) event w) as [r w'] eqn:Hrun.
    apply handler_outcome in Hrun. simpl.
    destruct r as [| | |sid p|g p tr sid n|e]; simpl in Hrun; try done.
    destruct (truthy sid); [|done].
    by destruct Hrun as (? & ? & ? & ? & ? & _ & _ & ->).
Qed.

(** ** The size of the history after an exchange *)

(** C9, as stated, fails at the cap: a session with 20 messages still has 20
    after a successful exchange, not 22. *)
Lemma exchange_at_cap_does_not_grow :
  let env := env_of (js "openai") [NetResponse (ok_response (js "Hi!"))] in
  let out := handler env (ReqJson (hello_request (Some (js "s1")))) full_world in
  fst out = RespSuccess (Some (js "Hi!")) (js "openai") None (Some (js "s1")) 10
  /\ exists s s',
       store full_world !! js "s1" = Some s
       /\ store (snd out) !! js "s1" = Some s'
       /\ length (messages s') <> (length (messages s) + 2)%nat.
Proof.
  split; [vm_compute; reflexivity|].
  eexists _, _. split; [vm_compute; reflexivity|].
  split; [vm_compute; reflexivity|]. vm_compute. discriminate.
Qed.

(** C9, amended. After a successful text exchange with a session identifier
    and a store that accepts the write, the stored session holds the trimmed
    list: its length is the length of the list the exchange started from
    plus 2, capped at 20, and [turns] is half that length, rounded down. *)
Theorem text_exchange_length (env : Env) (body : JsonBody) (w w' : World)
    (generated transcript sessionId : option jsstring) (selector : jsstring)
    (turns : nat)
    (Hrun : handler env (ReqJson body) w
            = (RespSuccess generated selector transcript sessionId turns, w'))
    (Hid : truthy (j_sessionId body) = true)
    (Hset : blobs_set_ok env (default [] (j_sessionId body)) = true) :
  exists s' t1 t2,
    let exchanged :=
      working_messages env (j_sessionId body) (j_resetContext body) w
      ++ [mkTurn User (j_prompt body) (Some t1);
          mkTurn Assistant generated (Some t2)] in
    store w' !! default [] (j_sessionId body) = Some s'
    /\ messages s' = drop (length exchanged - 20) exchanged
    /\ length (messages s')
       = ((length (working_messages env (j_sessionId body)
                     (j_resetContext body) w) + 2) `min` 20)%nat
    /\ turns = (length (messages s') / 2)%nat.
Proof.
  rewrite handler_json in Hrun.
  destruct (truthy (j_prompt body)) eqn:Hprompt.
  2:{ unfold handleJson in Hrun. rewrite Hprompt in Hrun. done. }
  destruct (j_endSession body && truthy (j_sessionId body)) eqn:Hend.
  { rewrite (handleJson_end_session _ _ _ Hprompt Hend) in Hrun. done. }
  destruct (handleJson_exchange env body w Hprompt Hend)
    as (s & t & _ & Hmsgs & Heq). rewrite Heq in Hrun. clear Heq.
  simpl in Hrun.
  pose proof (store_blind_keeps _ (mkWorld (store w) (sent w) t)
                (blind_dispatchText env
                   (formatMessagesForProvider (Some (systemPrompt s))
                      (messages s) (j_prompt body))
                   (Yandex.mkOptions (j_modelName body) (j_modelUri body))))
    as Hkeep.
  destruct (dispatchText _ _ _ _) as [[[r0|generated0]|e] w2] eqn:Hd;
    simpl in Hkeep.
  - apply dispatchText_return in Hd as [[key ->] _]. done.
  - destruct (persistTurns_run env (j_sessionId body) s (j_prompt body)
                generated0 w2 Hid) as (s' & t1 & t2 & Hp & Hs' & _).
    rewrite Hp in Hrun. injection Hrun as <- ? ? ? <- <-.
    exists s', t1, t2. simpl. rewrite Hset, lookup_insert_eq.
    rewrite <-Hmsgs. split; [done|]. split; [|split; [|done]].
    + rewrite Hs'. by apply trimSessionHistory_positive.
    + rewrite Hs', trimSessionHistory_length by done.
      rewrite length_app. done.
  - done.
Qed.

(** ** Fallback to the secondary model *)

Lemma includes_elem_of (codes : list Z) (code : Z) :
  includes codes code = true <-> code ∈ codes.
Proof.
  unfold includes. rewrite existsb_exists. split.
  - intros (x & Hin & Heq). apply Z.eqb_eq in Heq as ->.
    by apply list_elem_of_In.
  - intros Hin. exists code. split; [by apply list_elem_of_In | apply Z.eqb_refl].
Qed.

Lemma retry_code_not_ok (code : Z) :
  code ∈ [400; 404; 422; 429] -> status_ok code = false.
Proof.
  rewrite !elem_of_cons, elem_of_nil.
  intros [->|[->|[->|[->|[]]]]]; done.
Qed.

Lemma openai_retry_code (code : Z) :
  code ∈ OpenAI.retry_codes -> code ∈ [400; 404; 422; 429].
Proof.
  unfold OpenAI.retry_codes. rewrite !elem_of_cons, !elem_of_nil. tauto.
Qed.

Lemma fetch_run env req w :
  fetch env req w
  = (match net env (length (sent w)) with
     | NetResponse r => Ok r
     | NetReject => Throw ErrNetwork
     end, mkWorld (store w) (sent w ++ [req]) (ticks w)).
Proof. unfold fetch. by destruct (net env _). Qed.

Lemma length_snoc {A} (l : list A) (x : A) : length (l ++ [x]) = S (length l).
Proof. rewrite length_app. simpl. lia. Qed.

(** One adapter run under a retried first answer: both fetches, then the
    cases of the second answer. *)
Ltac fallback_case Hfirst Hretry :=
  unfold bind; rewrite fetch_run, Hfirst; cbv beta iota; rewrite Hretry;
  rewrite fetch_run; simpl sent; rewrite length_snoc;
  let r2 := fresh "r2" in
  destruct (net _ (S _)) as [|r2]; cbv beta iota;
  [ split; [simpl; by rewrite <-app_assoc | done]
  | split;
    [ unfold json, ret, throw; destruct (ok r2), (payload r2); simpl;
      by rewrite <-app_assoc
    | let Hr2 := fresh "Hr2" in
      intros ? [= <-] Hr2; rewrite Hr2; done ] ].

(** C6. When the primary model answers 400, 404 or 422 (or 429 for
    Mistral), the OpenAI and Mistral chat adapters (Mistral having at least
    one message to send) and the OpenAI transcription step send exactly one
    more request, the same one with the secondary model; and when that second
    answer is a failure too, the adapter throws the provider's error with the
    second status. The chat step of the OpenAI audio adapter does the same. *)
Theorem fallback_retries_once (env : Env) (w : World) (r1 : HttpResponse)
    (Hfirst : net env (length (sent w)) = NetResponse r1) :
  (status r1 ∈ [400; 404; 422] ->
   forall apiKey input, exists msgs,
     sent (snd (OpenAI.generateTextWithOpenAI env apiKey input w))
     = sent w ++ [OpenAIChatCompletions OpenAI.primaryModel msgs;
                  OpenAIChatCompletions OpenAI.fallbackModel msgs]
     /\ forall r2, net env (S (length (sent w))) = NetResponse r2 ->
                   ok r2 = false ->
                   fst (OpenAI.generateTextWithOpenAI env apiKey input w)
                   = Throw (ErrOpenAIChat (status r2) (safeReadText r2)))
  /\ (status r1 ∈ [400; 404; 422; 429] ->
      forall apiKey input, snd (Mistral.prepare input) <> [] ->
      exists msgs system_prompt,
        sent (snd (Mistral.generateTextWithMistral env apiKey input w))
        = sent w ++ [MistralChatCompletions Mistral.primaryModel msgs system_prompt;
                     MistralChatCompletions Mistral.fallbackModel msgs system_prompt]
        /\ forall r2, net env (S (length (sent w))) = NetResponse r2 ->
                      ok r2 = false ->
                      fst (Mistral.generateTextWithMistral env apiKey input w)
                      = Throw (ErrMistralChat (status r2) (safeReadText r2)))
  /\ (status r1 ∈ [400; 404; 422] ->
      forall apiKey audio,
        sent (snd (OpenAI.transcribe env apiKey audio w))
        = sent w ++ [OpenAIAudioTranscriptions OpenAI.primaryTranscribe audio;
                     OpenAIAudioTranscriptions OpenAI.fallbackTranscribe audio]
        /\ forall r2, net env (S (length (sent w))) = NetResponse r2 ->
                      ok r2 = false ->
                      fst (OpenAI.transcribe env apiKey audio w)
                      = Throw (ErrOpenAITranscription (status r2) (safeReadText r2)))
  /\ (status r1 ∈ [400; 404; 422] ->
      forall apiKey msgs,
        sent (snd (OpenAI.chat env apiKey msgs w))
        = sent w ++ [OpenAIChatCompletions OpenAI.primaryModel msgs;
                     OpenAIChatCompletions OpenAI.fallbackModel msgs]
        /\ forall r2, net env (S (length (sent w))) = NetResponse r2 ->
                      ok r2 = false ->
                      fst (OpenAI.chat env apiKey msgs w)
                      = Throw (ErrOpenAIChat (status r2) (safeReadText r2))).
Proof.
  assert (Hopenai : status r1 ∈ [400; 404; 422] ->
                    negb (ok r1) && includes OpenAI.retry_codes (status r1) = true).
  { intros H. unfold ok. rewrite (retry_code_not_ok _ (openai_retry_code _ H)).
    by apply includes_elem_of. }
  assert (Hmistral : status r1 ∈ [400; 404; 422; 429] ->
                     negb (ok r1) && includes Mistral.retry_codes (status r1) = true).
  { intros H. unfold ok. rewrite (retry_code_not_ok _ H).
    by apply includes_elem_of. }
  split; [|split; [|split]].
  - intros Hcode apiKey input. eexists.
    unfold OpenAI.generateTextWithOpenAI.
    fallback_case Hfirst (Hopenai Hcode).
  - intros Hcode apiKey input Hmsgs. eexists _, _.
    unfold Mistral.generateTextWithMistral.
    rewrite (bool_decide_eq_false_2 _ Hmsgs).
    fallback_case Hfirst (Hmistral Hcode).
  - intros Hcode apiKey audio.
    unfold OpenAI.transcribe.
    fallback_case Hfirst (Hopenai Hcode).
  - intros Hcode apiKey msgs.
    unfold OpenAI.chat.
    fallback_case Hfirst (Hopenai Hcode).
Qed.

(** ** The transcript in the chat step *)

Lemma append_to_last_user_snoc suffix (msgs : list ChatMessage) c :
  OpenAI.append_to_last_user suffix (msgs ++ [mkChat User c])
  = msgs ++ [mkChat User (Some (to_string c ++ suffix))].
Proof.
  unfold OpenAI.append_to_last_user. rewrite last_snoc. simpl.
  rewrite length_snoc. simpl.
  rewrite insert_app_r_alt by lia. by rewrite Nat.sub_diag.
Qed.

Lemma append_to_last_user_other suffix (msgs : list ChatMessage) m :
  chat_role m <> User ->
  OpenAI.append_to_last_user suffix (msgs ++ [m]) = msgs ++ [m].
Proof.
  intros Hrole. unfold OpenAI.append_to_last_user. rewrite last_snoc.
  by destruct (decide (chat_role m = User)).
Qed.

Lemma with_transcript_snoc transcript (turns : list Turn) c ts :
  Yandex.with_transcript transcript (turns ++ [mkTurn User c ts])
  = turns ++ [mkTurn User (Some (to_string c ++ transcript_suffix transcript)) ts].
Proof.
  unfold Yandex.with_transcript. rewrite last_snoc. simpl.
  rewrite length_snoc. simpl.
  rewrite insert_app_r_alt by lia. by rewrite Nat.sub_diag.
Qed.

(** The label is the UTF-16 form of the Cyrillic text of the source. *)
Example transcript_label_utf8 :
  utf8_2 transcript_label = js "Транскрипция аудио:".
Proof. reflexivity. Qed.

(** C1, as stated, fails: the text appended is not [Transcript:] but the
    Russian label, and a list without a trailing user turn is sent to the
    chat step as it is, without any turn for the transcript. *)
Lemma transcript_suffix_not_as_stated :
  let env := env_of (js "openai")
               [NetResponse (ok_response (js "T"));
                NetResponse (ok_response (js "reply"))] in
  let run turns :=
    OpenAI.generateTextWithOpenAIAndAudio env (js "o-key") (InputTurns turns) []
      initial_world in
  let stated :=
    [mkChat User
       (Some (js "Hi" ++ newline ++ newline ++ js "Transcript:" ++ newline
              ++ js "T"))] in
  (exists res, fst (run [mkTurn User (Some (js "Hi")) None]) = Ok res
               /\ OpenAI.transcript res = js "T")
  /\ (OpenAIChatCompletions OpenAI.primaryModel stated
      ∉ sent (snd (run [mkTurn User (Some (js "Hi")) None])))
  /\ sent (snd (run []))
     = [OpenAIAudioTranscriptions OpenAI.primaryTranscribe [];
        OpenAIChatCompletions OpenAI.primaryModel []].
Proof.
  split; [eexists; split; vm_compute; reflexivity|].
  split; [|vm_compute; reflexivity].
  apply (bool_decide_eq_false_1 _). vm_compute. reflexivity.
Qed.

(** C1, amended. When the list ends with a user turn, both audio adapters
    run the chat step on the list with the two line feeds, the label
    [Транскрипция аудио:], a line feed and the transcript appended to the
    text of that last turn, every other turn as it was; and the result
    carries the transcript of the speech-to-text step. *)
Theorem transcript_appended_to_last_user_turn (env : Env)
    (turns : list Turn) (lastText : option jsstring) (ts : option Z)
    (audio : list N) (w w1 : World) (tr : jsstring) :
  let input := InputTurns (turns ++ [mkTurn User lastText ts]) in
  let merged :=
    to_string lastText ++ newline ++ newline ++ transcript_label ++ newline ++ tr in
  (forall apiKey model,
     OpenAI.transcribe env apiKey audio w = (Ok (tr, model), w1) ->
     let msgs := OpenAI.to_chat turns ++ [mkChat User (Some merged)] in
     OpenAI.generateTextWithOpenAIAndAudio env apiKey input audio w
     = match OpenAI.chat env apiKey msgs w1 with
       | (Ok reply, w2) =>
           (Ok (OpenAI.mkAudioResult (fst reply) tr model (snd reply)), w2)
       | (Throw e, w2) => (Throw e, w2)
       end
     /\ exists rest,
          sent (snd (OpenAI.chat env apiKey msgs w1))
          = sent w1 ++ OpenAIChatCompletions OpenAI.primaryModel msgs :: rest)
  /\ (forall apiKey folderId sttOpts,
        Yandex.transcribeWithYandexSTT env apiKey folderId audio sttOpts w
        = (Ok tr, w1) ->
        let msgs := Yandex.to_yandex turns ++ [mkYandex User (Some merged)] in
        let request :=
          YandexCompletion (Yandex.resolveYandexOptions folderId None) msgs in
        Yandex.generateTextWithYandexAndAudio env apiKey folderId input audio
          sttOpts w
        = match Yandex.generateTextWithYandex env apiKey folderId
                  (InputTurns (turns ++ [mkTurn User (Some merged) ts])) None w1 with
          | (Ok reply, w2) => (Ok (reply, tr), w2)
          | (Throw e, w2) => (Throw e, w2)
          end
        /\ sent (snd (Yandex.generateTextWithYandex env apiKey folderId
                        (InputTurns (turns ++ [mkTurn User (Some merged) ts]))
                        None w1))
           = sent w1 ++ [request]).
Proof.
  intros input merged. split.
  - intros apiKey model Htr msgs. split.
    + unfold OpenAI.generateTextWithOpenAIAndAudio.
      rewrite (bind_run _ _ _ _ _ Htr). simpl fst. simpl snd.
      unfold input, OpenAI.audio_messages, OpenAI.to_chat.
      rewrite fmap_app. simpl. rewrite append_to_last_user_snoc.
      unfold bind at 1. fold (OpenAI.to_chat turns).
      unfold transcript_suffix. fold merged. fold msgs.
      by destruct (OpenAI.chat env apiKey msgs w1) as [[reply|e] w2].
    + unfold OpenAI.chat, bind. rewrite fetch_run.
      destruct (net env (length (sent w1))) as [|r1]; cbv beta iota.
      { by exists []. }
      destruct (negb (ok r1) && includes OpenAI.retry_codes (status r1)).
      * rewrite fetch_run.
        destruct (net env _) as [|r2]; cbv beta iota.
        { eexists. simpl. by rewrite <-app_assoc. }
        unfold json, ret, throw.
        destruct (ok r2), (payload r2); eexists; simpl; by rewrite <-app_assoc.
      * unfold json, ret, throw.
        destruct (ok r1), (payload r1); by exists [].
  - intros apiKey folderId sttOpts Htr msgs request. split.
    + unfold Yandex.generateTextWithYandexAndAudio.
      rewrite (bind_run _ _ _ _ _ Htr).
      unfold input, Yandex.audio_input. rewrite with_transcript_snoc.
      unfold bind at 1. unfold transcript_suffix. fold merged.
      by destruct (Yandex.generateTextWithYandex _ _ _ _ _ _) as [[reply|e] w2].
    + unfold Yandex.generateTextWithYandex, bind. rewrite fetch_run.
      unfold request, msgs, Yandex.to_yandex. rewrite fmap_app. simpl.
      destruct (net env (length (sent w1))) as [|r1]; cbv beta iota; [done|].
      unfold json, ret, throw. by destruct (ok r1), (payload r1).
Qed.

(** ** The provider switch *)

(** With the credentials of the selected provider missing, the switch
    returns the configuration error at once, in the world it was given. *)
Lemma dispatchText_missing_credentials env msgs options w :
  (provider env = js "openai" /\ truthy (openaiApiKey env) = false)
  \/ (provider env = js "gemini" /\ truthy (geminiApiKey env) = false)
  \/ (provider env = js "yandex"
      /\ (truthy (yandexApiKey env) = false
          \/ truthy (yandexFolderId env) = false)) ->
  exists key, dispatchText env msgs options w = (Ok (Return (RespConfigError key)), w).
Proof.
  unfold dispatchText.
  intros [[-> Hk]|[[-> Hk]|[-> Hk]]]; simpl.
  - rewrite Hk. by eexists.
  - rewrite Hk. by eexists.
  - destruct Hk as [-> | ->]; simpl; rewrite ?orb_true_r; by eexists.
Qed.

(** The three selectors the switch knows, with their credentials, reach
    their adapters. *)
Lemma dispatchText_routes env msgs options :
  (provider env = js "openai" -> truthy (openaiApiKey env) = true ->
   dispatchText env msgs options
   = (let* t := OpenAI.generateTextWithOpenAI env (default [] (openaiApiKey env))
                  (InputTurns msgs) in ret (Continue (Some t))))
  /\ (provider env = js "gemini" -> truthy (geminiApiKey env) = true ->
      dispatchText env msgs options
      = (let* t := Gemini.generateTextWithGemini env (default [] (geminiApiKey env))
                     (InputTurns msgs) in ret (Continue (Some t))))
  /\ (provider env = js "yandex" -> truthy (yandexApiKey env) = true ->
      truthy (yandexFolderId env) = true ->
      dispatchText env msgs options
      = (let* t := Yandex.generateTextWithYandex env
                     (default [] (yandexApiKey env))
                     (default [] (yandexFolderId env))
                     (InputTurns msgs) (Some options) in ret (Continue (Some t)))).
Proof.
  unfold dispatchText. repeat split.
  - intros -> ->. done.
  - intros -> ->. done.
  - intros -> -> ->. done.
Qed.

(** Any other selector reaches no adapter: the switch falls through with no
    text, and nothing is sent. *)
Lemma dispatchText_unknown env msgs options w :
  provider env <> js "openai" -> provider env <> js "gemini" ->
  provider env <> js "yandex" ->
  dispatchText env msgs options w = (Ok (Continue None), w).
Proof.
  intros H1 H2 H3. unfold dispatchText.
  by rewrite !bool_decide_eq_false_2.
Qed.

(** C2, at the selector [mistral]: no adapter is called and no configuration
    error is raised, whatever the credentials; every valid JSON request that
    does not end a session is answered 200 with no generated text, nothing
    having been sent. So it is for the request [{ prompt: "Hello" }] in a
    deployment without any credential. *)
Theorem mistral_selector_not_dispatched :
  (forall env body w,
     provider env = js "mistral" ->
     truthy (j_prompt body) = true ->
     j_endSession body && truthy (j_sessionId body) = false ->
     exists turns w',
       handler env (ReqJson body) w
       = (RespSuccess None (js "mistral") None (j_sessionId body) turns, w')
       /\ sent w' = sent w)
  /\ handler env_mistral (ReqJson (hello_request None)) initial_world
     = (RespSuccess None (js "mistral") None None 0, mkWorld ∅ [] 2)
  /\ statusCode (fst (handler env_mistral (ReqJson (hello_request None))
                        initial_world)) = 200.
Proof.
  split; [|split; vm_compute; reflexivity].
  intros env body w Hsel Hprompt Hend. rewrite handler_json.
  destruct (handleJson_exchange env body w Hprompt Hend)
    as (s & t & _ & _ & ->). simpl.
  rewrite dispatchText_unknown by (rewrite Hsel; discriminate).
  destruct (truthy (j_sessionId body)) eqn:Hid.
  - destruct (persistTurns_run env (j_sessionId body) s (j_prompt body) None
                (mkWorld (store w) (sent w) t) Hid)
      as (s' & t1 & t2 & -> & _). rewrite Hsel. eauto.
  - rewrite persistTurns_skip by done. rewrite Hsel. eauto.
Qed.

(** C5, at the selector [mistral]: the provider switch falls through
    without calling any adapter, and the handler goes on to save the
    exchange. Every valid JSON request that carries a session identifier and
    does not end the session is answered 200 with no generated text, nothing
    having been sent, and the store (when it takes the write) now holds under
    that identifier the history with the prompt as a user turn and an
    assistant turn without text. So it is for the request
    [{ prompt: "Hello", sessionId: "s1" }] on the empty store. *)
Theorem session_saved_without_provider_call :
  (forall env body w,
     provider env = js "mistral" ->
     truthy (j_prompt body) = true ->
     truthy (j_sessionId body) = true ->
     j_endSession body = false ->
     blobs_set_ok env (default [] (j_sessionId body)) = true ->
     exists s' t1 t2 w',
       handler env (ReqJson body) w
       = (RespSuccess None (js "mistral") None (j_sessionId body)
            (length (messages s') / 2)%nat, w')
       /\ sent w' = sent w
       /\ store w' = <[default [] (j_sessionId body) := s']> (store w)
       /\ messages s'
          = trimSessionHistory
              (working_messages env (j_sessionId body) (j_resetContext body) w
               ++ [mkTurn User (j_prompt body) (Some t1);
                   mkTurn Assistant None (Some t2)])
              MAX_MESSAGES_IN_SESSION)
  /\ (let out := handler env_mistral (ReqJson (hello_request (Some (js "s1"))))
                   initial_world in
      fst out = RespSuccess None (js "mistral") None (Some (js "s1")) 1
      /\ statusCode (fst out) = 200
      /\ sent (snd out) = []
      /\ store initial_world !! js "s1" = None
      /\ store (snd out) !! js "s1"
         = Some (mkSession []
                   [mkTurn User (Some (js "Hello")) (Some 2);
                    mkTurn Assistant None (Some 3)] 0 4)).
Proof.
  split.
  - intros env body w Hsel Hprompt Hid Hend Hset. rewrite handler_json.
    assert (j_endSession body && truthy (j_sessionId body) = false) as Hend'
      by (by rewrite Hend).
    destruct (handleJson_exchange env body w Hprompt Hend')
      as (s & t & _ & Hmsgs & ->). simpl.
    rewrite dispatchText_unknown by (rewrite Hsel; discriminate).
    destruct (persistTurns_run env (j_sessionId body) s (j_prompt body) None
                (mkWorld (store w) (sent w) t) Hid)
      as (s' & t1 & t2 & -> & Hs' & _).
    exists s', t1, t2. eexists. rewrite Hsel, Hset, <-Hmsgs. simpl.
    split; [reflexivity|]. done.
  - cbv zeta. repeat split; vm_compute; reflexivity.
Qed.

(** ** The theorems at concrete inputs *)

(** After one exchange from the empty store, the world is reachable and its
    session meets the invariant. *)
Lemma session_invariant_witness :
  let env := env_of (js "openai") [NetResponse (ok_response (js "Hi!"))] in
  let w := snd (handler env (ReqJson (hello_request (Some (js "s1"))))
                  (fresh initial_world)) in
  reachable w
  /\ (exists s, store w !! js "s1" = Some s /\ length (messages s) = 2%nat)
  /\ forall key s, store w !! key = Some s ->
       Nat.Even (length (messages s)) /\ (length (messages s) <= 20)%nat.
Proof.
  intros env w.
  assert (reachable w) as Hreach by (apply reach_invoke, reach_initial).
  split; [exact Hreach|].
  split; [eexists; split; vm_compute; reflexivity|].
  apply (session_invariant w Hreach).
Defined.

(** A 422 then a 500 from OpenAI: two requests, and the error carries 500. *)
Lemma fallback_retries_once_witness :
  let env := env_of (js "openai")
               [NetResponse (error_response 422);
                NetResponse (error_response 500)] in
  let input := InputTurns [mkTurn User (Some (js "Hello")) None] in
  net env (length (sent initial_world)) = NetResponse (error_response 422)
  /\ fst (OpenAI.generateTextWithOpenAI env (js "o-key") input initial_world)
     = Throw (ErrOpenAIChat 500 (js "error"))
  /\ length (sent (snd (OpenAI.generateTextWithOpenAI env (js "o-key") input
                          initial_world))) = 2%nat.
Proof.
  intros env input.
  assert (net env (length (sent initial_world))
          = NetResponse (error_response 422)) as Hfirst by reflexivity.
  split; [exact Hfirst|].
  destruct (fallback_retries_once env initial_world (error_response 422) Hfirst)
    as (Hopenai & _).
  assert (status (error_response 422) ∈ [400; 404; 422]) as Hcode.
  { simpl. rewrite !elem_of_cons. tauto. }
  destruct (Hopenai Hcode (js "o-key") input) as (msgs & Hsent & Hthrow).
  split.
  - apply (Hthrow (error_response 500)); reflexivity.
  - rewrite Hsent. reflexivity.
Defined.

(** An exchange on the full session: still 20 messages, 10 turns. *)
Lemma text_exchange_length_witness :
  let env := env_of (js "openai") [NetResponse (ok_response (js "Hi!"))] in
  let body := hello_request (Some (js "s1")) in
  let w' := snd (handler env (ReqJson body) full_world) in
  handler env (ReqJson body) full_world
  = (RespSuccess (Some (js "Hi!")) (js "openai") None (Some (js "s1")) 10, w')
  /\ exists s', store w' !! js "s1" = Some s'
                /\ length (messages s') = 20%nat.
Proof.
  intros env body w'.
  assert (handler env (ReqJson body) full_world
          = (RespSuccess (Some (js "Hi!")) (js "openai") None (Some (js "s1")) 10,
             w')) as Hrun by (vm_compute; reflexivity).
  split; [exact Hrun|].
  destruct (text_exchange_length env body full_world w' _ _ _ _ _ Hrun
              eq_refl eq_refl) as (s' & t1 & t2 & Hs' & _ & Hlen & _).
  exists s'. split; [exact Hs'|]. rewrite Hlen. reflexivity.
Defined.

(** The transcript [T] joins the prompt [Hi] in the chat request. *)
Lemma transcript_appended_witness :
  let env := env_of (js "openai")
               [NetResponse (ok_response (js "T"));
                NetResponse (ok_response (js "reply"))] in
  let w1 := mkWorld ∅ [OpenAIAudioTranscriptions OpenAI.primaryTranscribe []] 0 in
  let msgs :=
    [mkChat User
       (Some (js "Hi" ++ newline ++ newline ++ transcript_label ++ newline
              ++ js "T"))] in
  OpenAI.transcribe env (js "o-key") [] initial_world
  = (Ok (js "T", OpenAI.primaryTranscribe), w1)
  /\ OpenAI.generateTextWithOpenAIAndAudio env (js "o-key")
       (InputTurns [mkTurn User (Some (js "Hi")) None]) [] initial_world
     = match OpenAI.chat env (js "o-key") msgs w1 with
       | (Ok reply, w2) =>
           (Ok (OpenAI.mkAudioResult (fst reply) (js "T")
                  OpenAI.primaryTranscribe (snd reply)), w2)
       | (Throw e, w2) => (Throw e, w2)
       end.
Proof.
  intros env w1 msgs.
  assert (OpenAI.transcribe env (js "o-key") [] initial_world
          = (Ok (js "T", OpenAI.primaryTranscribe), w1)) as Htr
    by (vm_compute; reflexivity).
  split; [exact Htr|].
  destruct (transcript_appended_to_last_user_turn env [] (Some (js "Hi")) None
              [] initial_world w1 (js "T")) as (Hopenai & _).
  apply (Hopenai (js "o-key") OpenAI.primaryTranscribe Htr).
Defined.

(** The two invalid end-session requests on a world that has the session. *)
Lemma end_session_needs_valid_body_witness :
  let env := env_of (js "openai") [] in
  handler env (ReqMultipart end_session_form) full_world
  = (RespError ErrNoAudio, full_world)
  /\ handler env (ReqJson end_session_body) full_world
     = (RespError ErrNoPrompt, full_world)
  /\ store full_world !! js "s1" = Some full_session.
Proof.
  intros env.
  destruct end_session_needs_valid_body as (Hmultipart & Hjson).
  split; [|split].
  - apply (Hmultipart env end_session_form full_world); reflexivity.
  - apply (Hjson env end_session_body full_world); reflexivity.
  - vm_compute. reflexivity.
Defined.

(** * Further properties of the code *)

(** ** The gateway: what is saved is what is loaded *)

(** X1. What the gateway gives back, for a session identifier whose read
    the store carries out. [saveSession] always completes; the next
    [getSession] returns the saved session when the store took the write,
    and when it did not (the backend failed, or the client refused the key)
    the save is lost without a sign and the load returns what was stored
    before. The load of any other key is what it was, and after a
    [deleteSession] that the store carried out the load finds nothing. *)
Theorem save_then_load (env : Env) (sessionId : option jsstring)
    (session : Session) (w : World)
    (Hid : truthy sessionId = true)
    (Hget : blobs_get_ok env (default [] sessionId) = true) :
  let key := default [] sessionId in
  let saved := snd (saveSession env sessionId session w) in
  fst (saveSession env sessionId session w) = Ok tt
  /\ fst (getSession env sessionId saved)
     = Ok (if blobs_set_ok env key then Some session else store w !! key)
  /\ (forall other, default [] other <> key ->
        fst (getSession env other saved) = fst (getSession env other w))
  /\ (blobs_delete_ok env key = true ->
      fst (getSession env sessionId (snd (deleteSession env sessionId saved)))
      = Ok None).
Proof.
  cbv zeta. rewrite saveSession_run, Hid. cbn [fst snd andb].
  split; [done|]. split; [|split].
  - rewrite getSession_run. unfold loaded. rewrite Hid, Hget.
    destruct (blobs_set_ok env _); simpl; [|done].
    by rewrite lookup_insert_eq.
  - intros other Hother. rewrite !getSession_run. unfold loaded.
    destruct (truthy other && blobs_get_ok env _); [|done].
    destruct (blobs_set_ok env _); simpl; [|done].
    by rewrite lookup_insert_ne.
  - intros Hdelete. rewrite deleteSession_run, Hid, Hdelete. cbn [snd andb].
    rewrite getSession_run. unfold loaded. rewrite Hid, Hget. simpl.
    by rewrite lookup_delete_eq.
Qed.

(** With a client that refuses the key [/s1], the save of a session under it
    is lost; under [s1] it is kept. *)
Lemma save_then_load_witness :
  fst (getSession env_strict_keys (Some (js "/s1"))
         (snd (saveSession env_strict_keys (Some (js "/s1")) full_session
                 initial_world)))
  = Ok None
  /\ fst (getSession env_strict_keys (Some (js "s1"))
            (snd (saveSession env_strict_keys (Some (js "s1")) full_session
                    initial_world)))
     = Ok (Some full_session).
Proof.
  split.
  - destruct (save_then_load env_strict_keys (Some (js "/s1")) full_session
                initial_world eq_refl eq_refl) as (_ & Hload & _).
    exact Hload.
  - destruct (save_then_load env_strict_keys (Some (js "s1")) full_session
                initial_world eq_refl eq_refl) as (_ & Hload & _).
    exact Hload.
Defined.

(** ** Ending a session *)

(** X2. A valid end-session request (JSON with a prompt, multipart with an
    audio part) on a working store removes that session and no other, is
    answered with the end-session response, and sends nothing: neither the
    selected provider nor its credentials matter. *)
Theorem end_session_deletes :
  (forall env body w,
     truthy (j_prompt body) = true ->
     j_endSession body = true ->
     truthy (j_sessionId body) = true ->
     blobs_delete_ok env (default [] (j_sessionId body)) = true ->
     exists w',
       handler env (ReqJson body) w
       = (RespEndSession (j_sessionId body) (provider env), w')
       /\ store w' = delete (default [] (j_sessionId body)) (store w)
       /\ sent w' = sent w
       /\ fst (getSession env (j_sessionId body) w') = Ok None)
  /\ (forall env form audioFile w,
        head (filter (fun f => fst f = js "audio") (f_files form)) = Some audioFile ->
        f_endSession form = Some (js "true") ->
        truthy (f_sessionId form) = true ->
        blobs_delete_ok env (default [] (f_sessionId form)) = true ->
        exists w',
          handler env (ReqMultipart form) w
          = (RespEndSession (f_sessionId form) (provider env), w')
          /\ store w' = delete (default [] (f_sessionId form)) (store w)
          /\ sent w' = sent w
          /\ fst (getSession env (f_sessionId form) w') = Ok None).
Proof.
  split.
  - intros env body w Hprompt Hend Hid Hdel. rewrite handler_json.
    rewrite (handleJson_end_session env body w Hprompt)
      by (by rewrite Hend, Hid).
    rewrite Hdel. eexists. split; [reflexivity|]. simpl.
    split; [done|]. split; [done|].
    rewrite getSession_run. unfold loaded. simpl.
    rewrite lookup_delete_eq. by destruct (_ && _).
  - intros env form audioFile w Haudio Hend Hid Hdel. rewrite handler_multipart.
    rewrite (handleMultipart_end_session env form audioFile w Haudio)
      by (by rewrite Hend, Hid).
    rewrite Hdel. eexists. split; [reflexivity|]. simpl.
    split; [done|]. split; [done|].
    rewrite getSession_run. unfold loaded. simpl.
    rewrite lookup_delete_eq. by destruct (_ && _).
Qed.

Lemma end_session_deletes_witness :
  let body := mkBody (Some (js "bye")) None (Some (js "s1")) true false None None in
  exists w',
    handler env_mistral (ReqJson body) full_world
    = (RespEndSession (Some (js "s1")) (js "mistral"), w')
    /\ store w' !! js "s1" = None.
Proof.
  intros body.
  destruct end_session_deletes as (Hjson & _).
  destruct (Hjson env_mistral body full_world eq_refl eq_refl eq_refl eq_refl)
    as (w' & Hrun & Hstore & _).
  exists w'. split; [exact Hrun|]. rewrite Hstore. apply lookup_delete_eq.
Defined.

(** ** Requests without a session identifier *)

Lemma loaded_without_id env sessionId w :
  truthy sessionId = false -> loaded env sessionId w = None.
Proof. intros H. unfold loaded. by rewrite H. Qed.

Lemma working_messages_without_id env sessionId resetContext w :
  truthy sessionId = false ->
  working_messages env sessionId resetContext w = [].
Proof.
  intros H. unfold working_messages. by rewrite loaded_without_id.
Qed.

(** X3. A request without a session identifier, whatever its flags and
    whatever the outcome, leaves the store as it is; when it succeeds the
    response counts 0 turns. *)
Theorem no_session_id_is_stateless :
  (forall env body w,
     truthy (j_sessionId body) = false ->
     store (snd (handler env (ReqJson body) w)) = store w
     /\ forall generated selector transcript sessionId turns,
          fst (handler env (ReqJson body) w)
          = RespSuccess generated selector transcript sessionId turns ->
          turns = 0%nat)
  /\ (forall env form w,
        truthy (f_sessionId form) = false ->
        store (snd (handler env (ReqMultipart form) w)) = store w
        /\ forall generated selector transcript sessionId turns,
             fst (handler env (ReqMultipart form) w)
             = RespSuccess generated selector transcript sessionId turns ->
             turns = 0%nat).
Proof.
  split.
  - intros env body w Hid. rewrite handler_json.
    destruct (truthy (j_prompt body)) eqn:Hprompt.
    2:{ unfold handleJson. rewrite Hprompt. done. }
    assert (j_endSession body && truthy (j_sessionId body) = false) as Hend
      by (by rewrite Hid, andb_false_r).
    destruct (handleJson_exchange env body w Hprompt Hend)
      as (s & t & _ & Hmsgs & ->). simpl.
    rewrite working_messages_without_id in Hmsgs by done.
    pose proof (store_blind_keeps _ (mkWorld (store w) (sent w) t)
                  (blind_dispatchText env
                     (formatMessagesForProvider (Some (systemPrompt s))
                        (messages s) (j_prompt body))
                     (Yandex.mkOptions (j_modelName body) (j_modelUri body))))
      as Hkeep.
    destruct (dispatchText _ _ _ _) as [[[r0|generated]|e] w2] eqn:Hd;
      simpl in Hkeep.
    + apply dispatchText_return in Hd as [[key ->] _]. done.
    + rewrite persistTurns_skip by done. simpl. split; [done|].
      intros ? ? ? ? ? [= _ _ _ _ <-]. by rewrite Hmsgs.
    + done.
  - intros env form w Hid. rewrite handler_multipart.
    destruct (head (filter (fun f => fst f = js "audio") (f_files form)))
      as [audioFile|] eqn:Haudio.
    2:{ unfold handleMultipart. rewrite Haudio. done. }
    assert (bool_decide (f_endSession form = Some (js "true"))
            && truthy (f_sessionId form) = false) as Hend
      by (by rewrite Hid, andb_false_r).
    destruct (handleMultipart_exchange env form audioFile w Haudio Hend)
      as (s & t & _ & Hmsgs & ->). simpl.
    rewrite working_messages_without_id in Hmsgs by done.
    pose proof (store_blind_keeps _ (mkWorld (store w) (sent w) t)
                  (blind_dispatchAudio env
                     (formatMessagesForProvider (Some (systemPrompt s))
                        (messages s) (f_prompt form))
                     (snd audioFile) (f_audioFormat form))) as Hkeep.
    destruct (dispatchAudio _ _ _ _ _) as [[[r0|[generated transcript]]|e] w2]
      eqn:Hd; simpl in Hkeep.
    + apply dispatchAudio_return in Hd as [[key ->] _]. done.
    + rewrite persistTurns_skip by done. simpl. split; [done|].
      intros ? ? ? ? ? [= _ _ _ _ <-]. by rewrite Hmsgs.
    + done.
Qed.

Lemma no_session_id_is_stateless_witness :
  let env := env_of (js "openai") [NetResponse (ok_response (js "Hi!"))] in
  handler env (ReqJson (hello_request None)) full_world
  = (RespSuccess (Some (js "Hi!")) (js "openai") None None 0,
     snd (handler env (ReqJson (hello_request None)) full_world))
  /\ store (snd (handler env (ReqJson (hello_request None)) full_world))
     = store full_world.
Proof.
  intros env. split; [vm_compute; reflexivity|].
  destruct no_session_id_is_stateless as (Hjson & _).
  apply (Hjson env (hello_request None) full_world eq_refl).
Defined.

(** ** What a stored session keeps *)

Lemma resolveSession_loaded env sessionId resetContext system w s0 :
  loaded env sessionId w = Some s0 ->
  exists active t,
    resolveSession env sessionId resetContext system w
    = (Ok (mkSession (systemPrompt s0)
             (if resetContext then [] else messages s0) (createdAt s0) active),
       mkWorld (store w) (sent w) t).
Proof.
  intros Hload. unfold resolveSession. unfold bind at 1.
  assert (truthy sessionId = true) as Hid.
  { unfold loaded in Hload. by destruct (truthy sessionId). }
  rewrite Hid. unfold bind at 1. rewrite getSession_run, Hload.
  destruct resetContext.
  - by eexists _, _.
  - destruct w, s0. by eexists _, _.
Qed.

Lemma persistTurns_shape env sessionId session userText generated w :
  truthy sessionId = true ->
  exists t1 t2 active,
    let s' :=
      mkSession (systemPrompt session)
        (trimSessionHistory
           (messages session
            ++ [mkTurn User userText (Some t1); mkTurn Assistant generated (Some t2)])
           MAX_MESSAGES_IN_SESSION)
        (createdAt session) active in
    persistTurns env sessionId session userText generated w
    = (Ok s',
       mkWorld (if blobs_set_ok env (default [] sessionId)
                then <[default [] sessionId := s']> (store w) else store w)
         (sent w) (S (S (S (ticks w))))).
Proof.
  intros Hid. unfold persistTurns. rewrite Hid.
  unfold bind, Date_now. simpl. rewrite saveSession_run. rewrite Hid. simpl.
  eexists _, _, _. rewrite <-app_assoc. simpl.
  destruct (blobs_set_ok env _); reflexivity.
Qed.

(** X4. A stored session keeps the system prompt and the creation time it
    was created with: after a successful text exchange on it the saved
    session has both unchanged, whatever [system] the request carries and
    even with [resetContext]; only when nothing was loaded does the saved
    session take the request's [system] (or the empty string). *)
Theorem session_identity_kept (env : Env) (body : JsonBody) (w w' : World)
    (generated transcript sessionId : option jsstring) (selector : jsstring)
    (turns : nat)
    (Hrun : handler env (ReqJson body) w
            = (RespSuccess generated selector transcript sessionId turns, w'))
    (Hid : truthy (j_sessionId body) = true)
    (Hset : blobs_set_ok env (default [] (j_sessionId body)) = true) :
  exists s',
    store w' !! default [] (j_sessionId body) = Some s'
    /\ match loaded env (j_sessionId body) w with
       | Some s0 =>
           systemPrompt s' = systemPrompt s0 /\ createdAt s' = createdAt s0
       | None => systemPrompt s' = or_empty (j_system body)
       end.
Proof.
  rewrite handler_json in Hrun.
  destruct (truthy (j_prompt body)) eqn:Hprompt.
  2:{ unfold handleJson in Hrun. rewrite Hprompt in Hrun. done. }
  destruct (j_endSession body && truthy (j_sessionId body)) eqn:Hend.
  { rewrite (handleJson_end_session _ _ _ Hprompt Hend) in Hrun. done. }
  destruct (handleJson_exchange env body w Hprompt Hend)
    as (s & t & Hs & _ & Heq). rewrite Heq in Hrun. clear Heq.
  simpl in Hrun, Hs.
  assert (match loaded env (j_sessionId body) w with
          | Some s0 =>
              systemPrompt s = systemPrompt s0 /\ createdAt s = createdAt s0
          | None => systemPrompt s = or_empty (j_system body)
          end) as Hkept.
  { destruct (loaded env (j_sessionId body) w) as [s0|] eqn:Hload.
    - destruct (resolveSession_loaded env (j_sessionId body)
                  (j_resetContext body) (j_system body) w s0 Hload)
        as (active & t' & Hres).
      rewrite Hres in Hs. by injection Hs as <- _.
    - rewrite resolveSession_fresh in Hs by done. by injection Hs as <- _. }
  pose proof (store_blind_keeps _ (mkWorld (store w) (sent w) t)
                (blind_dispatchText env
                   (formatMessagesForProvider (Some (systemPrompt s))
                      (messages s) (j_prompt body))
                   (Yandex.mkOptions (j_modelName body) (j_modelUri body))))
    as Hkeep.
  destruct (dispatchText _ _ _ _) as [[[r0|generated0]|e] w2] eqn:Hd;
    simpl in Hkeep.
  - apply dispatchText_return in Hd as [[key ->] _]. done.
  - destruct (persistTurns_shape env (j_sessionId body) s (j_prompt body)
                generated0 w2 Hid) as (t1 & t2 & active & Hp).
    simpl in Hp. rewrite Hp in Hrun. injection Hrun as _ _ _ _ _ <-.
    eexists. simpl. rewrite Hset, lookup_insert_eq. split; [reflexivity|].
    simpl. exact Hkept.
  - done.
Qed.

Lemma session_identity_kept_witness :
  let env := env_of (js "openai") [NetResponse (ok_response (js "Hi!"))] in
  let body :=
    mkBody (Some (js "Hello")) (Some (js "Other system")) (Some (js "s1"))
      false true None None in
  let w' := snd (handler env (ReqJson body) full_world) in
  exists s', store w' !! js "s1" = Some s'
             /\ systemPrompt s' = systemPrompt full_session
             /\ createdAt s' = createdAt full_session.
Proof.
  intros env body w'.
  assert (handler env (ReqJson body) full_world
          = (RespSuccess (Some (js "Hi!")) (js "openai") None (Some (js "s1")) 1,
             w')) as Hrun by (vm_compute; reflexivity).
  destruct (session_identity_kept env body full_world w' _ _ _ _ _ Hrun
              eq_refl eq_refl) as (s' & Hs' & Hkept).
  exists s'. split; [exact Hs'|]. exact Hkept.
Defined.

(** ** What an audio exchange stores *)

(** X5. After a successful audio exchange with a session identifier and a
    store that accepts the write, the stored user turn carries the transcript
    the response reports when there is a non-empty one, and the prompt field
    otherwise (never the text merged for the chat step); the assistant turn
    carries the generated text; the list is cut to its last 20, and [turns]
    is half its length. *)
Theorem audio_exchange_stores_transcript (env : Env) (form : MultipartForm)
    (w w' : World) (generated transcript sessionId : option jsstring)
    (selector : jsstring) (turns : nat)
    (Hrun : handler env (ReqMultipart form) w
            = (RespSuccess generated selector transcript sessionId turns, w'))
    (Hid : truthy (f_sessionId form) = true)
    (Hset : blobs_set_ok env (default [] (f_sessionId form)) = true) :
  exists s' t1 t2,
    let exchanged :=
      working_messages env (f_sessionId form)
        (bool_decide (f_resetContext form = Some (js "true"))) w
      ++ [mkTurn User (if truthy transcript then transcript else f_prompt form)
            (Some t1);
          mkTurn Assistant generated (Some t2)] in
    store w' !! default [] (f_sessionId form) = Some s'
    /\ messages s' = drop (length exchanged - 20) exchanged
    /\ turns = (length (messages s') / 2)%nat.
Proof.
  rewrite handler_multipart in Hrun.
  destruct (head (filter (fun f => fst f = js "audio") (f_files form)))
    as [audioFile|] eqn:Haudio.
  2:{ unfold handleMultipart in Hrun. rewrite Haudio in Hrun. done. }
  destruct (bool_decide (f_endSession form = Some (js "true"))
            && truthy (f_sessionId form)) eqn:Hend.
  { rewrite (handleMultipart_end_session _ _ _ _ Haudio Hend) in Hrun. done. }
  destruct (handleMultipart_exchange env form audioFile w Haudio Hend)
    as (s & t & _ & Hmsgs & Heq). rewrite Heq in Hrun. clear Heq.
  simpl in Hrun.
  pose proof (store_blind_keeps _ (mkWorld (store w) (sent w) t)
                (blind_dispatchAudio env
                   (formatMessagesForProvider (Some (systemPrompt s))
                      (messages s) (f_prompt form))
                   (snd audioFile) (f_audioFormat form))) as Hkeep.
  destruct (dispatchAudio _ _ _ _ _) as [[[r0|[generated0 transcript0]]|e] w2]
    eqn:Hd; simpl in Hkeep.
  - apply dispatchAudio_return in Hd as [[key ->] _]. done.
  - destruct (persistTurns_run env (f_sessionId form) s
                (or_else transcript0 (f_prompt form)) generated0 w2 Hid)
      as (s' & t1 & t2 & Hp & Hs' & _).
    rewrite Hp in Hrun. injection Hrun as <- ? <- ? <- <-.
    exists s', t1, t2. simpl. rewrite Hset, lookup_insert_eq.
    rewrite <-Hmsgs. split; [done|]. split; [|done].
    rewrite Hs'. by apply trimSessionHistory_positive.
  - done.
Qed.

Lemma audio_exchange_stores_transcript_witness :
  let env := env_of (js "openai")
               [NetResponse (ok_response (js "T"));
                NetResponse (ok_response (js "reply"))] in
  let form :=
    mkForm (Some (js "Hi")) None (Some (js "s1")) None None None
      [(js "audio", [1%N; 2%N])] in
  let w' := snd (handler env (ReqMultipart form) initial_world) in
  exists s' t1 t2,
    store w' !! js "s1" = Some s'
    /\ messages s' = [mkTurn User (Some (js "T")) (Some t1);
                      mkTurn Assistant (Some (js "reply")) (Some t2)].
Proof.
  intros env form w'.
  assert (handler env (ReqMultipart form) initial_world
          = (RespSuccess (Some (js "reply")) (js "openai") (Some (js "T"))
               (Some (js "s1")) 1, w')) as Hrun by (vm_compute; reflexivity).
  destruct (audio_exchange_stores_transcript env form initial_world w'
              _ _ _ _ _ Hrun eq_refl eq_refl)
    as (s' & t1 & t2 & Hs' & Hmsgs & _).
  exists s', t1, t2. split; [exact Hs'|]. exact Hmsgs.
Defined.

(** ** Missing credentials *)

Lemma dispatchAudio_missing_credentials env msgs audio audioFormat w :
  (provider env = js "openai" /\ truthy (openaiApiKey env) = false)
  \/ (provider env = js "gemini" /\ truthy (geminiApiKey env) = false)
  \/ (provider env = js "yandex"
      /\ (truthy (yandexApiKey env) = false
          \/ truthy (yandexFolderId env) = false)) ->
  exists key,
    dispatchAudio env msgs audio audioFormat w
    = (Ok (Return (RespConfigError key)), w).
Proof.
  unfold dispatchAudio.
  intros [[-> Hk]|[[-> Hk]|[-> Hk]]]; simpl.
  - rewrite Hk. by eexists.
  - rewrite Hk. by eexists.
  - destruct Hk as [-> | ->]; simpl; rewrite ?orb_true_r; by eexists.
Qed.

(** X6. When the selector is [openai], [gemini] or [yandex] and a credential
    it needs is missing (for Yandex the key or the folder), every valid
    request that does not end a session is answered with the configuration
    error, status 500, with nothing sent and the store untouched. *)
Theorem missing_credentials_stop_before_network (env : Env)
    (Hmissing :
       (provider env = js "openai" /\ truthy (openaiApiKey env) = false)
       \/ (provider env = js "gemini" /\ truthy (geminiApiKey env) = false)
       \/ (provider env = js "yandex"
           /\ (truthy (yandexApiKey env) = false
               \/ truthy (yandexFolderId env) = false))) :
  (forall body w,
     truthy (j_prompt body) = true ->
     j_endSession body && truthy (j_sessionId body) = false ->
     exists key w',
       handler env (ReqJson body) w = (RespConfigError key, w')
       /\ statusCode (RespConfigError key) = 500
       /\ sent w' = sent w /\ store w' = store w)
  /\ (forall form audioFile w,
        head (filter (fun f => fst f = js "audio") (f_files form)) = Some audioFile ->
        bool_decide (f_endSession form = Some (js "true"))
        && truthy (f_sessionId form) = false ->
        exists key w',
          handler env (ReqMultipart form) w = (RespConfigError key, w')
          /\ statusCode (RespConfigError key) = 500
          /\ sent w' = sent w /\ store w' = store w).
Proof.
  split.
  - intros body w Hprompt Hend. rewrite handler_json.
    destruct (handleJson_exchange env body w Hprompt Hend)
      as (s & t & _ & _ & ->). simpl.
    destruct (dispatchText_missing_credentials env
                (formatMessagesForProvider (Some (systemPrompt s)) (messages s)
                   (j_prompt body))
                (Yandex.mkOptions (j_modelName body) (j_modelUri body))
                (mkWorld (store w) (sent w) t) Hmissing) as (key & ->).
    by eexists _, _.
  - intros form audioFile w Haudio Hend. rewrite handler_multipart.
    destruct (handleMultipart_exchange env form audioFile w Haudio Hend)
      as (s & t & _ & _ & ->). simpl.
    destruct (dispatchAudio_missing_credentials env
                (formatMessagesForProvider (Some (systemPrompt s)) (messages s)
                   (f_prompt form))
                (snd audioFile) (f_audioFormat form)
                (mkWorld (store w) (sent w) t) Hmissing) as (key & ->).
    by eexists _, _.
Qed.

Lemma missing_credentials_witness :
  let env :=
    mkEnv (js "yandex") None None (Some (js "y-key")) None
      (fun _ => NetResponse (ok_response (js "x")))
      (fun _ => true) (fun _ => true) (fun _ => true) Z.of_nat in
  exists key w',
    handler env (ReqJson (hello_request (Some (js "s1")))) full_world
    = (RespConfigError key, w')
    /\ sent w' = [].
Proof.
  intros env.
  assert ((provider env = js "openai" /\ truthy (openaiApiKey env) = false)
          \/ (provider env = js "gemini" /\ truthy (geminiApiKey env) = false)
          \/ (provider env = js "yandex"
              /\ (truthy (yandexApiKey env) = false
                  \/ truthy (yandexFolderId env) = false))) as Hmissing.
  { right. right. split; [reflexivity|]. right. reflexivity. }
  destruct (missing_credentials_stop_before_network env Hmissing) as (Hjson & _).
  destruct (Hjson (hello_request (Some (js "s1"))) full_world eq_refl eq_refl)
    as (key & w' & Hrun & _ & Hsent & _).
  exists key, w'. split; [exact Hrun | exact Hsent].
Defined.

(** ** The shape of a stored history *)

Lemma exchanges_app (l1 l2 : list Turn) :
  exchanges l1 -> exchanges l2 -> exchanges (l1 ++ l2).
Proof.
  revert l1. fix IH 1. intros [|u [|a rest]]; simpl; [done|done|].
  intros (Hu & Ha & Htu & Hta & Hrest) H2. repeat split; try done.
  by apply IH.
Qed.

Lemma exchanges_length_even (l : list Turn) :
  exchanges l -> Nat.Even (length l).
Proof.
  revert l. fix IH 1. intros [|u [|a rest]]; simpl; [by exists 0%nat|done|].
  intros (_ & _ & _ & _ & Hrest). destruct (IH rest Hrest) as [k Hk].
  exists (S k). lia.
Qed.

Lemma exchanges_drop_even (l : list Turn) (k : nat) :
  exchanges l -> exchanges (drop (2 * k) l).
Proof.
  revert l. induction k as [|k IH]; intros l Hl; [done|].
  replace (2 * S k)%nat with (S (S (2 * k))) by lia.
  destruct l as [|u [|a rest]]; simpl in *; [done|done|].
  apply IH. tauto.
Qed.

Lemma trimmed_exchanges (old : list Turn) userText generated t1 t2 :
  exchanges old ->
  exchanges (trimSessionHistory
               (old ++ [mkTurn User userText (Some t1);
                        mkTurn Assistant generated (Some t2)])
               MAX_MESSAGES_IN_SESSION).
Proof.
  intros Hold. rewrite trimSessionHistory_positive by done.
  assert (exchanges (old ++ [mkTurn User userText (Some t1);
                             mkTurn Assistant generated (Some t2)])) as Hall.
  { apply exchanges_app; [done|]. simpl. eauto 10. }
  destruct (exchanges_length_even _ Hall) as [k Hk].
  unfold MAX_MESSAGES_IN_SESSION.
  replace (length (old ++ [mkTurn User userText (Some t1);
                           mkTurn Assistant generated (Some t2)])
           - Z.to_nat 20)%nat with (2 * (k - 10))%nat by lia.
  by apply exchanges_drop_even.
Qed.

(** X7. In every world the deployment can reach, each stored history is a
    sequence of whole exchanges: it starts with a user turn, ends with an
    assistant turn, alternates in between, holds no system turn, and every
    turn has a timestamp. Trimming never splits an exchange. *)
Theorem stored_history_alternates (w : World) (Hreach : reachable w) :
  forall key s, store w !! key = Some s -> exchanges (messages s).
Proof.
  induction Hreach as [|env event w Hw IH|k w Hw IH].
  - intros key s Hs. simpl in Hs. by rewrite lookup_empty in Hs.
  - destruct (handler env event (fresh w)) as [r w'] eqn:Hrun.
    apply handler_outcome in Hrun. simpl.
    destruct r as [| | |sid p|g p tr sid n|e]; simpl in Hrun;
      try (by rewrite Hrun).
    + rewrite Hrun. destruct (blobs_delete_ok env _); [|done].
      intros key s Hs. apply lookup_delete_Some in Hs as [_ Hs]. eauto.
    + destruct (truthy sid); [|by rewrite Hrun].
      destruct Hrun as (reset & s' & u & t1 & t2 & Hs' & _ & ->).
      destruct (blobs_set_ok env _); [|done].
      intros key s Hs.
      apply lookup_insert_Some in Hs as [[_ <-]|[_ Hs]]; [|eauto].
      rewrite Hs'. apply trimmed_exchanges.
      destruct (working_messages_cases env sid reset (fresh w))
        as [->|(s0 & Hs0 & ->)]; [done|]. eauto.
  - intros key s Hs. simpl in Hs.
    apply lookup_delete_Some in Hs as [_ Hs]. eauto.
Qed.

Lemma stored_history_alternates_witness :
  let env := env_of (js "openai") [NetResponse (ok_response (js "Hi!"))] in
  let w := snd (handler env (ReqJson (hello_request (Some (js "s1"))))
                  (fresh initial_world)) in
  reachable w
  /\ exists s, store w !! js "s1" = Some s /\ exchanges (messages s).
Proof.
  intros env w.
  assert (reachable w) as Hreach by (apply reach_invoke, reach_initial).
  split; [exact Hreach|].
  assert (exists s, store w !! js "s1" = Some s) as (s & Hs)
    by (eexists; vm_compute; reflexivity).
  exists s. split; [exact Hs|].
  apply (stored_history_alternates w Hreach (js "s1") s Hs).
Defined.

(** ** How many requests an invocation sends *)

Lemma sends_ret {A} (n : nat) (a : A) : sends_at_most n (ret a).
Proof. intros w. exists []. simpl. rewrite app_nil_r. split; [done|lia]. Qed.

Lemma sends_throw {A} (n : nat) (e : Error) : sends_at_most n (@throw A e).
Proof. intros w. exists []. simpl. rewrite app_nil_r. split; [done|lia]. Qed.

Lemma sends_fetch (n : nat) env req : sends_at_most (S n) (fetch env req).
Proof.
  intros w. exists [req]. rewrite fetch_run. simpl. split; [done|lia].
Qed.

Lemma sends_json (n : nat) res : sends_at_most n (json res).
Proof. unfold json. destruct (payload res); [apply sends_ret | apply sends_throw]. Qed.

Lemma sends_bind {A B} (n1 n2 : nat) (m : M A) (k : A -> M B) :
  sends_at_most n1 m -> (forall a, sends_at_most n2 (k a)) ->
  sends_at_most (n1 + n2) (bind m k).
Proof.
  intros Hm Hk w. unfold bind.
  destruct (Hm w) as (reqs1 & Hsent1 & Hlen1).
  destruct (m w) as [[a|e] w1]; simpl in Hsent1.
  - destruct (Hk a w1) as (reqs2 & Hsent2 & Hlen2).
    exists (reqs1 ++ reqs2). rewrite Hsent2, Hsent1, <-app_assoc.
    split; [done|]. rewrite length_app. lia.
  - exists reqs1. simpl. split; [done|lia].
Qed.

Lemma sends_quiet {A} (n : nat) (m : M A) :
  (forall w, sent (snd (m w)) = sent w) -> sends_at_most n m.
Proof.
  intros H w. exists []. rewrite H, app_nil_r. split; [done|simpl; lia].
Qed.

Ltac sends :=
  repeat first
    [ apply sends_ret | apply sends_throw | apply sends_fetch | apply sends_json
    | match goal with
      | |- sends_at_most _ (if ?c then _ else _) => destruct c
      | |- sends_at_most _ (match ?x with _ => _ end) => destruct x
      end ].

Lemma sends_openai_text env apiKey input :
  sends_at_most 2 (OpenAI.generateTextWithOpenAI env apiKey input).
Proof.
  unfold OpenAI.generateTextWithOpenAI.
  apply (sends_bind 1 1); [sends | intros r1].
  apply (sends_bind 1 0); [sends | intros r2].
  destruct (negb (ok r2)); [sends|].
  apply (sends_bind 0 0); [sends | intros; sends].
Qed.

Lemma sends_openai_transcribe env apiKey audio :
  sends_at_most 2 (OpenAI.transcribe env apiKey audio).
Proof.
  unfold OpenAI.transcribe.
  apply (sends_bind 1 1); [sends | intros r1].
  apply (sends_bind 1 0); [| intros; sends].
  destruct (negb (ok r1) && _).
  - apply (sends_bind 1 0); [sends | intros r2].
    destruct (negb (ok r2)); [sends|].
    apply (sends_bind 0 0); [sends | intros; sends].
  - destruct (negb (ok r1)); [sends|].
    apply (sends_bind 0 1); [sends | intros; sends].
Qed.

Lemma sends_openai_chat env apiKey msgs :
  sends_at_most 2 (OpenAI.chat env apiKey msgs).
Proof.
  unfold OpenAI.chat.
  apply (sends_bind 1 1); [sends | intros r1].
  apply (sends_bind 1 0); [| intros; sends].
  destruct (negb (ok r1) && _).
  - apply (sends_bind 1 0); [sends | intros r2].
    destruct (negb (ok r2)); [sends|].
    apply (sends_bind 0 0); [sends | intros; sends].
  - destruct (negb (ok r1)); [sends|].
    apply (sends_bind 0 1); [sends | intros; sends].
Qed.

Lemma sends_openai_audio env apiKey input audio :
  sends_at_most 4 (OpenAI.generateTextWithOpenAIAndAudio env apiKey input audio).
Proof.
  unfold OpenAI.generateTextWithOpenAIAndAudio.
  apply (sends_bind 2 2); [apply sends_openai_transcribe | intros tr].
  apply (sends_bind 2 0); [apply sends_openai_chat | intros; sends].
Qed.

Lemma sends_yandex_text env apiKey folderId input options :
  sends_at_most 1 (Yandex.generateTextWithYandex env apiKey folderId input options).
Proof.
  unfold Yandex.generateTextWithYandex.
  apply (sends_bind 1 0); [sends | intros r1].
  destruct (negb (ok r1)); [sends|].
  apply (sends_bind 0 0); [sends | intros; sends].
Qed.

Lemma sends_yandex_stt env apiKey folderId audio opts :
  sends_at_most 1 (Yandex.transcribeWithYandexSTT env apiKey folderId audio opts).
Proof.
  unfold Yandex.transcribeWithYandexSTT.
  destruct (_ || _); [sends|].
  apply (sends_bind 1 0); [sends | intros r1]. sends.
Qed.

Lemma sends_yandex_audio env apiKey folderId input audio sttOpts :
  sends_at_most 2
    (Yandex.generateTextWithYandexAndAudio env apiKey folderId input audio sttOpts).
Proof.
  unfold Yandex.generateTextWithYandexAndAudio.
  apply (sends_bind 1 1); [apply sends_yandex_stt | intros tr].
  apply (sends_bind 1 0); [apply sends_yandex_text | intros; sends].
Qed.

Lemma sends_gemini env req : sends_at_most 1 (Gemini.generateContent env req).
Proof.
  unfold Gemini.generateContent.
  apply (sends_bind 1 0); [sends | intros r1]. sends.
Qed.

Lemma sends_mistral env apiKey input :
  sends_at_most 2 (Mistral.generateTextWithMistral env apiKey input).
Proof.
  unfold Mistral.generateTextWithMistral.
  destruct (bool_decide _); [sends|].
  apply (sends_bind 1 1); [sends | intros r1].
  apply (sends_bind 1 0); [sends | intros r2].
  destruct (negb (ok r2)); [sends|].
  apply (sends_bind 0 0); [sends | intros; sends].
Qed.

Lemma sends_weaken {A} (n n' : nat) (m : M A) :
  (n <= n')%nat -> sends_at_most n m -> sends_at_most n' m.
Proof.
  intros Hle Hm w. destruct (Hm w) as (reqs & Hsent & Hlen).
  exists reqs. split; [done|lia].
Qed.

Lemma sends_dispatchText env msgs options :
  sends_at_most 2 (dispatchText env msgs options).
Proof.
  unfold dispatchText.
  repeat match goal with
         | |- sends_at_most _ (if ?c then _ else _) => destruct c
         end; try apply sends_ret.
  - apply (sends_bind 2 0); [apply sends_openai_text | intros; sends].
  - apply (sends_bind 2 0); [|intros; sends].
    apply (sends_weaken 1); [lia|].
    unfold Gemini.generateTextWithGemini. apply sends_gemini.
  - apply (sends_bind 2 0); [|intros; sends].
    apply (sends_weaken 1); [lia | apply sends_yandex_text].
Qed.

Lemma sends_dispatchAudio env msgs audio audioFormat :
  sends_at_most 4 (dispatchAudio env msgs audio audioFormat).
Proof.
  unfold dispatchAudio.
  repeat match goal with
         | |- sends_at_most _ (if ?c then _ else _) => destruct c
         end; try apply sends_ret.
  - apply (sends_bind 4 0); [apply sends_openai_audio | intros; sends].
  - apply (sends_bind 4 0); [|intros; sends].
    apply (sends_weaken 1); [lia|].
    unfold Gemini.generateTextWithGeminiAndAudio. apply sends_gemini.
  - apply (sends_bind 4 0); [|intros; sends].
    apply (sends_weaken 2); [lia | apply sends_yandex_audio].
Qed.

Lemma resolveSession_sent env sessionId resetContext system w :
  sent (snd (resolveSession env sessionId resetContext system w)) = sent w.
Proof.
  destruct (resolveSession_run env sessionId resetContext system w)
    as (s & t & -> & _). done.
Qed.

Lemma persistTurns_sent env sessionId session userText generated w :
  sent (snd (persistTurns env sessionId session userText generated w)) = sent w.
Proof.
  destruct (truthy sessionId) eqn:Hid.
  - destruct (persistTurns_run env sessionId session userText generated w Hid)
      as (s' & t1 & t2 & -> & _). done.
  - by rewrite persistTurns_skip.
Qed.

(** X8. One invocation only adds to the log of requests, and adds at most 2
    requests for a JSON body (a primary and a fallback attempt), at most 4
    for a multipart body (two for the transcription, two for the chat), and
    none for any other event. *)
Theorem request_budget (env : Env) (event : Request) (w : World) :
  exists reqs,
    sent (snd (handler env event w)) = sent w ++ reqs
    /\ (length reqs
        <= match event with
           | ReqJson _ => 2
           | ReqMultipart _ => 4
           | _ => 0
           end)%nat.
Proof.
  destruct event as [| |form| |body| |ct];
    try (exists []; simpl; rewrite app_nil_r; split; [done|lia]).
  - rewrite handler_multipart.
    destruct (head (filter (fun f => fst f = js "audio") (f_files form)))
      as [audioFile|] eqn:Haudio.
    2:{ unfold handleMultipart. rewrite Haudio.
        exists []. simpl. rewrite app_nil_r. split; [done|lia]. }
    destruct (bool_decide (f_endSession form = Some (js "true"))
              && truthy (f_sessionId form)) eqn:Hend.
    { rewrite (handleMultipart_end_session _ _ _ _ Haudio Hend).
      exists []. rewrite app_nil_r. split; [|simpl; lia].
      by destruct (blobs_delete_ok env _). }
    destruct (handleMultipart_exchange env form audioFile w Haudio Hend)
      as (s & t & _ & _ & ->). simpl.
    destruct (sends_dispatchAudio env
                (formatMessagesForProvider (Some (systemPrompt s)) (messages s)
                   (f_prompt form))
                (snd audioFile) (f_audioFormat form)
                (mkWorld (store w) (sent w) t)) as (reqs & Hsent & Hlen).
    exists reqs. split; [|done]. simpl in Hsent. rewrite <-Hsent.
    destruct (dispatchAudio _ _ _ _ _) as [[[r0|[generated transcript]]|e] w2];
      simpl; try done.
    pose proof (persistTurns_sent env (f_sessionId form) s
                  (or_else transcript (f_prompt form)) generated w2) as Hp.
    by destruct (persistTurns _ _ _ _ _ _) as [[s'|e] w3].
  - rewrite handler_json.
    destruct (truthy (j_prompt body)) eqn:Hprompt.
    2:{ unfold handleJson. rewrite Hprompt.
        exists []. simpl. rewrite app_nil_r. split; [done|lia]. }
    destruct (j_endSession body && truthy (j_sessionId body)) eqn:Hend.
    { rewrite (handleJson_end_session _ _ _ Hprompt Hend).
      exists []. rewrite app_nil_r. split; [|simpl; lia].
      by destruct (blobs_delete_ok env _). }
    destruct (handleJson_exchange env body w Hprompt Hend)
      as (s & t & _ & _ & ->). simpl.
    destruct (sends_dispatchText env
                (formatMessagesForProvider (Some (systemPrompt s)) (messages s)
                   (j_prompt body))
                (Yandex.mkOptions (j_modelName body) (j_modelUri body))
                (mkWorld (store w) (sent w) t)) as (reqs & Hsent & Hlen).
    exists reqs. split; [|done]. simpl in Hsent. rewrite <-Hsent.
    destruct (dispatchText _ _ _ _) as [[[r0|generated]|e] w2];
      simpl; try done.
    pose proof (persistTurns_sent env (j_sessionId body) s (j_prompt body)
                  generated w2) as Hp.
    by destruct (persistTurns _ _ _ _ _ _) as [[s'|e] w3].
Qed.

(** ** Answers that are not retried *)

(** X9. The OpenAI and Mistral chat adapters make a single attempt when the
    first request is rejected by the network (the rejection is the error),
    when the first answer is a success (its text is the result, or the empty
    string when the answer has none), and when it is a failure with a status
    outside the retry list, which is thrown with that status. *)
Theorem single_attempt_outside_retry_list (env : Env) (w : World) :
  (forall apiKey input, exists msgs,
     let run := OpenAI.generateTextWithOpenAI env apiKey input w in
     (net env (length (sent w)) = NetReject ->
      run = (Throw ErrNetwork,
             mkWorld (store w)
               (sent w ++ [OpenAIChatCompletions OpenAI.primaryModel msgs])
               (ticks w)))
     /\ (forall r1, net env (length (sent w)) = NetResponse r1 ->
           (ok r1 = true \/ status r1 ∉ [400; 404; 422]) ->
           sent (snd run)
           = sent w ++ [OpenAIChatCompletions OpenAI.primaryModel msgs]
           /\ fst run
              = if ok r1
                then match payload r1 with
                     | Some v => Ok (default [] v)
                     | None => Throw ErrBody
                     end
                else Throw (ErrOpenAIChat (status r1) (safeReadText r1))))
  /\ (forall apiKey input, snd (Mistral.prepare input) <> [] ->
      exists msgs system_prompt,
        let run := Mistral.generateTextWithMistral env apiKey input w in
        (net env (length (sent w)) = NetReject ->
         run = (Throw ErrNetwork,
                mkWorld (store w)
                  (sent w ++ [MistralChatCompletions Mistral.primaryModel msgs
                                system_prompt])
                  (ticks w)))
        /\ (forall r1, net env (length (sent w)) = NetResponse r1 ->
              (ok r1 = true \/ status r1 ∉ [400; 404; 422; 429]) ->
              sent (snd run)
              = sent w ++ [MistralChatCompletions Mistral.primaryModel msgs
                             system_prompt]
              /\ fst run
                 = if ok r1
                   then match payload r1 with
                        | Some v => Ok (or_empty v)
                        | None => Throw ErrBody
                        end
                   else Throw (ErrMistralChat (status r1) (safeReadText r1)))).
Proof.
  assert (Hskip : forall codes r1,
            ok r1 = true \/ status r1 ∉ codes ->
            negb (ok r1) && includes codes (status r1) = false).
  { intros codes r1 [-> | Hno]; [done|].
    destruct (includes codes (status r1)) eqn:Hin; [|by rewrite andb_false_r].
    apply includes_elem_of in Hin. done. }
  split.
  - intros apiKey input. eexists. simpl. split.
    + intros Hnet. unfold OpenAI.generateTextWithOpenAI, bind.
      rewrite fetch_run, Hnet. reflexivity.
    + intros r1 Hnet Hno. unfold OpenAI.generateTextWithOpenAI, bind.
      rewrite fetch_run, Hnet. cbv beta iota.
      rewrite (Hskip OpenAI.retry_codes r1 Hno).
      unfold ret at 1. cbv beta iota.
      unfold json, ret, throw, nullish_empty.
      destruct (ok r1), (payload r1); done.
  - intros apiKey input Hmsgs. eexists _, _. simpl. split.
    + intros Hnet. unfold Mistral.generateTextWithMistral.
      rewrite (bool_decide_eq_false_2 _ Hmsgs). unfold bind.
      rewrite fetch_run, Hnet. reflexivity.
    + intros r1 Hnet Hno. unfold Mistral.generateTextWithMistral.
      rewrite (bool_decide_eq_false_2 _ Hmsgs). unfold bind.
      rewrite fetch_run, Hnet. cbv beta iota.
      rewrite (Hskip Mistral.retry_codes r1 Hno).
      unfold ret at 1. cbv beta iota.
      unfold json, ret, throw.
      destruct (ok r1), (payload r1); done.
Qed.

Lemma single_attempt_witness :
  let env := env_of (js "openai") [NetResponse (error_response 429)] in
  let input := InputTurns [mkTurn User (Some (js "Hello")) None] in
  fst (OpenAI.generateTextWithOpenAI env (js "o-key") input initial_world)
  = Throw (ErrOpenAIChat 429 (js "error"))
  /\ length (sent (snd (OpenAI.generateTextWithOpenAI env (js "o-key") input
                          initial_world))) = 1%nat.
Proof.
  intros env input.
  destruct (single_attempt_outside_retry_list env initial_world) as (Hopenai & _).
  destruct (Hopenai (js "o-key") input) as (msgs & _ & Hresp).
  assert (ok (error_response 429) = true
          \/ status (error_response 429) ∉ [400; 404; 422]) as Hno.
  { right. simpl. rewrite !elem_of_cons, elem_of_nil.
    intros [H|[H|[H|[]]]]; discriminate H. }
  destruct (Hresp (error_response 429) eq_refl Hno) as (Hsent & Hres).
  split; [exact Hres|]. rewrite Hsent. reflexivity.
Defined.

(** ** The two steps of the audio adapters *)

Lemma transcribe_log env apiKey audio w :
  let treqs1 := [OpenAIAudioTranscriptions OpenAI.primaryTranscribe audio] in
  let treqs2 := [OpenAIAudioTranscriptions OpenAI.primaryTranscribe audio;
                 OpenAIAudioTranscriptions OpenAI.fallbackTranscribe audio] in
  exists treqs,
    sent (snd (OpenAI.transcribe env apiKey audio w)) = sent w ++ treqs
    /\ (treqs = treqs1 \/ treqs = treqs2).
Proof.
  simpl. unfold OpenAI.transcribe, bind. rewrite fetch_run.
  destruct (net env (length (sent w))) as [|r1]; cbv beta iota.
  { eexists. split; [reflexivity | by left]. }
  destruct (negb (ok r1) && includes OpenAI.retry_codes (status r1)).
  - rewrite fetch_run. eexists. split; [|by right].
    destruct (net env _) as [|r2]; cbv beta iota.
    { simpl. by rewrite <-app_assoc. }
    unfold json, ret, throw.
    destruct (ok r2), (payload r2); simpl; by rewrite <-app_assoc.
  - eexists. split; [|by left].
    unfold json, ret, throw. by destruct (ok r1), (payload r1).
Qed.

Lemma chat_log env apiKey msgs w :
  exists creqs,
    sent (snd (OpenAI.chat env apiKey msgs w)) = sent w ++ creqs
    /\ (creqs = [OpenAIChatCompletions OpenAI.primaryModel msgs]
        \/ creqs = [OpenAIChatCompletions OpenAI.primaryModel msgs;
                    OpenAIChatCompletions OpenAI.fallbackModel msgs]).
Proof.
  unfold OpenAI.chat, bind. rewrite fetch_run.
  destruct (net env (length (sent w))) as [|r1]; cbv beta iota.
  { eexists. split; [reflexivity | by left]. }
  destruct (negb (ok r1) && includes OpenAI.retry_codes (status r1)).
  - rewrite fetch_run. eexists. split; [|by right].
    destruct (net env _) as [|r2]; cbv beta iota.
    { simpl. by rewrite <-app_assoc. }
    unfold json, ret, throw.
    destruct (ok r2), (payload r2); simpl; by rewrite <-app_assoc.
  - eexists. split; [|by left].
    unfold json, ret, throw. by destruct (ok r1), (payload r1).
Qed.

Lemma yandex_text_log env apiKey folderId input options w :
  sent (snd (Yandex.generateTextWithYandex env apiKey folderId input options w))
  = sent w ++ [YandexCompletion (Yandex.resolveYandexOptions folderId options)
                 (yandex_messages input)].
Proof.
  unfold Yandex.generateTextWithYandex, bind. rewrite fetch_run.
  fold (yandex_messages input).
  destruct (net env _) as [|r1]; cbv beta iota; [done|].
  unfold json, ret, throw. by destruct (negb (ok r1)), (payload r1).
Qed.

(** The speech-to-text step: the one request it sends, or the [URIError]
    it throws before sending. *)
Lemma yandex_stt_log env apiKey folderId audio opts w :
  let lang := if truthy (Yandex.lang opts) then default [] (Yandex.lang opts)
              else js "ru-RU" in
  let format := if truthy (Yandex.format opts) then default [] (Yandex.format opts)
                else js "oggopus" in
  let rate := match Yandex.sampleRateHertz opts with
              | Some r => if r =? 0 then 48000 else r
              | None => 48000
              end in
  let step := Yandex.transcribeWithYandexSTT env apiKey folderId audio opts w in
  if isWellFormed lang && isWellFormed format
  then sent (snd step) = sent w ++ [YandexSttRecognize lang format rate audio]
  else step = (Throw ErrURIMalformed, w).
Proof.
  cbv zeta. unfold Yandex.transcribeWithYandexSTT.
  rewrite <-negb_andb.
  destruct (isWellFormed _ && isWellFormed _); cbn [negb]; [|done].
  unfold bind. rewrite fetch_run.
  destruct (net env _) as [|r1]; cbv beta iota; [done|].
  unfold ret, throw. by destruct (negb (ok r1)), (payload r1).
Qed.

(** X10. In both audio adapters the transcription comes first and the chat
    step only after it has succeeded: when the transcription throws, the
    adapter throws the same error and has sent the transcription requests
    only; when it gives a transcript, the log is the transcription requests
    (one or two for OpenAI, one for Yandex) followed by the chat requests
    (one, or two on the same messages, for OpenAI; one for Yandex, to the
    default model of the folder). The Yandex step sends its one request only
    when the language and the format it is given are well-formed strings:
    otherwise building the URL throws and nothing at all is sent. *)
Theorem transcription_precedes_chat (env : Env) (w : World) :
  (forall apiKey input audio,
     let run := OpenAI.generateTextWithOpenAIAndAudio env apiKey input audio w in
     let step := OpenAI.transcribe env apiKey audio w in
     exists treqs,
       sent (snd step) = sent w ++ treqs
       /\ (treqs = [OpenAIAudioTranscriptions OpenAI.primaryTranscribe audio]
           \/ treqs = [OpenAIAudioTranscriptions OpenAI.primaryTranscribe audio;
                       OpenAIAudioTranscriptions OpenAI.fallbackTranscribe audio])
       /\ (forall e, fst step = Throw e -> run = (Throw e, snd step))
       /\ (forall tr model, fst step = Ok (tr, model) ->
             exists msgs creqs,
               sent (snd run) = sent w ++ treqs ++ creqs
               /\ (creqs = [OpenAIChatCompletions OpenAI.primaryModel msgs]
                   \/ creqs = [OpenAIChatCompletions OpenAI.primaryModel msgs;
                               OpenAIChatCompletions OpenAI.fallbackModel msgs])))
  /\ (forall apiKey folderId input audio sttOpts,
        let lang := if truthy (Yandex.lang sttOpts)
                    then default [] (Yandex.lang sttOpts) else js "ru-RU" in
        let format := if truthy (Yandex.format sttOpts)
                      then default [] (Yandex.format sttOpts) else js "oggopus" in
        let rate := match Yandex.sampleRateHertz sttOpts with
                    | Some r => if r =? 0 then 48000 else r
                    | None => 48000
                    end in
        let stt := YandexSttRecognize lang format rate audio in
        let run := Yandex.generateTextWithYandexAndAudio env apiKey folderId
                     input audio sttOpts w in
        let step := Yandex.transcribeWithYandexSTT env apiKey folderId audio
                      sttOpts w in
        if isWellFormed lang && isWellFormed format
        then
          sent (snd step) = sent w ++ [stt]
          /\ (forall e, fst step = Throw e -> run = (Throw e, snd step))
          /\ (forall tr, fst step = Ok tr ->
                exists msgs,
                  sent (snd run)
                  = sent w ++ [stt;
                               YandexCompletion
                                 (js "gpt://" ++ folderId
                                  ++ js "/yandexgpt-lite/latest") msgs])
        else
          step = (Throw ErrURIMalformed, w) /\ run = (Throw ErrURIMalformed, w)).
Proof.
  split.
  - intros apiKey input audio. simpl.
    destruct (transcribe_log env apiKey audio w) as (treqs & Hsent & Hcases).
    exists treqs. split; [done|]. split; [done|].
    unfold OpenAI.generateTextWithOpenAIAndAudio.
    destruct (OpenAI.transcribe env apiKey audio w) as [[[tr model]|e] w1] eqn:Hstep;
      simpl in *.
    + split; [done|]. intros ? ? [= <- <-].
      rewrite (bind_run _ _ _ _ _ Hstep). simpl fst.
      destruct (chat_log env apiKey (OpenAI.audio_messages input tr) w1)
        as (creqs & Hchat & Hc).
      exists (OpenAI.audio_messages input tr), creqs. split; [|done].
      unfold bind, ret.
      destruct (OpenAI.chat env apiKey _ w1) as [[reply|e] w2]; simpl in *;
        by rewrite Hchat, Hsent, <-app_assoc.
    + split; [|done]. intros ? [= <-]. by rewrite (bind_throw _ _ _ _ _ Hstep).
  - intros apiKey folderId input audio sttOpts. cbv zeta.
    pose proof (yandex_stt_log env apiKey folderId audio sttOpts w) as Hstt.
    cbv zeta in Hstt.
    unfold Yandex.generateTextWithYandexAndAudio.
    destruct (isWellFormed _ && isWellFormed _).
    + split; [exact Hstt|].
      destruct (Yandex.transcribeWithYandexSTT env apiKey folderId audio sttOpts w)
        as [[tr|e] w1] eqn:Hstep; simpl in *.
      * split; [done|]. intros ? [= <-].
        rewrite (bind_run _ _ _ _ _ Hstep).
        pose proof (yandex_text_log env apiKey folderId
                      (Yandex.audio_input input tr) None w1) as Hm.
        exists (yandex_messages (Yandex.audio_input input tr)).
        unfold bind at 1.
        destruct (Yandex.generateTextWithYandex _ _ _ _ _ _) as [[reply|e] w2];
          simpl in *; by rewrite Hm, Hstt, <-app_assoc.
      * split; [|done]. intros ? [= <-]. by rewrite (bind_throw _ _ _ _ _ Hstep).
    + split; [exact Hstt|]. by rewrite (bind_throw _ _ _ _ _ Hstt).
Qed.

(** OpenAI answers 500 to the transcription: one request, no chat. Yandex is
    given a format that holds half a surrogate pair: nothing is sent. *)
Lemma transcription_precedes_chat_witness :
  let env := env_of (js "openai") [NetResponse (error_response 500)] in
  let input := InputTurns [mkTurn User (Some (js "Hi")) None] in
  OpenAI.generateTextWithOpenAIAndAudio env (js "o-key") input [] initial_world
  = (Throw (ErrOpenAITranscription 500 (js "error")),
     mkWorld ∅ [OpenAIAudioTranscriptions OpenAI.primaryTranscribe []] 0)
  /\ Yandex.generateTextWithYandexAndAudio env (js "y-key") (js "folder") input []
       (Yandex.mkStt None (Some [55357%N]) None) initial_world
     = (Throw ErrURIMalformed, initial_world).
Proof.
  intros env input.
  destruct (transcription_precedes_chat env initial_world) as (Hopenai & Hyandex).
  split.
  - destruct (Hopenai (js "o-key") input []) as (treqs & _ & _ & Hthrow & _).
    apply (Hthrow (ErrOpenAITranscription 500 (js "error"))).
    reflexivity.
  - apply (Hyandex (js "y-key") (js "folder") input []
             (Yandex.mkStt None (Some [55357%N]) None)).
Defined.

(** X11. For an input that is not an array the transcript always reaches the
    chat step: the last message is a user message that ends with the label,
    a line feed and the transcript, after the prompt and two line feeds when
    the prompt is not blank; before it comes the system message alone, for
    OpenAI when the system text is not empty, for Yandex when it is not
    blank. *)
Theorem transcript_reaches_chat_for_prompt_input
    (prompt system tr : jsstring) :
  let body := if decide (trim prompt = []) then []
              else prompt ++ newline ++ newline in
  let merged := body ++ transcript_label ++ newline ++ tr in
  OpenAI.audio_messages (InputPrompt prompt system) tr
  = (if decide (system = []) then [] else [mkChat System (Some system)])
    ++ [mkChat User (Some merged)]
  /\ yandex_messages (Yandex.audio_input (InputPrompt prompt system) tr)
     = (if decide (trim system = []) then [] else [mkYandex System (Some system)])
       ++ [mkYandex User (Some merged)].
Proof.
  cbv zeta. unfold OpenAI.audio_messages, Yandex.audio_input, yandex_messages.
  rewrite nonblank_trim. unfold transcript_suffix, transcript_only.
  assert (truthy (Some system) && bool_decide (0 < length (trim system))%nat
          = negb (bool_decide (trim system = []))) as ->.
  { destruct system as [|c system]; [done|]. simpl truthy.
    destruct (trim (c :: system)); done. }
  destruct (decide (trim prompt = [])) as [Hp|Hp];
    rewrite ?(bool_decide_eq_true_2 _ Hp), ?(bool_decide_eq_false_2 _ Hp);
    destruct (decide (trim system = [])) as [Hs|Hs];
    rewrite ?(bool_decide_eq_true_2 _ Hs), ?(bool_decide_eq_false_2 _ Hs);
    destruct system as [|c system]; simpl;
    rewrite <-?app_assoc; done.
Qed.

(** ** The Yandex text adapter *)

(** X12. The Yandex text adapter sends exactly one request whatever the
    answer (there is no fallback, not even on 422): the messages of the input
    to the model URI, which is the [modelUri] option when it is not empty,
    else built from the folder and the [modelName] option when that is not
    empty, else from the folder and [yandexgpt-lite]; a failure is thrown
    with its status, a success gives the text or the empty string. *)
Theorem yandex_single_request (env : Env) (apiKey folderId : jsstring)
    (input : AdapterInput) (options : option Yandex.Options) (w : World) :
  let run := Yandex.generateTextWithYandex env apiKey folderId input options w in
  let uri :=
    if truthy (options ≫= Yandex.modelUri)
    then default [] (options ≫= Yandex.modelUri)
    else js "gpt://" ++ folderId ++ js "/"
         ++ (if truthy (options ≫= Yandex.modelName)
             then default [] (options ≫= Yandex.modelName)
             else js "yandexgpt-lite")
         ++ js "/latest" in
  sent (snd run) = sent w ++ [YandexCompletion uri (yandex_messages input)]
  /\ (forall r1, net env (length (sent w)) = NetResponse r1 ->
        fst run
        = if ok r1
          then match payload r1 with
               | Some v => Ok (default [] v)
               | None => Throw ErrBody
               end
          else Throw (ErrYandexGPT (status r1) (safeReadText r1)))
  /\ (net env (length (sent w)) = NetReject -> fst run = Throw ErrNetwork).
Proof.
  simpl. split; [|split].
  - rewrite yandex_text_log. do 2 f_equal.
    unfold Yandex.resolveYandexOptions, Yandex.model_uri,
      Yandex.DEFAULT_MODEL_NAME.
    by destruct (truthy (options ≫= Yandex.modelUri)),
                (truthy (options ≫= Yandex.modelName)).
  - intros r1 Hnet. unfold Yandex.generateTextWithYandex, bind.
    rewrite fetch_run, Hnet. cbv beta iota.
    unfold json, ret, throw, nullish_empty.
    by destruct (ok r1), (payload r1).
  - intros Hnet. unfold Yandex.generateTextWithYandex, bind.
    by rewrite fetch_run, Hnet.
Qed.

Lemma yandex_single_request_witness :
  let env := env_of (js "yandex") [NetResponse (error_response 422)] in
  let run :=
    Yandex.generateTextWithYandex env (js "y-key") (js "folder")
      (InputTurns [mkTurn User (Some (js "Hello")) None])
      (Some (Yandex.mkOptions (Some (js "yandexgpt")) None)) initial_world in
  fst run = Throw (ErrYandexGPT 422 (js "error"))
  /\ sent (snd run)
     = [YandexCompletion (js "gpt://folder/yandexgpt/latest")
          [mkYandex User (Some (js "Hello"))]].
Proof.
  intros env run.
  destruct (yandex_single_request env (js "y-key") (js "folder")
              (InputTurns [mkTurn User (Some (js "Hello")) None])
              (Some (Yandex.mkOptions (Some (js "yandexgpt")) None))
              initial_world) as (Hsent & Hresp & _).
  split.
  - apply (Hresp (error_response 422)). reflexivity.
  - exact Hsent.
Defined.

(** ** The Mistral adapter *)

Lemma mistral_prepare_turns (turns : list Turn) :
  snd (Mistral.prepare (InputTurns turns))
  = filter (fun msg => trim (default [] (content msg)) <> [])
      (mistral_message <$> filter (fun m => role m <> System) turns).
Proof. reflexivity. Qed.



Lemma formatMessagesForProvider_shape (sys : jsstring) (history : list Turn)
    (newUserText : option jsstring) :
  formatMessagesForProvider (Some sys) history newUserText
  = (if decide (trim sys = []) then [] else [mkTurn System (Some sys) None])
    ++ history
    ++ (if decide (trim (default [] newUserText) = []) then []
        else [mkTurn User newUserText None]).
Proof.
  unfold formatMessagesForProvider.
  change (trim <$> Some sys) with (Some (trim sys)). fold (nonblank sys).
  assert (truthy newUserText && truthy (trim <$> newUserText)
          = negb (bool_decide (trim (default [] newUserText) = []))) as ->.
  { destruct newUserText as [p|]; [|done]. simpl.
    fold (nonblank p). apply nonblank_trim. }
  rewrite nonblank_trim.
  destruct (decide (trim sys = [])) as [Es|Es];
    destruct (decide (trim (default [] newUserText) = [])) as [En|En];
    rewrite ?(bool_decide_eq_true_2 _ Es), ?(bool_decide_eq_false_2 _ Es),
            ?(bool_decide_eq_true_2 _ En), ?(bool_decide_eq_false_2 _ En);
    simpl; by rewrite ?app_nil_r, <-?app_assoc.
Qed.

(** X14. The Mistral adapter refuses to call the provider without a message:
    it throws its no-message error exactly when every turn of an array input
    is a system turn or has a blank text, and then nothing is sent and the
    world is untouched; no other run of the adapter ends with that error.
    With the list the handler builds from a prompt that is not blank this
    never happens. *)
Theorem mistral_needs_a_message (env : Env) (apiKey : jsstring)
    (turns : list Turn) (w : World) :
  let run := Mistral.generateTextWithMistral env apiKey (InputTurns turns) w in
  (fst run = Throw ErrMistralNoMessages
   <-> Forall (fun t => role t = System \/ trim (default [] (text t)) = []) turns)
  /\ (fst run = Throw ErrMistralNoMessages -> snd run = w)
  /\ (fst run <> Throw ErrMistralNoMessages ->
      (length (sent w) < length (sent (snd run)))%nat)
  /\ (forall sys history prompt w0,
        trim prompt <> [] ->
        fst (Mistral.generateTextWithMistral env apiKey
               (InputTurns (formatMessagesForProvider (Some sys) history
                              (Some prompt))) w0)
        <> Throw ErrMistralNoMessages).
Proof.
  assert (Hnil : forall l,
            snd (Mistral.prepare (InputTurns l)) = []
            <-> Forall (fun t => role t = System
                                 \/ trim (default [] (text t)) = []) l).
  { intros l. rewrite mistral_prepare_turns. split.
    - intros Hnil. apply Forall_forall. intros t Ht.
      destruct (decide (role t = System)) as [|Hrole]; [by left|]. right.
      destruct (decide (trim (default [] (text t)) = [])) as [|Htext]; [done|].
      exfalso. eapply (filter_nil_not_elem_of _ _ (mistral_message t) Hnil).
      + exact Htext.
      + apply list_elem_of_fmap. exists t. split; [done|].
        by apply list_elem_of_filter.
    - intros Hall. induction Hall as [|t l' Ht _ IH]; [done|].
      rewrite filter_cons. destruct (decide (role t <> System)) as [Hrole|];
        [|exact IH].
      rewrite fmap_cons, filter_cons_False; [exact IH|].
      simpl. destruct Ht as [Ht|Ht]; [done|]. intros Hne. by apply Hne. }
  assert (Hrun : forall l w0,
            let run := Mistral.generateTextWithMistral env apiKey (InputTurns l) w0 in
            (snd (Mistral.prepare (InputTurns l)) = []
             -> run = (Throw ErrMistralNoMessages, w0))
            /\ (snd (Mistral.prepare (InputTurns l)) <> []
                -> fst run <> Throw ErrMistralNoMessages
                   /\ (length (sent w0) < length (sent (snd run)))%nat)).
  { intros l w0. cbv zeta. unfold Mistral.generateTextWithMistral. split.
    - intros Hempty. by rewrite (bool_decide_eq_true_2 _ Hempty).
    - intros Hsome. rewrite (bool_decide_eq_false_2 _ Hsome).
      set (msgs := snd (Mistral.prepare (InputTurns l))).
      set (field := if truthy _ then _ else _).
      clearbody msgs field. run_cases; cbn [fst snd sent];
        rewrite ?length_app; cbn [length]; split; first [done | lia]. }
  cbv zeta. destruct (Hrun turns w) as [Hthrow Hsend]. cbv zeta in Hthrow, Hsend.
  destruct (decide (snd (Mistral.prepare (InputTurns turns)) = [])) as [He|Hne].
  - rewrite (Hthrow He). simpl. split; [|split; [done|split]].
    + split; [intros _; by apply Hnil | done].
    + done.
    + intros sys history prompt w0 Hprompt.
      destruct (Hrun (formatMessagesForProvider (Some sys) history (Some prompt))
                  w0) as [_ Hs]. apply Hs. clear Hs.
      intros Hnone. apply Hnil in Hnone.
      rewrite formatMessagesForProvider_shape in Hnone.
      change (default [] (Some prompt)) with prompt in Hnone.
      rewrite (decide_False (P := trim prompt = [])) in Hnone by exact Hprompt.
      rewrite !Forall_app, Forall_singleton in Hnone.
      destruct Hnone as (_ & _ & [Hrole|Htext]); [done|].
      by apply Hprompt.
  - destruct (Hsend Hne) as [Hnot Hlen].
    split; [|split; [done|split]].
    + split; [done|]. intros Hall. by apply Hnil in Hall.
    + intros _. exact Hlen.
    + intros sys history prompt w0 Hprompt.
      destruct (Hrun (formatMessagesForProvider (Some sys) history (Some prompt))
                  w0) as [_ Hs]. apply Hs. clear Hs.
      intros Hnone. apply Hnil in Hnone.
      rewrite formatMessagesForProvider_shape in Hnone.
      change (default [] (Some prompt)) with prompt in Hnone.
      rewrite (decide_False (P := trim prompt = [])) in Hnone by exact Hprompt.
      rewrite !Forall_app, Forall_singleton in Hnone.
      destruct Hnone as (_ & _ & [Hrole|Htext]); [done|].
      by apply Hprompt.
Qed.

(** A system turn and a blank user turn: the no-message error, nothing sent.
    With the prompt [Hello] after them, a request goes out. *)
Lemma mistral_needs_a_message_witness :
  let turns := [mkTurn System (Some (js "Be brief")) None;
                mkTurn User (Some (js "  ")) None] in
  Mistral.generateTextWithMistral env_mistral (js "m-key") (InputTurns turns)
    initial_world
  = (Throw ErrMistralNoMessages, initial_world)
  /\ fst (Mistral.generateTextWithMistral env_mistral (js "m-key")
            (InputTurns (formatMessagesForProvider (Some (js "Be brief")) []
                           (Some (js "Hello")))) initial_world)
     <> Throw ErrMistralNoMessages.
Proof.
  intros turns.
  destruct (mistral_needs_a_message env_mistral (js "m-key") turns initial_world)
    as (Hiff & Hworld & _ & Hprompt).
  assert (fst (Mistral.generateTextWithMistral env_mistral (js "m-key")
                 (InputTurns turns) initial_world)
          = Throw ErrMistralNoMessages) as Hthrow.
  { apply (proj2 Hiff). unfold turns.
    apply Forall_cons. split; [by left|].
    apply Forall_cons. split; [right; vm_compute; reflexivity|].
    apply Forall_nil_2. }
  split.
  - specialize (Hworld Hthrow). revert Hthrow Hworld.
    destruct (Mistral.generateTextWithMistral _ _ _ _) as [r w']. simpl.
    by intros -> ->.
  - apply Hprompt. vm_compute. discriminate.
Defined.

(** ** What the provider receives *)

Lemma openai_text_log env apiKey turns w :
  exists rest,
    sent (snd (OpenAI.generateTextWithOpenAI env apiKey (InputTurns turns) w))
    = sent w ++ OpenAIChatCompletions OpenAI.primaryModel (OpenAI.to_chat turns)
               :: rest.
Proof.
  unfold OpenAI.generateTextWithOpenAI, bind. rewrite fetch_run.
  destruct (net env (length (sent w))) as [|r1]; cbv beta iota.
  { by exists []. }
  destruct (negb (ok r1) && includes OpenAI.retry_codes (status r1)).
  - rewrite fetch_run.
    destruct (net env _) as [|r2]; cbv beta iota.
    { eexists. simpl. by rewrite <-app_assoc. }
    unfold json, ret, throw.
    destruct (negb (ok r2)), (payload r2); eexists; simpl; by rewrite <-app_assoc.
  - unfold json, ret, throw.
    destruct (negb (ok r1)), (payload r1); by exists [].
Qed.

Lemma gemini_log env req w :
  sent (snd (Gemini.generateContent env req w)) = sent w ++ [req].
Proof.
  unfold Gemini.generateContent, bind. rewrite fetch_run.
  destruct (net env _) as [|r1]; cbv beta iota; [done|].
  unfold ret, throw. destruct (ok r1); [|done].
  by destruct (payload r1) as [[?|]|].
Qed.

Lemma handleJson_sent env body w s w1 :
  truthy (j_prompt body) = true ->
  j_endSession body && truthy (j_sessionId body) = false ->
  resolveSession env (j_sessionId body) (j_resetContext body) (j_system body) w
  = (Ok s, w1) ->
  sent (snd (handler env (ReqJson body) w))
  = sent (snd (dispatchText env
                 (formatMessagesForProvider (Some (systemPrompt s)) (messages s)
                    (j_prompt body))
                 (Yandex.mkOptions (j_modelName body) (j_modelUri body)) w1)).
Proof.
  intros Hprompt Hend Hs. rewrite handler_json.
  destruct (handleJson_exchange env body w Hprompt Hend)
    as (s0 & t & Hs0 & _ & ->). simpl in Hs0.
  rewrite Hs in Hs0. injection Hs0 as <- ->. simpl.
  destruct (dispatchText _ _ _ _) as [[[r0|generated]|e] w2]; simpl; try done.
  pose proof (persistTurns_sent env (j_sessionId body) s (j_prompt body)
                generated w2) as Hp.
  by destruct (persistTurns _ _ _ _ _ _) as [[s'|e] w3].
Qed.

(** X15. What a text request sends to the selected provider: the system
    prompt of the session (the stored one, or the request's [system] for a
    new session) as a system turn unless it is blank, then the stored history
    (none after [resetContext]), then the prompt as a user turn unless it is
    blank: a prompt of white space only passes validation and is then left
    out, so that a new session without system text sends an empty list.
    OpenAI gets them as its first request with the primary model, Yandex as
    its only request, to the model URI resolved from the request's options,
    Gemini as one call with the system turn as instruction. *)
Theorem provider_receives_history (env : Env) (body : JsonBody) (w : World)
    (Hprompt : truthy (j_prompt body) = true)
    (Hend : j_endSession body && truthy (j_sessionId body) = false) :
  let sp :=
    match loaded env (j_sessionId body) w with
    | Some s0 => systemPrompt s0
    | None => or_empty (j_system body)
    end in
  let turns :=
    (if decide (trim sp = []) then [] else [mkTurn System (Some sp) None])
    ++ working_messages env (j_sessionId body) (j_resetContext body) w
    ++ (if decide (trim (default [] (j_prompt body)) = []) then []
        else [mkTurn User (j_prompt body) None]) in
  let w' := snd (handler env (ReqJson body) w) in
  (provider env = js "openai" -> truthy (openaiApiKey env) = true ->
   exists rest,
     sent w' = sent w ++ OpenAIChatCompletions OpenAI.primaryModel
                           (OpenAI.to_chat turns) :: rest)
  /\ (provider env = js "yandex" -> truthy (yandexApiKey env) = true ->
      truthy (yandexFolderId env) = true ->
      sent w'
      = sent w ++ [YandexCompletion
                     (Yandex.resolveYandexOptions (default [] (yandexFolderId env))
                        (Some (Yandex.mkOptions (j_modelName body)
                                 (j_modelUri body))))
                     (Yandex.to_yandex turns)])
  /\ (provider env = js "gemini" -> truthy (geminiApiKey env) = true ->
      sent w'
      = sent w ++ [GeminiGenerateContent (fst (Gemini.prepare turns))
                     (Some (snd (Gemini.prepare turns))) None]).
Proof.
  cbv zeta.
  destruct (resolveSession_run env (j_sessionId body) (j_resetContext body)
              (j_system body) w) as (s & t & Hs & Hmsgs & Hsp).
  rewrite (handleJson_sent env body w s _ Hprompt Hend Hs).
  rewrite formatMessagesForProvider_shape, Hmsgs, Hsp.
  set (turns := _ ++ _ ++ _).
  destruct (dispatchText_routes env turns
              (Yandex.mkOptions (j_modelName body) (j_modelUri body)))
    as (Hopenai & Hgemini & Hyandex).
  split; [|split].
  - intros Hsel Hkey. rewrite (Hopenai Hsel Hkey).
    destruct (openai_text_log env (default [] (openaiApiKey env)) turns
                (mkWorld (store w) (sent w) t)) as (rest & Hlog).
    exists rest. simpl in Hlog. rewrite <-Hlog. unfold bind.
    by destruct (OpenAI.generateTextWithOpenAI _ _ _ _) as [[?|?] ?].
  - intros Hsel Hkey Hfolder. rewrite (Hyandex Hsel Hkey Hfolder).
    pose proof (yandex_text_log env (default [] (yandexApiKey env))
                  (default [] (yandexFolderId env)) (InputTurns turns)
                  (Some (Yandex.mkOptions (j_modelName body) (j_modelUri body)))
                  (mkWorld (store w) (sent w) t)) as Hlog.
    simpl in Hlog. rewrite <-Hlog. unfold bind.
    by destruct (Yandex.generateTextWithYandex _ _ _ _ _ _) as [[?|?] ?].
  - intros Hsel Hkey. rewrite (Hgemini Hsel Hkey).
    pose proof (gemini_log env
                  (GeminiGenerateContent (fst (Gemini.prepare turns))
                     (Some (snd (Gemini.prepare turns))) None)
                  (mkWorld (store w) (sent w) t)) as Hlog.
    unfold bind, Gemini.generateTextWithGemini.
    destruct (Gemini.generateContent _ _ _) as [[?|?] ?]; exact Hlog.
Qed.

(** A new session with a system text and the prompt [Hello], sent to Yandex;
    and a prompt of one space, sent to OpenAI as an empty list. *)
Lemma provider_receives_history_witness :
  let env := env_of (js "yandex") [NetResponse (ok_response (js "Hi!"))] in
  let body :=
    mkBody (Some (js "Hello")) (Some (js "Be brief")) (Some (js "s2")) false false
      None None in
  let env' := env_of (js "openai") [NetResponse (ok_response (js "Hi!"))] in
  let blank := mkBody (Some (js " ")) None None false false None None in
  sent (snd (handler env (ReqJson body) full_world))
  = [YandexCompletion (js "gpt://folder/yandexgpt-lite/latest")
       [mkYandex System (Some (js "Be brief")); mkYandex User (Some (js "Hello"))]]
  /\ exists rest,
       sent (snd (handler env' (ReqJson blank) initial_world))
       = OpenAIChatCompletions OpenAI.primaryModel [] :: rest.
Proof.
  intros env body env' blank. split.
  - destruct (provider_receives_history env body full_world eq_refl eq_refl)
      as (_ & Hyandex & _).
    apply (Hyandex eq_refl eq_refl eq_refl).
  - destruct (provider_receives_history env' blank initial_world eq_refl eq_refl)
      as (Hopenai & _).
    destruct (Hopenai eq_refl eq_refl) as (rest & Hsent).
    exists rest. exact Hsent.
Defined.

(** X16. With a history that holds no system turn, as every stored history
    does, the system prompt travels apart from the conversation: for Gemini
    it is the system instruction (none when blank) and the text block is the
    history and the prompt alone, one [User:] or [Assistant:] paragraph per
    turn; for Mistral it is the system prompt field (empty when blank) and no
    message comes from it. *)
Theorem system_prompt_travels_apart (sys : jsstring) (history : list Turn)
    (prompt : option jsstring)
    (Hhistory : Forall (fun t => role t <> System) history) :
  let turns := formatMessagesForProvider (Some sys) history prompt in
  let conversation :=
    history ++ (if decide (trim (default [] prompt) = []) then []
                else [mkTurn User prompt None]) in
  Gemini.prepare turns
  = (if decide (trim sys = []) then None else Some sys,
     join (newline ++ newline) (Gemini.line <$> conversation))
  /\ Mistral.prepare (InputTurns turns)
     = (if decide (trim sys = []) then [] else sys,
        filter (fun msg => trim (default [] (content msg)) <> [])
          (mistral_message <$> conversation)).
Proof.
  cbv zeta. rewrite formatMessagesForProvider_shape.
  set (tail := if decide (trim (default [] prompt) = []) then []
               else [mkTurn User prompt None]).
  assert (Forall (fun t => role t <> System) (history ++ tail)) as Hconv.
  { apply Forall_app. split; [done|]. unfold tail.
    destruct (decide _); [done|]. by repeat constructor. }
  assert (forall l : list Turn, Forall (fun t => role t <> System) l ->
            filter (fun m => role m = System) l = []
            /\ filter (fun m => role m <> System) l = l) as Hfilters.
  { intros l Hl. induction Hl as [|x l Hx _ [IH1 IH2]]; [done|].
    rewrite filter_cons_False, filter_cons_True by done. by rewrite IH1, IH2. }
  destruct (Hfilters _ Hconv) as [Hnone Hall].
  unfold Gemini.prepare, Mistral.prepare.
  destruct (decide (trim sys = [])) as [Hsys|Hsys].
  - simpl. rewrite Hnone, Hall. done.
  - rewrite <-!app_comm_cons. simpl app.
    rewrite !filter_cons_True, !filter_cons_False by (simpl; auto).
    rewrite Hnone, Hall. simpl.
    destruct sys as [|c sys]; [done|]. done.
Qed.

Lemma system_prompt_travels_apart_witness :
  let history := [mkTurn User (Some (js "q")) (Some 0);
                  mkTurn Assistant (Some (js "a")) (Some 0)] in
  fst (Gemini.prepare (formatMessagesForProvider (Some (js "Be brief")) history
                         (Some (js "Hello"))))
  = Some (js "Be brief")
  /\ snd (Mistral.prepare
            (InputTurns (formatMessagesForProvider (Some (js "Be brief")) history
                           (Some (js "Hello")))))
     = [mkChat User (Some (js "q")); mkChat Assistant (Some (js "a"));
        mkChat User (Some (js "Hello"))].
Proof.
  intros history.
  assert (Forall (fun t => role t <> System) history) as Hhistory
    by (repeat constructor; discriminate).
  destruct (system_prompt_travels_apart (js "Be brief") history
              (Some (js "Hello")) Hhistory) as (Hgemini & Hmistral).
  split.
  - rewrite Hgemini. reflexivity.
  - rewrite Hmistral. vm_compute. reflexivity.
Defined.

(** ** Trimming, over several exchanges *)



(** ** The text of a Mistral answer *)

Lemma join_empty_sep (parts : list jsstring) : join [] parts = concat parts.
Proof.
  induction parts as [|p [|q rest] IH]; [done| |].
  - simpl. by rewrite app_nil_r.
  - change (join [] (p :: q :: rest)) with (p ++ [] ++ join [] (q :: rest)).
    by rewrite IH.
Qed.

(** X18. [extractTextFromMessage] gives a string content as it is and
    nothing for a missing message or a content that is neither a string nor
    an array; of an array it gives the texts of the text parts, in order and
    with nothing between them: elements that are [null], of another type or
    without a string text add nothing, and the text of two arrays put end to
    end is the two texts put end to end. *)
Theorem extractTextFromMessage_parts :
  (forall s, MistralMessage.extractTextFromMessage
               (Some (MistralMessage.ContentString s)) = s)
  /\ MistralMessage.extractTextFromMessage None = []
  /\ MistralMessage.extractTextFromMessage (Some MistralMessage.ContentOther) = []
  /\ (forall parts1 parts2,
        MistralMessage.extractTextFromMessage
          (Some (MistralMessage.ContentParts (parts1 ++ parts2)))
        = MistralMessage.extractTextFromMessage
            (Some (MistralMessage.ContentParts parts1))
          ++ MistralMessage.extractTextFromMessage
               (Some (MistralMessage.ContentParts parts2)))
  /\ (forall t, MistralMessage.extractTextFromMessage
                  (Some (MistralMessage.ContentParts
                           [Some (MistralMessage.mkPart (Some (js "text")) (Some t))]))
                = t)
  /\ (forall part,
        (part = None
         \/ (exists p, part = Some p
                       /\ (MistralMessage.part_type p <> Some (js "text")
                           \/ MistralMessage.part_text p = None))) ->
        MistralMessage.extractTextFromMessage
          (Some (MistralMessage.ContentParts [part])) = []).
Proof.
  repeat split; try done.
  - intros parts1 parts2. unfold MistralMessage.extractTextFromMessage.
    rewrite !join_empty_sep, filter_app, fmap_app. apply concat_app.
  - intros part Hpart. unfold MistralMessage.extractTextFromMessage.
    rewrite filter_cons_False; [done|].
    destruct Hpart as [-> | (p & -> & Hp)]; simpl; [done|].
    destruct Hp as [Hp | Hp].
    + by rewrite (bool_decide_eq_false_2 _ Hp).
    + rewrite Hp. rewrite andb_false_r. done.
Qed.

Lemma extractTextFromMessage_parts_witness :
  MistralMessage.extractTextFromMessage
    (Some (MistralMessage.ContentParts
             [Some (MistralMessage.mkPart (Some (js "thinking")) (Some (js "hm")))]))
  = [].
Proof.
  destruct extractTextFromMessage_parts as (_ & _ & _ & _ & _ & Hskip).
  apply Hskip. right. eexists. split; [reflexivity|]. left. discriminate.
Defined.

(** ** Persistence and the provider call *)

Lemma openai_text_answered env apiKey input w t w' :
  OpenAI.generateTextWithOpenAI env apiKey input w = (Ok t, w') ->
  answered_ok env (length (sent w)) w'.
Proof.
  unfold OpenAI.generateTextWithOpenAI. intros H. run_cases; unfold answered_ok; answered.
Qed.

Lemma openai_text_thrown env apiKey input w e w' :
  OpenAI.generateTextWithOpenAI env apiKey input w = (Throw e, w') ->
  thrown_after_send e w w'.
Proof.
  unfold OpenAI.generateTextWithOpenAI. intros H. run_cases; unfold thrown_by_call, thrown_after_send; thrown.
Qed.

Lemma openai_audio_answered env apiKey input audio w res w' :
  OpenAI.generateTextWithOpenAIAndAudio env apiKey input audio w = (Ok res, w') ->
  answered_ok env (length (sent w)) w'.
Proof.
  unfold OpenAI.generateTextWithOpenAIAndAudio, OpenAI.transcribe, OpenAI.chat.
  intros H. run_cases; unfold answered_ok; answered.
Qed.

Lemma openai_audio_thrown env apiKey input audio w e w' :
  OpenAI.generateTextWithOpenAIAndAudio env apiKey input audio w = (Throw e, w') ->
  thrown_after_send e w w'.
Proof.
  unfold OpenAI.generateTextWithOpenAIAndAudio, OpenAI.transcribe, OpenAI.chat.
  intros H. run_cases; unfold thrown_by_call, thrown_after_send; thrown.
Qed.

Lemma yandex_text_answered env apiKey folderId input options w t w' :
  Yandex.generateTextWithYandex env apiKey folderId input options w = (Ok t, w') ->
  answered_ok env (length (sent w)) w'.
Proof.
  unfold Yandex.generateTextWithYandex. intros H. run_cases; unfold answered_ok; answered.
Qed.

Lemma yandex_text_thrown env apiKey folderId input options w e w' :
  Yandex.generateTextWithYandex env apiKey folderId input options w = (Throw e, w') ->
  thrown_after_send e w w'.
Proof.
  unfold Yandex.generateTextWithYandex. intros H. run_cases; unfold thrown_by_call, thrown_after_send; thrown.
Qed.

Lemma yandex_audio_answered env apiKey folderId input audio sttOpts w res w' :
  Yandex.generateTextWithYandexAndAudio env apiKey folderId input audio sttOpts w
  = (Ok res, w') ->
  answered_ok env (length (sent w)) w'.
Proof.
  unfold Yandex.generateTextWithYandexAndAudio, Yandex.transcribeWithYandexSTT,
    Yandex.generateTextWithYandex.
  intros H. run_cases; unfold answered_ok; answered.
Qed.

Lemma yandex_audio_thrown env apiKey folderId input audio sttOpts w e w' :
  Yandex.generateTextWithYandexAndAudio env apiKey folderId input audio sttOpts w
  = (Throw e, w') ->
  thrown_by_call e w w'.
Proof.
  unfold Yandex.generateTextWithYandexAndAudio, Yandex.transcribeWithYandexSTT,
    Yandex.generateTextWithYandex.
  intros H. run_cases; unfold thrown_by_call, thrown_after_send; thrown.
Qed.

Lemma gemini_answered env req w t w' :
  Gemini.generateContent env req w = (Ok t, w') ->
  answered_ok env (length (sent w)) w'.
Proof. unfold Gemini.generateContent. intros H. run_cases; unfold answered_ok; answered. Qed.

Lemma gemini_thrown env req w e w' :
  Gemini.generateContent env req w = (Throw e, w') -> thrown_after_send e w w'.
Proof. unfold Gemini.generateContent. intros H. run_cases; unfold thrown_by_call, thrown_after_send; thrown. Qed.

Lemma thrown_after_send_by_call e w w' :
  thrown_after_send e w w' -> thrown_by_call e w w'.
Proof. by destruct e. Qed.

(** The text switch: a text comes from an answered request, no text means
    that no branch was taken, and an error comes from a request sent. *)
Lemma dispatchText_continue env msgs options w text w2 :
  dispatchText env msgs options w = (Ok (Continue text), w2) ->
  match text with
  | Some _ => answered_ok env (length (sent w)) w2
  | None => provider env <> js "openai" /\ provider env <> js "gemini"
            /\ provider env <> js "yandex" /\ w2 = w
  end.
Proof.
  unfold dispatchText, Gemini.generateTextWithGemini. intros H.
  unfold bind at 1 2 3 in H. unfold ret in H.
  repeat case_match; simplify_eq;
    eauto using openai_text_answered, yandex_text_answered, gemini_answered.
  repeat split; by apply (bool_decide_eq_false_1 _).
Qed.

Lemma dispatchText_thrown env msgs options w e w2 :
  dispatchText env msgs options w = (Throw e, w2) -> thrown_after_send e w w2.
Proof.
  unfold dispatchText, Gemini.generateTextWithGemini. intros H.
  unfold bind at 1 2 3 in H. unfold ret in H.
  repeat case_match; simplify_eq;
    eauto using openai_text_thrown, yandex_text_thrown, gemini_thrown.
Qed.

Lemma dispatchAudio_continue env msgs audio audioFormat w text transcript w2 :
  dispatchAudio env msgs audio audioFormat w
  = (Ok (Continue (text, transcript)), w2) ->
  match text with
  | Some _ => answered_ok env (length (sent w)) w2
  | None => provider env <> js "openai" /\ provider env <> js "gemini"
            /\ provider env <> js "yandex" /\ w2 = w
  end.
Proof.
  unfold dispatchAudio, Gemini.generateTextWithGeminiAndAudio. intros H.
  unfold bind at 1 2 3 in H. unfold ret in H.
  repeat case_match; simplify_eq;
    eauto using openai_audio_answered, yandex_audio_answered, gemini_answered.
  repeat split; by apply (bool_decide_eq_false_1 _).
Qed.

Lemma dispatchAudio_thrown env msgs audio audioFormat w e w2 :
  dispatchAudio env msgs audio audioFormat w = (Throw e, w2) ->
  thrown_by_call e w w2 /\ (e = ErrURIMalformed -> provider env = js "yandex").
Proof.
  unfold dispatchAudio, Gemini.generateTextWithGeminiAndAudio. intros H.
  unfold bind at 1 2 3 in H. unfold ret in H.
  repeat case_match; simplify_eq;
    match goal with
    | Hrun : OpenAI.generateTextWithOpenAIAndAudio _ _ _ _ _ = _ |- _ =>
        apply openai_audio_thrown in Hrun;
        split; [by apply thrown_after_send_by_call | by intros ->]
    | Hrun : Gemini.generateContent _ _ _ = _ |- _ =>
        apply gemini_thrown in Hrun;
        split; [by apply thrown_after_send_by_call | by intros ->]
    | Hrun : Yandex.generateTextWithYandexAndAudio _ _ _ _ _ _ _ = _,
      Hsel : bool_decide (provider _ = js "yandex") = true |- _ =>
        apply yandex_audio_thrown in Hrun;
        split; [done | intros _; by apply bool_decide_eq_true_1 in Hsel]
    end.
Qed.


(** X25. When the request reaches the provider switch and the adapter throws
    (in the text pipeline or in the audio pipeline), the handler answers 500
    with that error and the store is the one the invocation started with:
    nothing was saved. *)
Theorem provider_failure_keeps_store (env : Env) (event : Request)
    (w : World) (e : Error) (w2 : World)
    (Hfail : provider_fails env event w e w2) :
  handler env event w = (RespError e, w2)
  /\ statusCode (fst (handler env event w)) = 500
  /\ store w2 = store w.
Proof.
  assert (handler env event w = (RespError e, w2)) as Hrun.
  { destruct event as [| |form| |body| |ct]; try done; simpl in Hfail.
    - destruct Hfail as (Hend & audioFile & s & w1 & Haudio & Hs & Hd).
      rewrite handler_multipart.
      destruct (handleMultipart_exchange env form audioFile w Haudio Hend)
        as (s0 & t & Hs0 & _ & ->). simpl in Hs0.
      rewrite Hs in Hs0. injection Hs0 as <- ->. by rewrite Hd.
    - destruct Hfail as (Hprompt & Hend & s & w1 & Hs & Hd).
      rewrite handler_json.
      destruct (handleJson_exchange env body w Hprompt Hend)
        as (s0 & t & Hs0 & _ & ->). simpl in Hs0.
      rewrite Hs in Hs0. injection Hs0 as <- ->. by rewrite Hd. }
  split; [done|]. rewrite Hrun. split; [done|].
  pose proof (error_response_keeps_store env event w) as Hkeep.
  rewrite Hrun in Hkeep. by apply Hkeep.
Qed.

(** OpenAI answers 500 to a text request on a stored session, and 500 to the
    transcription of an audio request on it: the handler gives the error and
    the store is as before. *)
Lemma provider_failure_keeps_store_witness :
  let env := env_of (js "openai") [NetResponse (error_response 500)] in
  let event := ReqJson (hello_request (Some (js "s1"))) in
  let e := ErrOpenAIChat 500 (js "error") in
  let w2 :=
    mkWorld (store full_world)
      [OpenAIChatCompletions OpenAI.primaryModel
         (OpenAI.to_chat (messages full_session
                          ++ [mkTurn User (Some (js "Hello")) None]))] 0 in
  let audio_event :=
    ReqMultipart (mkForm (Some (js "Hello")) None (Some (js "s1")) None None None
                    [(js "audio", [1%N; 2%N])]) in
  let audio_e := ErrOpenAITranscription 500 (js "error") in
  let audio_w2 :=
    mkWorld (store full_world)
      [OpenAIAudioTranscriptions OpenAI.primaryTranscribe [1%N; 2%N]] 0 in
  (provider_fails env event full_world e w2
   /\ handler env event full_world = (RespError e, w2)
   /\ store w2 !! js "s1" = Some full_session)
  /\ (provider_fails env audio_event full_world audio_e audio_w2
      /\ handler env audio_event full_world = (RespError audio_e, audio_w2)
      /\ store audio_w2 !! js "s1" = Some full_session).
Proof.
  intros env event e w2 audio_event audio_e audio_w2. split.
  - assert (provider_fails env event full_world e w2) as Hfail.
    { simpl. split; [reflexivity|]. split; [reflexivity|].
      eexists _, _. split; vm_compute; reflexivity. }
    split; [exact Hfail|].
    destruct (provider_failure_keeps_store env event full_world e w2 Hfail)
      as (Hrun & _ & Hstore).
    split; [exact Hrun|]. vm_compute. reflexivity.
  - assert (provider_fails env audio_event full_world audio_e audio_w2) as Hfail.
    { simpl. split; [reflexivity|].
      eexists _, _, _. split; [reflexivity|]. split; vm_compute; reflexivity. }
    split; [exact Hfail|].
    destruct (provider_failure_keeps_store env audio_event full_world audio_e
                audio_w2 Hfail) as (Hrun & _ & Hstore).
    split; [exact Hrun|]. vm_compute. reflexivity.
Defined.

(** X26. Under the three selectors the switch knows, the store is written
    only after a provider call succeeded: an invocation that leaves the store
    different from what it was either answered an end-session request, or
    answers with a success that carries a generated text and a session
    identifier, after sending at least one request, the last of which was
    answered with a success status. Every other outcome, every error among
    them, leaves the store as it was. *)
Theorem store_written_after_provider_success (env : Env) (event : Request)
    (w : World)
    (Hsel : provider env = js "openai" \/ provider env = js "gemini"
            \/ provider env = js "yandex")
    (Hwritten : store (snd (handler env event w)) <> store w) :
  let w' := snd (handler env event w) in
  (exists sessionId selector,
     fst (handler env event w) = RespEndSession sessionId selector)
  \/ (exists text selector transcript sessionId turns r,
        fst (handler env event w)
        = RespSuccess (Some text) selector transcript sessionId turns
        /\ truthy sessionId = true
        /\ (length (sent w) < length (sent w'))%nat
        /\ net env (pred (length (sent w'))) = NetResponse r
        /\ ok r = true).
Proof.
  cbv zeta. revert Hwritten.
  destruct event as [| |form| |body| |ct]; try done.
  - rewrite handler_multipart.
    destruct (head (filter (fun f => fst f = js "audio") (f_files form)))
      as [audioFile|] eqn:Haudio.
    2:{ unfold handleMultipart. rewrite Haudio. done. }
    destruct (bool_decide (f_endSession form = Some (js "true"))
              && truthy (f_sessionId form)) eqn:Hend.
    { rewrite (handleMultipart_end_session _ _ _ _ Haudio Hend).
      intros _. left. by eexists _, _. }
    destruct (handleMultipart_exchange env form audioFile w Haudio Hend)
      as (s & t & _ & _ & ->). simpl.
    pose proof (store_blind_keeps _ (mkWorld (store w) (sent w) t)
                  (blind_dispatchAudio env
                     (formatMessagesForProvider (Some (systemPrompt s))
                        (messages s) (f_prompt form))
                     (snd audioFile) (f_audioFormat form))) as Hkeep.
    destruct (dispatchAudio _ _ _ _ _) as [[[r0|[generated transcript]]|e] w2]
      eqn:Hd; simpl in Hkeep.
    + apply dispatchAudio_return in Hd as [[key ->] ->]. done.
    + apply dispatchAudio_continue in Hd. destruct generated as [text|].
      2:{ destruct Hd as (H1 & H2 & H3 & _). by destruct Hsel as [?|[?|?]]. }
      destruct (truthy (f_sessionId form)) eqn:Hid.
      2:{ rewrite persistTurns_skip by done. simpl. by rewrite Hkeep. }
      destruct (persistTurns_run env (f_sessionId form) s
                  (or_else transcript (f_prompt form)) (Some text) w2 Hid)
        as (s' & t1 & t2 & -> & _). simpl.
      intros _. right. destruct Hd as (Hlen & r & Hnet & Hok).
      eexists _, _, _, _, _, r. split; [reflexivity|]. done.
    + simpl. by rewrite Hkeep.
  - rewrite handler_json.
    destruct (truthy (j_prompt body)) eqn:Hprompt.
    2:{ unfold handleJson. rewrite Hprompt. done. }
    destruct (j_endSession body && truthy (j_sessionId body)) eqn:Hend.
    { rewrite (handleJson_end_session _ _ _ Hprompt Hend).
      intros _. left. by eexists _, _. }
    destruct (handleJson_exchange env body w Hprompt Hend)
      as (s & t & _ & _ & ->). simpl.
    pose proof (store_blind_keeps _ (mkWorld (store w) (sent w) t)
                  (blind_dispatchText env
                     (formatMessagesForProvider (Some (systemPrompt s))
                        (messages s) (j_prompt body))
                     (Yandex.mkOptions (j_modelName body) (j_modelUri body))))
      as Hkeep.
    destruct (dispatchText _ _ _ _) as [[[r0|generated]|e] w2] eqn:Hd;
      simpl in Hkeep.
    + apply dispatchText_return in Hd as [[key ->] ->]. done.
    + apply dispatchText_continue in Hd. destruct generated as [text|].
      2:{ destruct Hd as (H1 & H2 & H3 & _). by destruct Hsel as [?|[?|?]]. }
      destruct (truthy (j_sessionId body)) eqn:Hid.
      2:{ rewrite persistTurns_skip by done. simpl. by rewrite Hkeep. }
      destruct (persistTurns_run env (j_sessionId body) s (j_prompt body)
                  (Some text) w2 Hid) as (s' & t1 & t2 & -> & _). simpl.
      intros _. right. destruct Hd as (Hlen & r & Hnet & Hok).
      eexists _, _, _, _, _, r. split; [reflexivity|]. done.
    + simpl. by rewrite Hkeep.
Qed.

(** The first exchange of the session [s1]: the store changes, and the one
    request sent was answered 200. *)
Lemma store_written_after_provider_success_witness :
  let env := env_of (js "openai") [NetResponse (ok_response (js "Hi!"))] in
  let event := ReqJson (hello_request (Some (js "s1"))) in
  store (snd (handler env event initial_world)) <> store initial_world
  /\ exists r,
       net env (pred (length (sent (snd (handler env event initial_world)))))
       = NetResponse r
       /\ ok r = true.
Proof.
  intros env event.
  assert (store (snd (handler env event initial_world)) <> store initial_world)
    as Hwritten.
  { intros Heq.
    assert (store (snd (handler env event initial_world)) !! js "s1"
            = store initial_world !! js "s1") as Hlook by (by rewrite Heq).
    vm_compute in Hlook. discriminate Hlook. }
  split; [exact Hwritten|].
  destruct (store_written_after_provider_success env event initial_world
              (or_introl eq_refl) Hwritten) as [(sid & sel & Hend)|Hsuccess].
  - vm_compute in Hend. discriminate Hend.
  - destruct Hsuccess as (? & ? & ? & ? & ? & r & _ & _ & _ & Hnet & Hok).
    exists r. split; [exact Hnet | exact Hok].
Defined.

(** ** Which errors an invocation can answer with *)

(** X19. For a request whose fields are strings, the error an invocation
    answers with tells what failed. It is never an error of the store, nor
    one of the Mistral adapter. The missing-audio error is given only to a
    multipart body without an [audio] file, the missing-prompt error only to
    a JSON body without a prompt, the content-type error only to an
    unsupported content type, the parse error only to a body that could not
    be parsed, each with the world untouched. Every other error was thrown by
    the adapter of a request that had passed validation and reached the
    provider switch, after at least one request was sent; except the error of
    a URL that could not be built, which the Yandex audio adapter throws
    before sending anything. *)
Theorem error_taxonomy (env : Env) (event : Request) (w : World) (e : Error)
    (Herror : fst (handler env event w) = RespError e) :
  let w' := snd (handler env event w) in
  match e with
  | ErrStore | ErrMistralChat _ _ | ErrMistralNoMessages => False
  | ErrNoAudio =>
      w' = w
      /\ exists form, event = ReqMultipart form
                      /\ head (filter (fun f => fst f = js "audio") (f_files form))
                         = None
  | ErrNoPrompt =>
      w' = w
      /\ exists body, event = ReqJson body /\ truthy (j_prompt body) = false
  | ErrContentType contentType => w' = w /\ event = ReqUnsupported contentType
  | ErrParse =>
      w' = w /\ (event = ReqMultipartMalformed \/ event = ReqJsonMalformed)
  | ErrURIMalformed =>
      provider_fails env event w e w'
      /\ sent w' = sent w
      /\ provider env = js "yandex"
      /\ exists form, event = ReqMultipart form
  | _ =>
      provider_fails env event w e w'
      /\ (length (sent w) < length (sent w'))%nat
  end.
Proof.
  cbv zeta. revert Herror.
  destruct event as [| |form| |body| |ct]; try discriminate.
  - rewrite handler_multipart.
    destruct (head (filter (fun f => fst f = js "audio") (f_files form)))
      as [audioFile|] eqn:Haudio.
    2:{ unfold handleMultipart. rewrite Haudio. intros [= <-]. eauto. }
    destruct (bool_decide (f_endSession form = Some (js "true"))
              && truthy (f_sessionId form)) eqn:Hend.
    { rewrite (handleMultipart_end_session _ _ _ _ Haudio Hend). discriminate. }
    destruct (handleMultipart_exchange env form audioFile w Haudio Hend)
      as (s & t & Hs & _ & ->). simpl in Hs. simpl.
    destruct (dispatchAudio _ _ _ _ _) as [[[r0|[generated transcript]]|e0] w2]
      eqn:Hd.
    + apply dispatchAudio_return in Hd as [[key ->] _]. discriminate.
    + destruct (persistTurns_total env (f_sessionId form) s
                  (or_else transcript (f_prompt form)) generated w2)
        as (s' & w3 & ->). discriminate.
    + intros [= <-]. simpl.
      assert (provider_fails env (ReqMultipart form) w e0 w2) as Hfail.
      { simpl. split; [exact Hend|]. eexists audioFile, s, _.
        split; [exact Haudio|]. split; [exact Hs | exact Hd]. }
      apply dispatchAudio_thrown in Hd as [Hth Huri].
      destruct e0; simpl in Hth; try done; try (split; [exact Hfail | exact Hth]).
      subst w2. split; [exact Hfail|]. split; [done|]. split; [by apply Huri|].
      by eexists.
  - intros [= <-]. auto.
  - rewrite handler_json.
    destruct (truthy (j_prompt body)) eqn:Hprompt.
    2:{ unfold handleJson. rewrite Hprompt. intros [= <-]. eauto. }
    destruct (j_endSession body && truthy (j_sessionId body)) eqn:Hend.
    { rewrite (handleJson_end_session _ _ _ Hprompt Hend). discriminate. }
    destruct (handleJson_exchange env body w Hprompt Hend)
      as (s & t & Hs & _ & ->). simpl in Hs. simpl.
    destruct (dispatchText _ _ _ _) as [[[r0|generated]|e0] w2] eqn:Hd.
    + apply dispatchText_return in Hd as [[key ->] _]. discriminate.
    + destruct (persistTurns_total env (j_sessionId body) s (j_prompt body)
                  generated w2) as (s' & w3 & ->). discriminate.
    + intros [= <-]. simpl.
      assert (provider_fails env (ReqJson body) w e0 w2) as Hfail.
      { simpl. split; [exact Hprompt|]. split; [exact Hend|]. eexists s, _.
        split; [exact Hs | exact Hd]. }
      apply dispatchText_thrown in Hd as Hth.
      destruct e0; simpl in Hth; try done; (split; [exact Hfail | exact Hth]).
  - intros [= <-]. auto.
  - intros [= <-]. done.
Qed.

(** With the store unreachable and OpenAI answering 503, the error is the
    provider's, thrown after the one request; a JSON body without a prompt
    gets the missing-prompt error and nothing else happens. *)
Lemma error_taxonomy_witness :
  let env := store_down (env_of (js "openai") [NetResponse (error_response 503)]) in
  let event := ReqJson (hello_request (Some (js "s1"))) in
  (fst (handler env event full_world) = RespError (ErrOpenAIChat 503 (js "error"))
   /\ (length (sent full_world)
       < length (sent (snd (handler env event full_world))))%nat)
  /\ (fst (handler env (ReqJson end_session_body) full_world)
      = RespError ErrNoPrompt
      /\ snd (handler env (ReqJson end_session_body) full_world) = full_world).
Proof.
  intros env event. split.
  - assert (fst (handler env event full_world)
            = RespError (ErrOpenAIChat 503 (js "error"))) as Herror
      by (vm_compute; reflexivity).
    split; [exact Herror|].
    apply (error_taxonomy env event full_world _ Herror).
  - assert (fst (handler env (ReqJson end_session_body) full_world)
            = RespError ErrNoPrompt) as Herror by (vm_compute; reflexivity).
    split; [exact Herror|].
    apply (error_taxonomy env (ReqJson end_session_body) full_world _ Herror).
Defined.

(** ** Parsing the multipart body *)

Lemma parse_fold (parts : list FormPart) (result : ParsedForm) :
  files (foldl on_part result parts) = files result ++ file_parts parts
  /\ forall name,
       fields (foldl on_part result parts) !! name
       = match last (field_values name parts) with
         | Some v => Some v
         | None => fields result !! name
         end.
Proof.
  revert result. induction parts as [|part parts IH]; intros result.
  - simpl. by rewrite app_nil_r.
  - simpl foldl. destruct (IH (on_part result part)) as [Hfiles Hfields].
    split.
    + rewrite Hfiles. destruct part as [fieldname val|fieldname chunks]; simpl.
      * done.
      * by rewrite <-app_assoc.
    + intros name. rewrite Hfields.
      destruct part as [fieldname val|fieldname chunks]; simpl; [|done].
      destruct (decide (fieldname = name)) as [->|Hne].
      * rewrite last_cons. destruct (last _); [done|].
        by rewrite lookup_insert_eq.
      * destruct (last _); [done|]. by rewrite lookup_insert_ne.
Qed.

Lemma parsed_field (parts : list FormPart) (name : jsstring) :
  fields (parseMultipartForm parts) !! name = last (field_values name parts).
Proof.
  unfold parseMultipartForm.
  destruct (parse_fold parts (mkParsed [] ∅)) as [_ Hfields].
  rewrite Hfields. simpl. rewrite lookup_empty. by destruct (last _).
Qed.

Lemma parsed_files (parts : list FormPart) :
  files (parseMultipartForm parts) = file_parts parts.
Proof.
  unfold parseMultipartForm.
  by destruct (parse_fold parts (mkParsed [] ∅)) as [-> _].
Qed.

Lemma no_audio_file (parts : list FormPart) :
  (forall chunks, FilePart (js "audio") chunks ∉ parts) ->
  filter (fun f => fst f = js "audio") (file_parts parts) = [].
Proof.
  induction parts as [|part parts IH]; intros Hno; [done|].
  assert (forall chunks, FilePart (js "audio") chunks ∉ parts) as Hrest.
  { intros chunks Hin. apply (Hno chunks). by right. }
  destruct part as [fieldname val|fieldname chunks]; simpl.
  - by apply IH.
  - rewrite filter_cons_False; [by apply IH|].
    simpl. intros ->. apply (Hno chunks). by left.
Qed.

(** X20. Parsing a multipart body keeps the files in the order of the body,
    each with its chunks joined, and for each field the handler reads the
    last value sent under that name. So the audio the handler uses is the
    first file part named [audio], whatever other parts come before or
    after; and a body with no such file part is refused with the
    missing-audio error even when it has a field named [audio]. *)
Theorem multipart_parsing (parts : list FormPart) :
  let form := form_of_parsed (parseMultipartForm parts) in
  f_files form = file_parts parts
  /\ f_prompt form = last (field_values (js "prompt") parts)
  /\ f_system form = last (field_values (js "system") parts)
  /\ f_sessionId form = last (field_values (js "sessionId") parts)
  /\ f_endSession form = last (field_values (js "endSession") parts)
  /\ f_resetContext form = last (field_values (js "resetContext") parts)
  /\ f_audioFormat form = last (field_values (js "audioFormat") parts)
  /\ (forall pre chunks rest,
        parts = pre ++ FilePart (js "audio") chunks :: rest ->
        (forall c, FilePart (js "audio") c ∉ pre) ->
        head (filter (fun f => fst f = js "audio") (f_files form))
        = Some (js "audio", concat chunks))
  /\ ((forall chunks, FilePart (js "audio") chunks ∉ parts) ->
      forall env w,
        handler env (ReqMultipart form) w = (RespError ErrNoAudio, w)).
Proof.
  cbv zeta. unfold form_of_parsed. cbn [f_files f_prompt f_system f_sessionId
    f_endSession f_resetContext f_audioFormat].
  rewrite !parsed_field, parsed_files.
  repeat split.
  - intros pre chunks rest -> Hpre. unfold file_parts.
    rewrite omap_app, filter_app. fold (file_parts pre).
    rewrite (no_audio_file pre Hpre), app_nil_l.
    change (omap _ (FilePart (js "audio") chunks :: rest))
      with ((js "audio", concat chunks) :: file_parts rest).
    by rewrite filter_cons_True.
  - intros Hno env w. rewrite handler_multipart. unfold handleMultipart.
    cbn [f_files]. rewrite (no_audio_file parts Hno). done.
Qed.

Lemma multipart_parsing_witness :
  let parts := [FieldPart (js "audio") (js "not a file");
                FieldPart (js "prompt") (js "first");
                FilePart (js "audio") [[1%N]; [2%N]];
                FieldPart (js "prompt") (js "second");
                FilePart (js "audio") [[3%N]]] in
  let form := form_of_parsed (parseMultipartForm parts) in
  f_prompt form = Some (js "second")
  /\ head (filter (fun f => fst f = js "audio") (f_files form))
     = Some (js "audio", [1%N; 2%N]).
Proof.
  intros parts form.
  destruct (multipart_parsing parts) as (_ & Hprompt & _ & _ & _ & _ & _ & Hfirst & _).
  split.
  - unfold form. rewrite Hprompt. reflexivity.
  - apply (Hfirst [FieldPart (js "audio") (js "not a file");
                   FieldPart (js "prompt") (js "first")]
             [[1%N]; [2%N]]
             [FieldPart (js "prompt") (js "second"); FilePart (js "audio") [[3%N]]]).
    + reflexivity.
    + intros c Hin. rewrite !elem_of_cons, elem_of_nil in Hin.
      destruct Hin as [Hin|[Hin|[]]]; discriminate Hin.
Defined.

(** ** The requests the bridge builds *)

(** X21. [sendText] builds a request exactly when the text to send (the
    prompt of the state, or the Storyline answer variable when the prompt is
    empty) is not blank. The body then carries that text, so it passes the
    handler's prompt check and the list for the provider ends with it as a
    user turn; it carries the state's system text, flags and model options,
    and the session identifier unless it is empty. With [endSession] set and
    a session identifier, the handler answers such a body by ending the
    session, whatever the provider. *)
Theorem sendText_request (state : Bridge.State)
    (userResponse : option jsstring) :
  let effective :=
    if decide (Bridge.prompt state = []) then default [] userResponse
    else Bridge.prompt state in
  (Bridge.sendText_body state userResponse = None <-> trim effective = [])
  /\ forall body,
       Bridge.sendText_body state userResponse = Some body ->
       body
       = mkBody (Some effective) (Some (Bridge.system state))
           (if decide (Bridge.sessionId state = []) then None
            else Some (Bridge.sessionId state))
           (Bridge.endSession state) (Bridge.resetContext state)
           (Bridge.modelName state) (Bridge.modelUri state)
       /\ truthy (j_prompt body) = true
       /\ (forall sys history,
             exists before,
               formatMessagesForProvider (Some sys) history (j_prompt body)
               = before ++ [mkTurn User (Some effective) None])
       /\ (Bridge.endSession state = true -> Bridge.sessionId state <> [] ->
           forall env w,
             exists w',
               handler env (ReqJson body) w
               = (RespEndSession (Some (Bridge.sessionId state)) (provider env), w')
               /\ sent w' = sent w).
Proof.
  cbv zeta. unfold Bridge.sendText_body.
  set (effective := if decide (Bridge.prompt state = []) then default [] userResponse
                    else Bridge.prompt state).
  assert ((if negb (truthy (Some (Bridge.prompt state)))
           then match userResponse with
                | Some ur => ur
                | None => Bridge.prompt state
                end
           else Bridge.prompt state) = effective) as ->.
  { unfold effective. destruct (Bridge.prompt state) as [|c p] eqn:Hp; [|done].
    simpl. by destruct userResponse. }
  assert (negb (truthy (Some effective)) || negb (truthy (Some (trim effective)))
          = bool_decide (trim effective = [])) as ->.
  { pose proof (nonblank_trim effective) as Hnb. unfold nonblank in Hnb.
    rewrite <-negb_andb, Hnb. by rewrite negb_involutive. }
  split.
  - destruct (decide (trim effective = [])) as [Hblank|Hblank].
    + by rewrite (bool_decide_eq_true_2 _ Hblank).
    + rewrite (bool_decide_eq_false_2 _ Hblank). split; [discriminate | done].
  - intros body. destruct (decide (trim effective = [])) as [Hblank|Hblank].
    { by rewrite (bool_decide_eq_true_2 _ Hblank). }
    rewrite (bool_decide_eq_false_2 _ Hblank). intros [= <-].
    assert (truthy (Some effective) = true) as Htruthy.
    { destruct effective; [done|done]. }
    split; [|split; [|split]].
    + f_equal. by destruct (Bridge.sessionId state).
    + exact Htruthy.
    + intros sys history. rewrite formatMessagesForProvider_shape.
      cbn [j_prompt]. change (default [] (Some effective)) with effective.
      rewrite (decide_False (P := trim effective = [])) by exact Hblank.
      eexists. by rewrite app_assoc.
    + intros Hend Hid env w. rewrite handler_json.
      destruct (Bridge.sessionId state) as [|c sid]; [done|].
      rewrite handleJson_end_session; cbn [j_prompt j_endSession j_sessionId];
        rewrite ?Hend; try done.
      eexists. split; [reflexivity|]. by destruct (blobs_delete_ok env _).
Qed.

Lemma sendText_request_witness :
  let state :=
    Bridge.mkState [] (js "Be brief") (js "s1") false true (js "webm") None None in
  Bridge.sendText_body state None = None
  /\ exists body w',
       Bridge.sendText_body state (Some (js "bye")) = Some body
       /\ handler env_mistral (ReqJson body) full_world
          = (RespEndSession (Some (js "s1")) (js "mistral"), w').
Proof.
  intros state.
  destruct (sendText_request state None) as (Hnone & _).
  split; [apply Hnone; reflexivity|].
  destruct (sendText_request state (Some (js "bye"))) as (_ & Hbody).
  destruct (Hbody _ eq_refl) as (_ & _ & _ & Hend).
  destruct (Hend eq_refl ltac:(discriminate) env_mistral full_world)
    as (w' & Hrun & _).
  eexists _, w'. split; [reflexivity | exact Hrun].
Defined.

Lemma sendAudio_form (state : Bridge.State) (blob : list N) :
  exists parts,
    Bridge.sendAudio_parts state (Some blob) = Some parts
    /\ form_of_parsed (parseMultipartForm parts)
       = mkForm (Some (Bridge.prompt state)) (Some (Bridge.system state))
           (if decide (Bridge.sessionId state = []) then None
            else Some (Bridge.sessionId state))
           (if Bridge.endSession state then Some (js "true") else None)
           (if Bridge.resetContext state then Some (js "true") else None)
           (if decide (Bridge.audioFormat state = []) then None
            else Some (Bridge.audioFormat state))
           [(js "audio", blob)].
Proof.
  eexists. split; [reflexivity|].
  unfold form_of_parsed. rewrite !parsed_field, parsed_files.
  replace [(js "audio", blob)] with [(js "audio", concat [blob])]
    by (simpl; by rewrite app_nil_r).
  destruct state as [p sy sid reset ends fmt mn mu].
  destruct sid as [|c1 sid], ends, reset, fmt as [|c2 fmt],
    mn as [[|c3 mn]|], mu as [[|c4 mu]|];
    vm_compute; reflexivity.
Qed.

(** What the parser reports of entries that were carried to it. *)
Lemma carried_parts wire (parts reported : list FormPart) :
  Forall2 (carried wire) parts reported ->
  file_parts reported = file_parts parts
  /\ forall name, field_values name reported = wire <$> field_values name parts.
Proof.
  induction 1 as [|part part' parts reported Hpart _ [IHfiles IHfields]];
    [done|].
  destruct Hpart as [fieldname val|fieldname chunks chunks' Hchunks]; simpl.
  - split; [exact IHfiles|]. intros name.
    destruct (decide (fieldname = name)); simpl; by rewrite IHfields.
  - split; [by rewrite Hchunks, IHfiles | exact IHfields].
Qed.

Lemma carried_form wire (parts reported : list FormPart) :
  Forall2 (carried wire) parts reported ->
  let sent_form := form_of_parsed (parseMultipartForm parts) in
  form_of_parsed (parseMultipartForm reported)
  = mkForm (wire <$> f_prompt sent_form) (wire <$> f_system sent_form)
      (wire <$> f_sessionId sent_form) (wire <$> f_endSession sent_form)
      (wire <$> f_resetContext sent_form) (wire <$> f_audioFormat sent_form)
      (f_files sent_form).
Proof.
  intros Hcarried. apply carried_parts in Hcarried as [Hfiles Hfields].
  cbv zeta. unfold form_of_parsed.
  cbn [f_files f_prompt f_system f_sessionId f_endSession f_resetContext
       f_audioFormat].
  rewrite !parsed_field, !parsed_files, !Hfields, !fmap_last, Hfiles. done.
Qed.

Lemma crlf_nonempty (v : jsstring) : v <> [] -> crlf v <> [].
Proof.
  destruct v as [|c v]; [done|]. intros _. simpl.
  destruct (c =? 13)%N; [by destruct v as [|d v]; [|destruct (d =? 10)%N]|].
  by destruct (c =? 10)%N.
Qed.

(** X22. [sendAudio] builds a request only when there is a recording. The
    handler reads its fields as the transport delivers them: whatever the
    transport does to a field value, as long as it keeps the text [true] and
    does not empty a value, the parsed form has the recording as its one
    file, named [audio], so it passes the audio check; it has the prompt and
    the system text as delivered (with their line breaks rewritten, say),
    the session identifier unless it was empty, and the two flags the
    handler reads back as set in the state. The model overrides the bridge
    adds change nothing in what the handler reads. With [endSession] set and
    a session identifier the handler answers by ending the session it was
    delivered. *)
Theorem sendAudio_request (state : Bridge.State) (blob : list N)
    (wire : jsstring -> jsstring) (parts reported : list FormPart)
    (Hparts : Bridge.sendAudio_parts state (Some blob) = Some parts)
    (Hcarried : Forall2 (carried wire) parts reported)
    (Htrue : wire (js "true") = js "true")
    (Hnonempty : forall v, v <> [] -> wire v <> []) :
  Bridge.sendAudio_parts state None = None
  /\ let form := form_of_parsed (parseMultipartForm reported) in
     head (filter (fun f => fst f = js "audio") (f_files form))
     = Some (js "audio", blob)
     /\ f_files form = [(js "audio", blob)]
     /\ f_prompt form = Some (wire (Bridge.prompt state))
     /\ f_system form = Some (wire (Bridge.system state))
     /\ f_sessionId form
        = (if decide (Bridge.sessionId state = []) then None
           else Some (wire (Bridge.sessionId state)))
     /\ truthy (f_sessionId form) = negb (bool_decide (Bridge.sessionId state = []))
     /\ bool_decide (f_endSession form = Some (js "true"))
        = Bridge.endSession state
     /\ bool_decide (f_resetContext form = Some (js "true"))
        = Bridge.resetContext state
     /\ (forall modelName modelUri parts' reported',
           Bridge.sendAudio_parts
             (Bridge.mkState (Bridge.prompt state) (Bridge.system state)
                (Bridge.sessionId state) (Bridge.resetContext state)
                (Bridge.endSession state) (Bridge.audioFormat state)
                modelName modelUri) (Some blob) = Some parts' ->
           Forall2 (carried wire) parts' reported' ->
           form_of_parsed (parseMultipartForm reported') = form)
     /\ (Bridge.endSession state = true -> Bridge.sessionId state <> [] ->
         forall env w,
           exists w',
             handler env (ReqMultipart form) w
             = (RespEndSession (Some (wire (Bridge.sessionId state)))
                  (provider env), w')
             /\ sent w' = sent w).
Proof.
  split; [reflexivity|].
  assert (Hform : forall st ps rs,
            Bridge.sendAudio_parts st (Some blob) = Some ps ->
            Forall2 (carried wire) ps rs ->
            form_of_parsed (parseMultipartForm rs)
            = mkForm (Some (wire (Bridge.prompt st))) (Some (wire (Bridge.system st)))
                (if decide (Bridge.sessionId st = []) then None
                 else Some (wire (Bridge.sessionId st)))
                (if Bridge.endSession st then Some (js "true") else None)
                (if Bridge.resetContext st then Some (js "true") else None)
                (if decide (Bridge.audioFormat st = []) then None
                 else Some (wire (Bridge.audioFormat st)))
                [(js "audio", blob)]).
  { intros st ps rs Hps Hrs.
    destruct (sendAudio_form st blob) as (ps0 & Hps0 & Hsent).
    rewrite Hps in Hps0. injection Hps0 as <-.
    rewrite (carried_form wire ps rs Hrs), Hsent.
    cbn [f_files f_prompt f_system f_sessionId f_endSession f_resetContext
         f_audioFormat].
    destruct (decide (Bridge.sessionId st = [])),
      (decide (Bridge.audioFormat st = [])),
      (Bridge.endSession st), (Bridge.resetContext st); simpl;
      by rewrite ?Htrue. }
  cbv zeta. rewrite (Hform state parts reported Hparts Hcarried).
  cbn [f_files f_prompt f_system f_sessionId f_endSession f_resetContext].
  split; [by rewrite filter_cons_True|].
  split; [done|]. split; [done|]. split; [done|]. split; [done|].
  split.
  { destruct (decide (Bridge.sessionId state = [])) as [Hid|Hid].
    - by rewrite (bool_decide_eq_true_2 _ Hid).
    - rewrite (bool_decide_eq_false_2 _ Hid). simpl.
      specialize (Hnonempty _ Hid). by destruct (wire (Bridge.sessionId state)). }
  split; [by destruct (Bridge.endSession state)|].
  split; [by destruct (Bridge.resetContext state)|].
  split.
  - intros modelName modelUri parts' reported' Hparts' Hcarried'.
    by rewrite (Hform _ parts' reported' Hparts' Hcarried').
  - intros Hend Hid env w. rewrite handler_multipart.
    rewrite (handleMultipart_end_session env _ (js "audio", blob) w).
    + rewrite Hend. destruct (decide (Bridge.sessionId state = [])); [done|].
      eexists. split; [reflexivity|]. simpl. by destruct (blobs_delete_ok env _).
    + cbn [f_files]. by rewrite filter_cons_True.
    + cbn [f_endSession f_sessionId]. rewrite Hend.
      destruct (decide (Bridge.sessionId state = [])) as [|_]; [done|].
      specialize (Hnonempty _ Hid). by destruct (wire (Bridge.sessionId state)).
Qed.

(** A prompt of two lines, carried with its line feed rewritten as CR LF and
    the recording cut in two chunks: the handler reads the rewritten prompt
    and the whole recording. *)
Lemma sendAudio_request_witness :
  let reported :=
    [FieldPart (js "prompt") [97%N; 13%N; 10%N; 98%N];
     FieldPart (js "system") (js "Be brief");
     FieldPart (js "sessionId") (js "s1");
     FieldPart (js "endSession") (js "true");
     FieldPart (js "audioFormat") (js "webm");
     FilePart (js "audio") [[1%N]; [2%N]]] in
  let form := form_of_parsed (parseMultipartForm reported) in
  f_prompt form = Some [97%N; 13%N; 10%N; 98%N]
  /\ f_files form = [(js "audio", [1%N; 2%N])]
  /\ bool_decide (f_endSession form = Some (js "true")) = true.
Proof.
  intros reported form.
  assert (exists parts,
            Bridge.sendAudio_parts state_two_lines (Some [1%N; 2%N]) = Some parts
            /\ Forall2 (carried crlf) parts reported) as (parts & Hparts & Hcarried).
  { eexists. split; [reflexivity|].
    repeat (apply Forall2_cons; split;
            [first [apply (carried_field crlf) | by apply carried_file]|]).
    apply Forall2_nil_2. }
  destruct (sendAudio_request state_two_lines [1%N; 2%N] crlf parts reported
              Hparts Hcarried eq_refl crlf_nonempty)
    as (_ & _ & Hfiles & Hprompt & _ & _ & _ & Hend & _).
  split; [exact Hprompt|]. split; [exact Hfiles | exact Hend].
Defined.

(** ** One session per request *)

Lemma response_echo env event w :
  match fst (handler env event w) with
  | RespSuccess _ selector _ sessionId _ =>
      sessionId = request_session event /\ selector = provider env
  | RespEndSession sessionId selector =>
      sessionId = request_session event /\ selector = provider env
  | _ => True
  end.
Proof.
  destruct event as [| |form| |body| |ct]; try done.
  - rewrite handler_multipart.
    destruct (head (filter (fun f => fst f = js "audio") (f_files form)))
      as [audioFile|] eqn:Haudio.
    2:{ unfold handleMultipart. by rewrite Haudio. }
    destruct (bool_decide (f_endSession form = Some (js "true"))
              && truthy (f_sessionId form)) eqn:Hend.
    { by rewrite (handleMultipart_end_session _ _ _ _ Haudio Hend). }
    destruct (handleMultipart_exchange env form audioFile w Haudio Hend)
      as (s & t & _ & _ & ->). simpl.
    destruct (dispatchAudio _ _ _ _ _) as [[[r0|[generated transcript]]|e] w2]
      eqn:Hd; [| |done].
    + apply dispatchAudio_return in Hd as [[key ->] _]. done.
    + destruct (persistTurns_total env (f_sessionId form) s
                  (or_else transcript (f_prompt form)) generated w2)
        as (s' & w3 & ->). done.
  - rewrite handler_json.
    destruct (truthy (j_prompt body)) eqn:Hprompt.
    2:{ unfold handleJson. by rewrite Hprompt. }
    destruct (j_endSession body && truthy (j_sessionId body)) eqn:Hend.
    { by rewrite (handleJson_end_session _ _ _ Hprompt Hend). }
    destruct (handleJson_exchange env body w Hprompt Hend)
      as (s & t & _ & _ & ->). simpl.
    destruct (dispatchText _ _ _ _) as [[[r0|generated]|e] w2] eqn:Hd;
      [| |done].
    + apply dispatchText_return in Hd as [[key ->] _]. done.
    + destruct (persistTurns_total env (j_sessionId body) s (j_prompt body)
                  generated w2) as (s' & w3 & ->). done.
Qed.

(** X23. An invocation can change the stored session of the identifier its
    request carries and no other: every other key of the store reads as
    before. A success or end-session response names that identifier and the
    selector of the deployment. *)
Theorem session_isolation (env : Env) (event : Request) (w : World) :
  (forall key, key <> default [] (request_session event) ->
     store (snd (handler env event w)) !! key = store w !! key)
  /\ (forall generated selector transcript sessionId turns,
        fst (handler env event w)
        = RespSuccess generated selector transcript sessionId turns ->
        sessionId = request_session event /\ selector = provider env)
  /\ (forall sessionId selector,
        fst (handler env event w) = RespEndSession sessionId selector ->
        sessionId = request_session event /\ selector = provider env).
Proof.
  pose proof (response_echo env event w) as Hecho.
  split; [|split].
  - intros key Hkey.
    destruct (handler env event w) as [r w'] eqn:Hrun.
    apply handler_outcome in Hrun. simpl in *.
    destruct r as [| | |sid p|g p tr sid n|e]; simpl in Hrun;
      try (by rewrite Hrun).
    + destruct Hecho as [-> _]. rewrite Hrun.
      destruct (blobs_delete_ok env _); [|done]. by rewrite lookup_delete_ne.
    + destruct Hecho as [-> _].
      destruct (truthy (request_session event)); [|by rewrite Hrun].
      destruct Hrun as (reset & s' & u & t1 & t2 & _ & _ & ->).
      destruct (blobs_set_ok env _); [|done]. by rewrite lookup_insert_ne.
  - intros g p tr sid n Hr. by rewrite Hr in Hecho.
  - intros sid p Hr. by rewrite Hr in Hecho.
Qed.

Lemma session_isolation_witness :
  let env := env_of (js "openai") [NetResponse (ok_response (js "Hi!"))] in
  let event := ReqJson (hello_request (Some (js "s2"))) in
  store (snd (handler env event full_world)) !! js "s1" = Some full_session.
Proof.
  intros env event.
  destruct (session_isolation env event full_world) as (Hother & _).
  rewrite (Hother (js "s1")); [reflexivity | discriminate].
Defined.

(** ** Where the audio goes *)

Lemma handleMultipart_sent env form audioFile w s w1 :
  head (filter (fun f => fst f = js "audio") (f_files form)) = Some audioFile ->
  bool_decide (f_endSession form = Some (js "true")) && truthy (f_sessionId form)
  = false ->
  resolveSession env (f_sessionId form)
    (bool_decide (f_resetContext form = Some (js "true"))) (f_system form) w
  = (Ok s, w1) ->
  sent (snd (handler env (ReqMultipart form) w))
  = sent (snd (dispatchAudio env
                 (formatMessagesForProvider (Some (systemPrompt s)) (messages s)
                    (f_prompt form))
                 (snd audioFile) (f_audioFormat form) w1)).
Proof.
  intros Haudio Hend Hs. rewrite handler_multipart.
  destruct (handleMultipart_exchange env form audioFile w Haudio Hend)
    as (s0 & t & Hs0 & _ & ->). simpl in Hs0.
  rewrite Hs in Hs0. injection Hs0 as <- ->. simpl.
  destruct (dispatchAudio _ _ _ _ _) as [[[r0|[generated transcript]]|e] w2];
    simpl; try done.
  pose proof (persistTurns_sent env (f_sessionId form) s
                (or_else transcript (f_prompt form)) generated w2) as Hp.
  by destruct (persistTurns _ _ _ _ _ _) as [[s'|e] w3].
Qed.

(** X24. Where the audio of a multipart request goes first: with OpenAI, to
    the transcription endpoint with the primary transcription model; with
    Yandex, to speech recognition with the language [ru-RU], the sample rate
    48000 and the format of the [audioFormat] field, [oggopus] when that is
    absent or empty (and when that format is not a well-formed string the
    URL cannot be built: nothing is sent and the answer is that error); with
    Gemini, inline in the one generation call, with no transcription at all.
    It is the content of the first file part named [audio]. *)
Theorem audio_first_request (env : Env) (form : MultipartForm) (w : World)
    (audio : list N)
    (Haudio : request_audio form = Some audio)
    (Hend : bool_decide (f_endSession form = Some (js "true"))
            && truthy (f_sessionId form) = false) :
  let w' := snd (handler env (ReqMultipart form) w) in
  (provider env = js "openai" -> truthy (openaiApiKey env) = true ->
   exists rest,
     sent w' = sent w ++ OpenAIAudioTranscriptions OpenAI.primaryTranscribe audio
                         :: rest)
  /\ (provider env = js "yandex" -> truthy (yandexApiKey env) = true ->
      truthy (yandexFolderId env) = true ->
      let format := if truthy (f_audioFormat form)
                    then default [] (f_audioFormat form) else js "oggopus" in
      if isWellFormed format
      then exists rest,
             sent w'
             = sent w ++ YandexSttRecognize (js "ru-RU") format 48000 audio :: rest
      else fst (handler env (ReqMultipart form) w) = RespError ErrURIMalformed
           /\ sent w' = sent w)
  /\ (provider env = js "gemini" -> truthy (geminiApiKey env) = true ->
      exists systemInstruction block,
        sent w' = sent w ++ [GeminiGenerateContent systemInstruction block
                               (Some audio)]).
Proof.
  cbv zeta. unfold request_audio in Haudio.
  destruct (head (filter (fun f => fst f = js "audio") (f_files form)))
    as [audioFile|] eqn:Hfile; [|done].
  injection Haudio as Haudio.
  destruct (resolveSession_run env (f_sessionId form)
              (bool_decide (f_resetContext form = Some (js "true")))
              (f_system form) w) as (s & t & Hs & _ & _).
  split; [|split].
  - rewrite (handleMultipart_sent env form audioFile w s _ Hfile Hend Hs).
    rewrite Haudio. unfold dispatchAudio.
    intros -> ->. simpl.
    destruct (transcribe_log env (default [] (openaiApiKey env)) audio
                (mkWorld (store w) (sent w) t)) as (treqs & Hlog & Hcases).
    unfold bind at 1. unfold OpenAI.generateTextWithOpenAIAndAudio.
    unfold bind at 1.
    destruct (OpenAI.transcribe env _ audio _) as [[tr|e] w1] eqn:Htr;
      simpl in Hlog.
    + set (msgs := OpenAI.audio_messages _ _).
      destruct (chat_log env (default [] (openaiApiKey env)) msgs w1)
        as (creqs & Hchat & _).
      unfold bind at 1.
      destruct (OpenAI.chat env _ msgs w1) as [[reply|e] w2]; simpl in *;
        rewrite Hchat, Hlog;
        destruct Hcases as [-> | ->]; eexists; by rewrite <-app_assoc.
    + simpl. rewrite Hlog. destruct Hcases as [-> | ->]; by eexists.
  - intros Hsel Hkey Hfolder.
    rewrite handler_multipart.
    destruct (handleMultipart_exchange env form audioFile w Hfile Hend)
      as (s0 & t0 & Hs0 & _ & ->). simpl in Hs0.
    rewrite Hs in Hs0. injection Hs0 as <- <-.
    rewrite Haudio. unfold dispatchAudio. rewrite Hsel. simpl.
    rewrite Hkey, Hfolder. simpl.
    unfold bind at 1. unfold Yandex.generateTextWithYandexAndAudio.
    unfold bind at 1.
    pose proof (yandex_stt_log env (default [] (yandexApiKey env))
                  (default [] (yandexFolderId env)) audio
                  (Yandex.mkStt (Some (js "ru-RU"))
                     (or_else (f_audioFormat form) (Some (js "oggopus")))
                     (Some 48000))
                  (mkWorld (store w) (sent w) t)) as Hstt.
    cbv zeta in Hstt.
    assert ((if truthy (or_else (f_audioFormat form) (Some (js "oggopus")))
             then default [] (or_else (f_audioFormat form) (Some (js "oggopus")))
             else js "oggopus")
            = (if truthy (f_audioFormat form)
               then default [] (f_audioFormat form) else js "oggopus")) as Hfmt.
    { unfold or_else. by destruct (truthy (f_audioFormat form)) eqn:Hf;
        rewrite ?Hf. }
    cbn [Yandex.lang Yandex.format Yandex.sampleRateHertz] in Hstt.
    rewrite Hfmt in Hstt. clear Hfmt.
    change (truthy (Some (js "ru-RU"))) with true in Hstt.
    cbv iota in Hstt.
    change (default [] (Some (js "ru-RU"))) with (js "ru-RU") in Hstt.
    change (isWellFormed (js "ru-RU")) with true in Hstt.
    change (48000 =? 0) with false in Hstt. cbv iota in Hstt.
    cbn [andb] in Hstt.
    destruct (isWellFormed _).
    + destruct (Yandex.transcribeWithYandexSTT env _ _ audio _ _)
        as [[tr|e] w1] eqn:Htr; simpl in Hstt.
      * pose proof (yandex_text_log env (default [] (yandexApiKey env))
                      (default [] (yandexFolderId env))
                      (Yandex.audio_input
                         (InputTurns
                            (formatMessagesForProvider (Some (systemPrompt s))
                               (messages s) (f_prompt form))) tr)
                      None w1) as Hlog.
        unfold bind at 1.
        destruct (Yandex.generateTextWithYandex _ _ _ _ _ _) as [[reply|e] w2].
        -- pose proof (persistTurns_sent env (f_sessionId form) s
                         (or_else (Some tr) (f_prompt form)) (Some reply) w2)
             as Hp.
           unfold bind, ret.
           destruct (persistTurns _ _ _ _ _ _) as [[s'|e] w3]; simpl in *;
             rewrite Hp, Hlog, Hstt; eexists; by rewrite <-app_assoc.
        -- simpl in *. rewrite Hlog, Hstt. eexists. by rewrite <-app_assoc.
      * simpl. rewrite Hstt. by eexists.
    + unfold bind. rewrite Hstt. done.
  - rewrite (handleMultipart_sent env form audioFile w s _ Hfile Hend Hs).
    rewrite Haudio. unfold dispatchAudio.
    intros -> ->. simpl.
    unfold bind at 1. unfold Gemini.generateTextWithGeminiAndAudio.
    eexists _, _.
    pose proof (gemini_log env
                  (GeminiGenerateContent
                     (fst (Gemini.prepare
                             (formatMessagesForProvider (Some (systemPrompt s))
                                (messages s) (f_prompt form))))
                     (Some (snd (Gemini.prepare
                                   (formatMessagesForProvider
                                      (Some (systemPrompt s)) (messages s)
                                      (f_prompt form)))))
                     (Some audio))
                  (mkWorld (store w) (sent w) t)) as Hlog.
    destruct (Gemini.generateContent _ _ _) as [[?|?] ?]; exact Hlog.
Qed.

(** A recording in [webm] goes to speech recognition first; with a format
    that holds half a surrogate pair nothing is sent. *)
Lemma audio_first_request_witness :
  let env := env_of (js "yandex")
               [NetResponse (ok_response (js "T"));
                NetResponse (ok_response (js "reply"))] in
  let form :=
    mkForm (Some (js "Hi")) None None None None (Some (js "webm"))
      [(js "audio", [1%N; 2%N])] in
  let malformed :=
    mkForm (Some (js "Hi")) None None None None (Some [55357%N])
      [(js "audio", [1%N; 2%N])] in
  (exists rest,
     sent (snd (handler env (ReqMultipart form) initial_world))
     = YandexSttRecognize (js "ru-RU") (js "webm") 48000 [1%N; 2%N] :: rest)
  /\ fst (handler env (ReqMultipart malformed) initial_world)
     = RespError ErrURIMalformed
  /\ sent (snd (handler env (ReqMultipart malformed) initial_world)) = [].
Proof.
  intros env form malformed. split.
  - destruct (audio_first_request env form initial_world [1%N; 2%N]
                eq_refl eq_refl) as (_ & Hyandex & _).
    destruct (Hyandex eq_refl eq_refl eq_refl) as (rest & Hsent).
    exists rest. exact Hsent.
  - destruct (audio_first_request env malformed initial_world [1%N; 2%N]
                eq_refl eq_refl) as (_ & Hyandex & _).
    apply (Hyandex eq_refl eq_refl eq_refl).
Defined.
